(** * gestion-turnos-hospital: the class [GestionTurnos] of [app.py]

    A shallow embedding of the appointment manager and of the part of
    the SQLite engine its statements exercise.

    - The database is a value of type [base]: the three tables the
      statements name, each with the columns it was declared with and
      its rows.  A table that was never created is [None].
    - A statement either yields a result or raises; an exception is a
      value of [excepcion] and every [try ... except] of the source is a
      [match] on the result.
    - Every [print] of the source is a constructor of [mensaje]; a method
      returns the database it leaves, the lines it printed and its
      value.
    - The calendar functions of Python and of SQLite are not code of
      this program: they are the fields of a [biblioteca], and the
      development is parametric in it.  Instants are minutes counted
      from 0001-01-01 00:00, the least [datetime] of Python. *)

From Stdlib Require Import ZArith List String Ascii Bool Lia Permutation Sorted.
Import ListNotations.
Local Open Scope string_scope.
Local Open Scope list_scope.
Local Open Scope Z_scope.

(** ** Values and rows *)

(** What Python binds to a [?] and what a cell holds: [None], an [int]
    or a [str]. *)
Inductive valor : Type :=
| VNull
| VInt (n : Z)
| VText (s : string).

Definition valor_eqb (a b : valor) : bool :=
  match a, b with
  | VNull, VNull => true
  | VInt n, VInt m => n =? m
  | VText s, VText t => String.eqb s t
  | _, _ => false
  end.

Definition es_null (v : valor) : bool :=
  match v with VNull => true | _ => false end.

(** Truth values of SQL: [None] is NULL. *)
Definition sql_bool := option bool.

Definition sql_and (a b : sql_bool) : sql_bool :=
  match a, b with
  | Some false, _ | _, Some false => Some false
  | Some true, Some true => Some true
  | _, _ => None
  end.

Definition sql_or (a b : sql_bool) : sql_bool :=
  match a, b with
  | Some true, _ | _, Some true => Some true
  | Some false, Some false => Some false
  | _, _ => None
  end.

(** A WHERE clause keeps a row when it evaluates to true; false and NULL
    both drop it. *)
Definition cumple (b : sql_bool) : bool :=
  match b with Some true => true | _ => false end.

(** [a = b] in SQL: NULL when either side is NULL.  Values are compared
    as they are stored. *)
Definition sql_eq (a b : valor) : sql_bool :=
  match a, b with
  | VNull, _ | _, VNull => None
  | _, _ => Some (valor_eqb a b)
  end.

(** Comparison of two instants, either of which may be NULL. *)
Definition sql_lt (a b : option Z) : sql_bool :=
  match a, b with
  | Some x, Some y => Some (x <? y)
  | _, _ => None
  end.

Definition sql_gt (a b : option Z) : sql_bool := sql_lt b a.

Definition sql_ge (a b : option Z) : sql_bool :=
  match a, b with
  | Some x, Some y => Some (y <=? x)
  | _, _ => None
  end.

(** The order ORDER BY sorts cells with: NULL first, then integers, then
    text compared character by character. *)
Definition valor_leb (a b : valor) : bool :=
  match a, b with
  | VNull, _ => true
  | VInt _, VNull => false
  | VInt n, VInt m => n <=? m
  | VInt _, VText _ => true
  | VText s, VText t => String.leb s t
  | VText _, _ => false
  end.

(** A row: its rowid and the cells of the other columns, by name. *)
Record fila : Type := mk_fila {
  rowid : Z;
  campos : list (string * valor)
}.

Fixpoint asociado (c : string) (l : list (string * valor)) : option valor :=
  match l with
  | [] => None
  | (k, v) :: l' => if String.eqb k c then Some v else asociado c l'
  end.

(** ** Tables *)

Record columna : Type := mk_columna {
  col_nombre : string;
  col_default : valor;       (* DEFAULT, [VNull] when none is declared *)
  col_not_null : bool;
  col_unique : bool
}.

Record tabla : Type := mk_tabla {
  tb_clave : option string;  (* the INTEGER PRIMARY KEY column, an alias of the rowid *)
  tb_columnas : list columna;(* the other columns *)
  tb_secuencia : Z;          (* largest rowid handed out so far (AUTOINCREMENT) *)
  tb_filas : list fila
}.

(** The three tables of the program. *)
Record base : Type := mk_base {
  pacientes : option tabla;
  medicos : option tabla;
  turnos : option tabla
}.

Definition es_clave (t : tabla) (c : string) : bool :=
  match tb_clave t with
  | Some k => String.eqb k c
  | None => false
  end.

Definition tiene_columna (t : tabla) (c : string) : bool :=
  es_clave t c || existsb (fun k => String.eqb (col_nombre k) c) (tb_columnas t).

Definition tiene_columnas (t : tabla) (cs : list string) : bool :=
  forallb (tiene_columna t) cs.

(** The cell of column [c] in row [f]. *)
Definition leer (t : tabla) (c : string) (f : fila) : valor :=
  if es_clave t c then VInt (rowid f)
  else match asociado c (campos f) with
       | Some v => v
       | None => VNull
       end.

(** ** Exceptions *)

Inductive excepcion : Type :=
| OperationalError   (* sqlite3: the statement cannot be prepared *)
| IntegrityError     (* sqlite3: a constraint refuses the row *)
| ProgrammingError   (* sqlite3: wrong number of bindings *)
| ValueError         (* strptime: the text does not match the format *)
| OverflowError.     (* datetime out of range, or an int SQLite cannot hold *)

(** [except sqlite3.Error] catches the first three, [except
    sqlite3.IntegrityError] only the second, [except Exception] all. *)
Definition es_sqlite_error (e : excepcion) : bool :=
  match e with
  | OperationalError | IntegrityError | ProgrammingError => true
  | ValueError | OverflowError => false
  end.

Definition es_integrity_error (e : excepcion) : bool :=
  match e with IntegrityError => true | _ => false end.

Inductive res (A : Type) : Type :=
| Ok (a : A)
| Raise (e : excepcion).
Arguments Ok {A} a.
Arguments Raise {A} e.

(** ** Executing a statement *)

(** SQLite stores a 64-bit integer; binding a larger Python [int] raises
    [OverflowError]. *)
Definition cabe_en_sqlite (v : valor) : bool :=
  match v with
  | VInt n => (- 2 ^ 63 <=? n) && (n <? 2 ^ 63)
  | _ => true
  end.

Definition max_rowid (l : list fila) : Z :=
  fold_right (fun f m => Z.max (rowid f) m) 0 l.

(** The rowid of a new row: the one given for the key column if the
    statement names it, else one more than every rowid in use or ever
    handed out.  [None]: the key is taken or is not an integer.  A table
    that already holds the largest rowid, 2^63 - 1, where SQLite has no
    next one to hand out, is left out of this model. *)
Definition elegir_rowid (t : tabla) (dados : list (string * valor)) : option Z :=
  let nuevo := Z.max (tb_secuencia t) (max_rowid (tb_filas t)) + 1 in
  match tb_clave t with
  | None => Some nuevo
  | Some k =>
      match asociado k dados with
      | None | Some VNull => Some nuevo
      | Some (VInt n) =>
          if existsb (fun f => rowid f =? n) (tb_filas t) then None else Some n
      | Some (VText _) => None
      end
  end.

(** The cell a new row gets in column [k]: the value given for it, else
    the declared default. *)
Definition valor_insertado (dados : list (string * valor)) (k : columna) : valor :=
  match asociado (col_nombre k) dados with
  | Some v => v
  | None => col_default k
  end.

Definition viola_not_null (t : tabla) (f : fila) : bool :=
  existsb (fun k => col_not_null k && es_null (leer t (col_nombre k) f))
          (tb_columnas t).

Definition viola_unique (t : tabla) (otras : list fila) (f : fila) : bool :=
  existsb (fun k =>
             col_unique k
             && negb (es_null (leer t (col_nombre k) f))
             && existsb (fun g => valor_eqb (leer t (col_nombre k) g)
                                            (leer t (col_nombre k) f)) otras)
          (tb_columnas t).

(** [INSERT INTO t (cols) VALUES (vals)].  Prepared first (table, column
    names, as many values as columns), then bound, then run against the
    constraints.  Every statement of the class is handed as many
    parameters as it has placeholders, so [vals] are the parameters.  FOREIGN KEY clauses are not enforced: the connection
    never issues [PRAGMA foreign_keys = ON].  Returns the table with the
    row appended and the rowid ([cursor.lastrowid]). *)
Definition sql_insert (ot : option tabla) (cols : list string) (vals : list valor)
  : res (tabla * Z) :=
  match ot with
  | None => Raise OperationalError
  | Some t =>
      if negb (tiene_columnas t cols) then Raise OperationalError
      else if negb (Nat.eqb (List.length cols) (List.length vals)) then Raise OperationalError
      else if negb (forallb cabe_en_sqlite vals) then Raise OverflowError
      else
        let dados := combine cols vals in
        match elegir_rowid t dados with
        | None => Raise IntegrityError
        | Some id =>
            let f := {| rowid := id;
                        campos := map (fun k => (col_nombre k, valor_insertado dados k))
                                      (tb_columnas t) |} in
            if viola_not_null t f || viola_unique t (tb_filas t) f
            then Raise IntegrityError
            else Ok ({| tb_clave := tb_clave t;
                        tb_columnas := tb_columnas t;
                        tb_secuencia := Z.max (tb_secuencia t) id;
                        tb_filas := tb_filas t ++ [f] |}, id)
        end
  end.

(** Writing cell [c] of a row. *)
Fixpoint poner (c : string) (v : valor) (l : list (string * valor))
  : list (string * valor) :=
  match l with
  | [] => [(c, v)]
  | (k, w) :: l' => if String.eqb k c then (c, v) :: l' else (k, w) :: poner c v l'
  end.

Definition asignar (set : list (string * valor)) (f : fila) : fila :=
  {| rowid := rowid f;
     campos := fold_left (fun cs cv => poner (fst cv) (snd cv) cs) set (campos f) |}.

Definition columna_de (t : tabla) (c : string) : option columna :=
  find (fun k => String.eqb (col_nombre k) c) (tb_columnas t).

Definition set_toca_clave (t : tabla) (set : list (string * valor)) : bool :=
  existsb (fun cv => es_clave t (fst cv)) set.

Definition set_viola_not_null (t : tabla) (set : list (string * valor)) : bool :=
  existsb (fun cv => match columna_de t (fst cv) with
                     | Some k => col_not_null k && es_null (snd cv)
                     | None => false
                     end) set.

(** After the rows are rewritten, a UNIQUE column that was assigned the
    value [v] may hold it in one row only. *)
Definition set_viola_unique (t : tabla) (set : list (string * valor))
           (nuevas : list fila) : bool :=
  existsb (fun cv => match columna_de t (fst cv) with
                     | Some k =>
                         col_unique k && negb (es_null (snd cv))
                         && (1 <? Z.of_nat (List.length
                               (filter (fun g => valor_eqb (leer t (fst cv) g) (snd cv))
                                       nuevas)))
                     | None => false
                     end) set.

(** [UPDATE t SET c1 = v1, ... WHERE donde].  The statements of the
    program assign text to ordinary columns; assigning to the rowid alias
    is refused (datatype mismatch).  Returns the table and the number of
    rows the WHERE clause selected ([cursor.rowcount]). *)
Definition sql_update (ot : option tabla) (set : list (string * valor))
           (cols_where : list string) (params_where : list valor)
           (donde : tabla -> fila -> sql_bool) : res (tabla * Z) :=
  match ot with
  | None => Raise OperationalError
  | Some t =>
      if negb (tiene_columnas t (map fst set ++ cols_where)) then Raise OperationalError
      else if negb (forallb cabe_en_sqlite (map snd set ++ params_where))
      then Raise OverflowError
      else
        let elegida := fun f => cumple (donde t f) in
        let nuevas := map (fun f => if elegida f then asignar set f else f) (tb_filas t) in
        if existsb elegida (tb_filas t)
           && (set_toca_clave t set || set_viola_not_null t set
               || set_viola_unique t set nuevas)
        then Raise IntegrityError
        else Ok ({| tb_clave := tb_clave t;
                    tb_columnas := tb_columnas t;
                    tb_secuencia := tb_secuencia t;
                    tb_filas := nuevas |},
                 Z.of_nat (List.length (filter elegida (tb_filas t))))
  end.

(** [SELECT COUNT( * ) FROM t WHERE donde]. *)
Definition sql_count (ot : option tabla) (cols : list string) (params : list valor)
           (donde : tabla -> fila -> sql_bool) : res Z :=
  match ot with
  | None => Raise OperationalError
  | Some t =>
      if negb (tiene_columnas t cols) then Raise OperationalError
      else if negb (forallb cabe_en_sqlite params) then Raise OverflowError
      else Ok (Z.of_nat (List.length (filter (fun f => cumple (donde t f)) (tb_filas t))))
  end.

(** ORDER BY: insertion into a sorted list.  SQL leaves the order of
    rows with the same key open; here the earlier one stays first. *)
Fixpoint insertar_ordenado {A : Type} (leb : A -> A -> bool) (x : A) (l : list A)
  : list A :=
  match l with
  | [] => [x]
  | y :: l' => if leb x y then x :: l else y :: insertar_ordenado leb x l'
  end.

Definition ordenar {A : Type} (leb : A -> A -> bool) (l : list A) : list A :=
  fold_right (insertar_ordenado leb) [] l.

(** ** The calendar libraries *)

(** Instants are minutes from 0001-01-01 00:00.
    - [strptime s]: [datetime.strptime(s, '%Y-%m-%d %H:%M')]; [None] is
      the ValueError of a text that does not match.
    - [strftime t]: [t.strftime('%Y-%m-%d %H:%M')].
    - [sql_datetime v]: the instant of SQLite's [datetime(v)]; [None] is
      NULL.  [datetime] yields the text YYYY-MM-DD HH:MM:SS, whose order
      as text is the order of the instants.
    - [sql_date v]: the text of SQLite's [DATE(v)], or NULL. *)
Record biblioteca : Type := mk_biblioteca {
  strptime : string -> option Z;
  strftime : Z -> string;
  sql_datetime : valor -> option Z;
  sql_date : valor -> option string
}.

(** 9999-12-31 23:59, the last minute of both libraries. *)
Definition max_instante : Z := 5258964959.

(** [dt + timedelta(minutes=duracion)]: OverflowError outside the years
    1 to 9999. *)
Definition sumar_minutos (dt duracion : Z) : res Z :=
  let fin := dt + duracion in
  if (0 <=? fin) && (fin <=? max_instante) then Ok fin else Raise OverflowError.

(** [datetime(x, '+' || d || ' minutes')].  With a negative [d] the text
    reads [+-5 minutes], which is no modifier, and the result is NULL; so
    it is past the year 9999 and when [d] is NULL.  The program binds an
    [int] to the column; a duration held as text is read as NULL here. *)
Definition sql_datetime_mas (L : biblioteca) (x d : valor) : option Z :=
  match d, sql_datetime L x with
  | VInt n, Some t =>
      if (0 <=? n) && (t + n <=? max_instante) then Some (t + n) else None
  | _, _ => None
  end.

Definition sql_date_valor (L : biblioteca) (x : valor) : valor :=
  match sql_date L x with
  | Some s => VText s
  | None => VNull
  end.

(** ** What the program prints *)

Inductive mensaje : Type :=
| MsgErrorCrearTablas (e : excepcion)        (* Error al crear tablas *)
| MsgTablasCreadas                           (* Tablas creadas correctamente *)
| MsgPacienteRegistrado (id : Z)             (* Paciente ... registrado con ID *)
| MsgDniDuplicado (dni : string)             (* Ya existe un paciente con DNI *)
| MsgErrorRegistrarPaciente (e : excepcion)  (* Error al registrar paciente *)
| MsgNoDisponible                            (* El medico no esta disponible en ese horario *)
| MsgTurnoCreado (id : Z)                    (* Turno creado con ID *)
| MsgErrorCrearTurno (e : excepcion)         (* Error al crear turno *)
| MsgErrorVerificar (e : excepcion)          (* Error al verificar disponibilidad *)
| MsgErrorListarTurnos (e : excepcion)       (* Error al listar turnos *)
| MsgErrorListarTurnosPaciente (e : excepcion) (* Error al listar turnos del paciente *)
| MsgEstadoInvalido                          (* Estado invalido. Use uno de: ... *)
| MsgEstadoActualizado (estado : string)     (* Estado del turno actualizado a *)
| MsgTurnoNoEncontrado                       (* No se encontro el turno especificado *)
| MsgErrorActualizarEstado (e : excepcion).  (* Error al actualizar estado *)

(** What a method leaves behind: the database, the lines printed, and
    the value returned or the exception that escapes it. *)
Record salida (A : Type) : Type := mk_salida {
  db_final : base;
  impreso : list mensaje;
  devuelto : res A
}.
Arguments mk_salida {A} _ _ _.
Arguments db_final {A} _.
Arguments impreso {A} _.
Arguments devuelto {A} _.

Definition de_opcional (o : option string) : valor :=
  match o with
  | Some s => VText s
  | None => VNull
  end.

Definition con_turnos (db : base) (t : tabla) : base :=
  {| pacientes := pacientes db; medicos := medicos db; turnos := Some t |}.

Definition con_pacientes (db : base) (t : tabla) : base :=
  {| pacientes := Some t; medicos := medicos db; turnos := turnos db |}.

(** [x IN (a, b, ...)]. *)
Definition sql_in (x : valor) (l : list valor) : sql_bool :=
  fold_right (fun a acc => sql_or (sql_eq x a) acc) (Some false) l.

(** The table the third CREATE TABLE of [crear_tablas] spells out. *)
Definition turnos_declarada : tabla :=
  {| tb_clave := Some "id_turno";
     tb_columnas := [ mk_columna "fecha" VNull true false;
                      mk_columna "horario" VNull true false;
                      mk_columna "id_paciente" VNull true false;
                      mk_columna "id_medico" VNull true false;
                      mk_columna "id_consultorio" VNull true false ];
     tb_secuencia := 0;
     tb_filas := [] |}.

(** ** The methods of [GestionTurnos] *)

Section GestionTurnos.

Variable L : biblioteca.

(** [crear_tablas].  The text handed to the first [execute] opens with
    CREATE DATABASE, a statement SQLite does not have: preparing it raises
    OperationalError, the [try] block is left at once and no table is
    created. *)
Definition crear_tablas (db : base) : salida unit :=
  mk_salida db [MsgErrorCrearTablas OperationalError] (Ok tt).

(** [registrar_paciente]: eight columns are named, seven values given. *)
Definition registrar_paciente (db : base) (nombre apellido dni : string)
           (fecha_nacimiento telefono email direccion : option string)
  : salida (option Z) :=
  match sql_insert (pacientes db)
          ["id_paciente"; "nombre"; "apellido"; "dni"; "fecha_nacimiento";
           "genero"; "telefono"; "domicilio"]
          [VText nombre; VText apellido; VText dni; de_opcional fecha_nacimiento;
           de_opcional telefono; de_opcional email; de_opcional direccion]
  with
  | Ok (t, id) =>
      mk_salida (con_pacientes db t) [MsgPacienteRegistrado id] (Ok (Some id))
  | Raise e =>
      if es_integrity_error e then mk_salida db [MsgDniDuplicado dni] (Ok None)
      else if es_sqlite_error e
           then mk_salida db [MsgErrorRegistrarPaciente e] (Ok None)
           else mk_salida db [] (Raise e)
  end.

(** The WHERE clause of [verificar_disponibilidad], with its five
    parameters in the order the statement reads them. *)
Definition turno_ocupa (p1 p2 p3 p4 p5 : valor) (t : tabla) (f : fila) : sql_bool :=
  let inicio := sql_datetime L (leer t "fecha_hora" f) in
  let fin := sql_datetime_mas L (leer t "fecha_hora" f) (leer t "duracion" f) in
  sql_and
    (sql_and (sql_eq (leer t "medico_id" f) p1)
             (sql_in (leer t "estado" f) [VText "pendiente"; VText "confirmado"]))
    (sql_or
       (sql_and (sql_lt inicio (sql_datetime L p2)) (sql_gt fin (sql_datetime L p3)))
       (sql_and (sql_ge inicio (sql_datetime L p4)) (sql_lt inicio (sql_datetime L p5)))).

Definition contar_ocupados (db : base) (medico_id : Z) (dt dt_fin : Z) : res Z :=
  let ini_txt := VText (strftime L dt) in
  let fin_txt := VText (strftime L dt_fin) in
  sql_count (turnos db) ["medico_id"; "estado"; "fecha_hora"; "duracion"]
            [VInt medico_id; fin_txt; ini_txt; ini_txt; fin_txt]
            (turno_ocupa (VInt medico_id) fin_txt ini_txt ini_txt fin_txt).

(** [verificar_disponibilidad]: any exception is caught, reported and
    answered with False. *)
Definition verificar_disponibilidad (db : base) (medico_id : Z)
           (fecha_hora : string) (duracion : Z) : list mensaje * bool :=
  let intento :=
    match strptime L fecha_hora with
    | None => Raise ValueError
    | Some dt =>
        match sumar_minutos dt duracion with
        | Raise e => Raise e
        | Ok dt_fin => contar_ocupados db medico_id dt dt_fin
        end
    end in
  match intento with
  | Ok count => ([], count =? 0)
  | Raise e => ([MsgErrorVerificar e], false)
  end.

(** [crear_turno].  Only [sqlite3.Error] is caught: an [int] too large to
    bind escapes to the caller. *)
Definition crear_turno (db : base) (paciente_id medico_id : Z) (fecha_hora : string)
           (duracion : Z) (motivo_consulta : option string) : salida (option Z) :=
  let '(avisos, disponible) :=
    verificar_disponibilidad db medico_id fecha_hora duracion in
  if negb disponible then mk_salida db (avisos ++ [MsgNoDisponible]) (Ok None)
  else
    match sql_insert (turnos db)
            ["paciente_id"; "medico_id"; "fecha_hora"; "duracion"; "motivo_consulta"]
            [VInt paciente_id; VInt medico_id; VText fecha_hora; VInt duracion;
             de_opcional motivo_consulta]
    with
    | Ok (t, id) =>
        mk_salida (con_turnos db t) (avisos ++ [MsgTurnoCreado id]) (Ok (Some id))
    | Raise e =>
        if es_sqlite_error e
        then mk_salida db (avisos ++ [MsgErrorCrearTurno e]) (Ok None)
        else mk_salida db avisos (Raise e)
    end.

(** The rows of [turnos t JOIN pacientes p ON t.paciente_id = p.id JOIN
    medicos m ON t.medico_id = m.id]. *)
Definition unir_turnos (t p m : tabla) : list (fila * fila * fila) :=
  flat_map (fun ft =>
    flat_map (fun fp =>
      map (fun fm => (ft, fp, fm))
          (filter (fun fm => cumple (sql_eq (leer t "medico_id" ft) (leer m "id" fm)))
                  (tb_filas m)))
      (filter (fun fp => cumple (sql_eq (leer t "paciente_id" ft) (leer p "id" fp)))
              (tb_filas p)))
    (tb_filas t).

Definition en_fecha (t : tabla) (fecha : string) (j : fila * fila * fila) : bool :=
  let '(ft, _, _) := j in
  cumple (sql_eq (sql_date_valor L (leer t "fecha_hora" ft)) (VText fecha)).

Definition clave_orden (t : tabla) (j : fila * fila * fila) : valor :=
  let '(ft, _, _) := j in leer t "fecha_hora" ft.

Definition tupla_por_fecha (t p m : tabla) (j : fila * fila * fila) : list valor :=
  let '(ft, fp, fm) := j in
  [leer t "id" ft; leer p "nombre" fp; leer p "apellido" fp;
   leer m "nombre" fm; leer m "apellido" fm; leer m "especialidad" fm;
   leer t "fecha_hora" ft; leer t "duracion" ft; leer t "estado" ft;
   leer t "motivo_consulta" ft].

(** The columns the SELECT of [listar_turnos_por_fecha] names. *)
Definition columnas_por_fecha (t p m : tabla) : bool :=
  tiene_columnas t ["id"; "fecha_hora"; "duracion"; "estado"; "motivo_consulta";
                    "paciente_id"; "medico_id"]
  && tiene_columnas p ["nombre"; "apellido"; "id"]
  && tiene_columnas m ["nombre"; "apellido"; "especialidad"; "id"].

Definition seleccionar_por_fecha (db : base) (fecha : string)
  : res (list (list valor)) :=
  match turnos db, pacientes db, medicos db with
  | Some t, Some p, Some m =>
      if negb (columnas_por_fecha t p m) then Raise OperationalError
      else Ok (map (tupla_por_fecha t p m)
                   (ordenar (fun a b => valor_leb (clave_orden t a) (clave_orden t b))
                            (filter (en_fecha t fecha) (unir_turnos t p m))))
  | _, _, _ => Raise OperationalError
  end.

(** [listar_turnos_por_fecha]. *)
Definition listar_turnos_por_fecha (db : base) (fecha : string)
  : salida (list (list valor)) :=
  match seleccionar_por_fecha db fecha with
  | Ok filas => mk_salida db [] (Ok filas)
  | Raise e =>
      if es_sqlite_error e then mk_salida db [MsgErrorListarTurnos e] (Ok [])
      else mk_salida db [] (Raise e)
  end.

(** The rows of [turnos t JOIN medicos m ON t.medico_id = m.id]. *)
Definition unir_medicos (t m : tabla) : list (fila * fila) :=
  flat_map (fun ft =>
    map (fun fm => (ft, fm))
        (filter (fun fm => cumple (sql_eq (leer t "medico_id" ft) (leer m "id" fm)))
                (tb_filas m)))
    (tb_filas t).

Definition tupla_paciente (t m : tabla) (j : fila * fila) : list valor :=
  let '(ft, fm) := j in
  [leer t "id" ft; leer m "nombre" fm; leer m "apellido" fm; leer m "especialidad" fm;
   leer t "fecha_hora" ft; leer t "duracion" ft; leer t "estado" ft;
   leer t "motivo_consulta" ft].

(** The columns the SELECT of [listar_turnos_paciente] names. *)
Definition columnas_paciente (t m : tabla) : bool :=
  tiene_columnas t ["id"; "fecha_hora"; "duracion"; "estado"; "motivo_consulta";
                    "medico_id"; "paciente_id"]
  && tiene_columnas m ["nombre"; "apellido"; "especialidad"; "id"].

Definition del_paciente (t : tabla) (paciente_id : Z) (j : fila * fila) : bool :=
  cumple (sql_eq (leer t "paciente_id" (fst j)) (VInt paciente_id)).

Definition seleccionar_paciente (db : base) (paciente_id : Z)
  : res (list (list valor)) :=
  match turnos db, medicos db with
  | Some t, Some m =>
      if negb (columnas_paciente t m) then Raise OperationalError
      else if negb (cabe_en_sqlite (VInt paciente_id)) then Raise OverflowError
      else Ok (map (tupla_paciente t m)
                   (ordenar (fun a b => valor_leb (leer t "fecha_hora" (fst b))
                                                  (leer t "fecha_hora" (fst a)))
                            (filter (del_paciente t paciente_id) (unir_medicos t m))))
  | _, _ => Raise OperationalError
  end.

(** [listar_turnos_paciente]. *)
Definition listar_turnos_paciente (db : base) (paciente_id : Z)
  : salida (list (list valor)) :=
  match seleccionar_paciente db paciente_id with
  | Ok filas => mk_salida db [] (Ok filas)
  | Raise e =>
      if es_sqlite_error e then mk_salida db [MsgErrorListarTurnosPaciente e] (Ok [])
      else mk_salida db [] (Raise e)
  end.

Definition estados_validos : list string :=
  ["pendiente"; "confirmado"; "cancelado"; "completado"].

(** [if observaciones:] holds for a text that is not empty. *)
Definition verdadero (o : option string) : bool :=
  match o with
  | Some s => negb (String.eqb s "")
  | None => false
  end.

Definition con_id (turno_id : Z) (t : tabla) (f : fila) : sql_bool :=
  sql_eq (leer t "id" f) (VInt turno_id).

(** [actualizar_estado_turno]. *)
Definition actualizar_estado_turno (db : base) (turno_id : Z) (nuevo_estado : string)
           (observaciones : option string) : salida bool :=
  if negb (existsb (String.eqb nuevo_estado) estados_validos)
  then mk_salida db [MsgEstadoInvalido] (Ok false)
  else
    let hecho :=
      if verdadero observaciones
      then sql_update (turnos db)
             [("estado", VText nuevo_estado); ("observaciones", de_opcional observaciones)]
             ["id"] [VInt turno_id] (con_id turno_id)
      else sql_update (turnos db) [("estado", VText nuevo_estado)]
             ["id"] [VInt turno_id] (con_id turno_id) in
    match hecho with
    | Ok (t, rowcount) =>
        if 0 <? rowcount
        then mk_salida (con_turnos db t) [MsgEstadoActualizado nuevo_estado] (Ok true)
        else mk_salida (con_turnos db t) [MsgTurnoNoEncontrado] (Ok false)
    | Raise e =>
        if es_sqlite_error e then mk_salida db [MsgErrorActualizarEstado e] (Ok false)
        else mk_salida db [] (Raise e)
    end.

End GestionTurnos.

(** ** A calendar to run the methods with

    [calendario] reads and writes the texts of the format
    YYYY-MM-DD HH:MM.  Its [strptime] also takes a month, day, hour or
    minute written with one digit and several blanks between date and
    time, as Python does; its [sql_datetime] wants two digits in each, as
    SQLite does, and takes blanks or a T between date and time.  It knows
    no other form (seconds, Julian day numbers, days past the end of a
    month), and of the texts Python takes it leaves out those with other
    white space than blanks between date and time, with a blank in place
    of a digit, or with digits outside ASCII. *)
Module Calendario.

Definition es_digito (c : ascii) : bool :=
  let n := nat_of_ascii c in (48 <=? n)%nat && (n <=? 57)%nat.

Definition valor_digito (c : ascii) : Z := Z.of_nat (nat_of_ascii c) - 48.

(** Reads at most [n] leading digits; returns how many were read, their
    value and the rest. *)
Fixpoint leer_numero (n : nat) (cuenta : nat) (acc : Z) (l : list ascii)
  : nat * Z * list ascii :=
  match n, l with
  | S n', c :: l' =>
      if es_digito c then leer_numero n' (S cuenta) (10 * acc + valor_digito c) l'
      else (cuenta, acc, l)
  | _, _ => (cuenta, acc, l)
  end.

(** A number of [minimo] to [maximo] digits. *)
Definition numero (minimo maximo : nat) (l : list ascii) : option (Z * list ascii) :=
  let '(cuenta, v, resto) := leer_numero maximo 0 0 l in
  if (minimo <=? cuenta)%nat then Some (v, resto) else None.

Definition simbolo (c : ascii) (l : list ascii) : option (list ascii) :=
  match l with
  | d :: l' => if Ascii.eqb c d then Some l' else None
  | [] => None
  end.

Fixpoint saltar (p : ascii -> bool) (l : list ascii) : list ascii :=
  match l with
  | c :: l' => if p c then saltar p l' else l
  | [] => []
  end.

Definition es_bisiesto (y : Z) : bool :=
  ((y mod 4 =? 0) && negb (y mod 100 =? 0)) || (y mod 400 =? 0).

Definition dias_mes (y m : Z) : Z :=
  if m =? 2 then (if es_bisiesto y then 29 else 28)
  else if (m =? 4) || (m =? 6) || (m =? 9) || (m =? 11) then 30 else 31.

Definition dias_antes_de_anio (y : Z) : Z :=
  (y - 1) * 365 + (y - 1) / 4 - (y - 1) / 100 + (y - 1) / 400.

Fixpoint dias_antes_de_mes (y : Z) (m : nat) : Z :=
  match m with
  | O => 0
  | S m' => dias_antes_de_mes y m' + dias_mes y (Z.of_nat m)
  end.

Definition instante (y m d h mi : Z) : Z :=
  ((dias_antes_de_anio y + dias_antes_de_mes y (Z.to_nat (m - 1)) + (d - 1)) * 24 + h)
  * 60 + mi.

Definition fecha_valida (y m d : Z) : bool :=
  (1 <=? m) && (m <=? 12) && (1 <=? d) && (d <=? dias_mes y m).

Definition hora_valida (h mi : Z) : bool :=
  (0 <=? h) && (h <=? 23) && (0 <=? mi) && (mi <=? 59).

(** YYYY-M-D, each of month and day with [minimo] to two digits. *)
Definition leer_fecha (minimo : nat) (l : list ascii)
  : option (Z * Z * Z * list ascii) :=
  match numero 4 4 l with
  | None => None
  | Some (y, l1) =>
      match simbolo "-" l1 with
      | None => None
      | Some l2 =>
          match numero minimo 2 l2 with
          | None => None
          | Some (m, l3) =>
              match simbolo "-" l3 with
              | None => None
              | Some l4 =>
                  match numero minimo 2 l4 with
                  | None => None
                  | Some (d, l5) => Some (y, m, d, l5)
                  end
              end
          end
      end
  end.

(** H:M to the end of the text. *)
Definition leer_hora (minimo : nat) (l : list ascii) : option (Z * Z) :=
  match numero minimo 2 l with
  | None => None
  | Some (h, l1) =>
      match simbolo ":" l1 with
      | None => None
      | Some l2 =>
          match numero minimo 2 l2 with
          | Some (mi, []) => Some (h, mi)
          | _ => None
          end
      end
  end.

Definition es_blanco (c : ascii) : bool := Ascii.eqb c " ".
Definition es_blanco_o_t (c : ascii) : bool := Ascii.eqb c " " || Ascii.eqb c "T".

Definition strptime (s : string) : option Z :=
  match leer_fecha 1 (list_ascii_of_string s) with
  | Some (y, m, d, c :: resto) =>
      if es_blanco c then
        match leer_hora 1 (saltar es_blanco resto) with
        | Some (h, mi) =>
            if (1 <=? y) && fecha_valida y m d && hora_valida h mi
            then Some (instante y m d h mi) else None
        | None => None
        end
      else None
  | _ => None
  end.

Definition leer_sqlite (s : string) : option (Z * Z * Z * Z * Z) :=
  match leer_fecha 2 (list_ascii_of_string s) with
  | Some (y, m, d, []) =>
      if fecha_valida y m d then Some (y, m, d, 0, 0) else None
  | Some (y, m, d, c :: resto) =>
      if es_blanco_o_t c then
        match leer_hora 2 (saltar es_blanco_o_t resto) with
        | Some (h, mi) =>
            if fecha_valida y m d && hora_valida h mi then Some (y, m, d, h, mi)
            else None
        | None => None
        end
      else None
  | None => None
  end.

Definition sql_datetime (v : valor) : option Z :=
  match v with
  | VText s =>
      match leer_sqlite s with
      | Some (y, m, d, h, mi) => Some (instante y m d h mi)
      | None => None
      end
  | _ => None
  end.

Definition cifra (n : Z) : string :=
  String (ascii_of_nat (Z.to_nat (48 + n mod 10))) EmptyString.

Definition dos_cifras (n : Z) : string := cifra (n / 10) ++ cifra n.

(** The year as glibc writes [%Y]: without leading zeros. *)
Definition texto_anio (y : Z) : string :=
  (if 1000 <=? y then cifra (y / 1000) else "")
  ++ (if 100 <=? y then cifra (y / 100) else "")
  ++ (if 10 <=? y then cifra (y / 10) else "")
  ++ cifra y.

Definition cuatro_cifras (y : Z) : string :=
  cifra (y / 1000) ++ cifra (y / 100) ++ cifra (y / 10) ++ cifra y.

Fixpoint buscar_anio (fuel : nat) (y dias : Z) : Z :=
  match fuel with
  | O => y
  | S fuel' =>
      if dias_antes_de_anio (y + 1) <=? dias then buscar_anio fuel' (y + 1) dias else y
  end.

Fixpoint buscar_mes (fuel : nat) (y m dias : Z) : Z * Z :=
  match fuel with
  | O => (m, dias)
  | S fuel' =>
      if dias_mes y m <=? dias then buscar_mes fuel' y (m + 1) (dias - dias_mes y m)
      else (m, dias)
  end.

(** Year, month, day, hour and minute of an instant. *)
Definition desglosar (t : Z) : Z * Z * Z * Z * Z :=
  let dias := t / 1440 in
  let y := buscar_anio 64 (dias / 366 + 1) dias in
  let '(m, d) := buscar_mes 12 y 1 (dias - dias_antes_de_anio y) in
  (y, m, d + 1, (t mod 1440) / 60, t mod 60).

Definition strftime (t : Z) : string :=
  let '(y, m, d, h, mi) := desglosar t in
  (texto_anio y ++ "-" ++ dos_cifras m ++ "-" ++ dos_cifras d ++ " "
   ++ dos_cifras h ++ ":" ++ dos_cifras mi)%string.

Definition sql_date (v : valor) : option string :=
  match v with
  | VText s =>
      match leer_sqlite s with
      | Some (y, m, d, _, _) =>
          Some (cuatro_cifras y ++ "-" ++ dos_cifras m ++ "-" ++ dos_cifras d)%string
      | None => None
      end
  | _ => None
  end.

End Calendario.

Definition calendario : biblioteca :=
  {| strptime := Calendario.strptime;
     strftime := Calendario.strftime;
     sql_datetime := Calendario.sql_datetime;
     sql_date := Calendario.sql_date |}.

(** ** Databases to run the methods on *)

Definition columna_libre (nombre : string) : columna :=
  mk_columna nombre VNull false false.

(** Tables with the columns the statements of the class name; new rows
    of [turnos] start as [pendiente]. *)
Definition tabla_turnos (estado_inicial : valor) : tabla :=
  {| tb_clave := Some "id";
     tb_columnas := [ mk_columna "paciente_id" VNull true false;
                      mk_columna "medico_id" VNull true false;
                      mk_columna "fecha_hora" VNull true false;
                      mk_columna "duracion" (VInt 30) false false;
                      mk_columna "estado" estado_inicial false false;
                      columna_libre "motivo_consulta";
                      columna_libre "observaciones" ];
     tb_secuencia := 0;
     tb_filas := [] |}.

Definition tabla_pacientes : tabla :=
  {| tb_clave := Some "id";
     tb_columnas := [ mk_columna "nombre" VNull true false;
                      mk_columna "apellido" VNull true false;
                      mk_columna "dni" VNull true true;
                      columna_libre "fecha_nacimiento";
                      columna_libre "genero";
                      columna_libre "telefono";
                      columna_libre "domicilio" ];
     tb_secuencia := 0;
     tb_filas := [] |}.

Definition tabla_medicos : tabla :=
  {| tb_clave := Some "id";
     tb_columnas := [ mk_columna "nombre" VNull true false;
                      mk_columna "apellido" VNull true false;
                      mk_columna "especialidad" VNull true false;
                      mk_columna "matricula" VNull true true;
                      columna_libre "telefono";
                      columna_libre "email" ];
     tb_secuencia := 0;
     tb_filas := [] |}.

Definition base_ejemplo : base :=
  {| pacientes := Some tabla_pacientes;
     medicos := Some tabla_medicos;
     turnos := Some (tabla_turnos (VText "pendiente")) |}.

(** The same, with [estado] declared without a DEFAULT. *)
Definition base_sin_default : base :=
  {| pacientes := Some tabla_pacientes;
     medicos := Some tabla_medicos;
     turnos := Some (tabla_turnos VNull) |}.

(** A new database file: [crear_tablas] has created nothing. *)
Definition base_nueva : base :=
  {| pacientes := None; medicos := None; turnos := None |}.

(** The database [crear_tablas] spells out for [turnos]. *)
Definition base_declarada : base :=
  {| pacientes := None; medicos := None; turnos := Some turnos_declarada |}.

Definition una_fila (id : Z) (l : list (string * valor)) : fila :=
  {| rowid := id; campos := l |}.

(** One patient, one physician and the appointments given. *)
Definition base_con (filas_turnos : list fila) : base :=
  {| pacientes :=
       Some {| tb_clave := Some "id"; tb_columnas := tb_columnas tabla_pacientes;
               tb_secuencia := 1;
               tb_filas := [una_fila 1 [("nombre", VText "Juan"); ("apellido", VText "Perez");
                                        ("dni", VText "12345678")]] |};
     medicos :=
       Some {| tb_clave := Some "id"; tb_columnas := tb_columnas tabla_medicos;
               tb_secuencia := 1;
               tb_filas := [una_fila 1 [("nombre", VText "Carlos");
                                        ("apellido", VText "Rodriguez");
                                        ("especialidad", VText "Cardiologia");
                                        ("matricula", VText "MN12345")]] |};
     turnos :=
       Some {| tb_clave := Some "id";
               tb_columnas := tb_columnas (tabla_turnos (VText "pendiente"));
               tb_secuencia := max_rowid filas_turnos;
               tb_filas := filas_turnos |} |}.

Definition turno (id paciente medico : Z) (fecha_hora : string) (duracion : Z)
           (estado : string) : fila :=
  una_fila id [("paciente_id", VInt paciente); ("medico_id", VInt medico);
               ("fecha_hora", VText fecha_hora); ("duracion", VInt duracion);
               ("estado", VText estado); ("motivo_consulta", VNull);
               ("observaciones", VNull)].

(** ** Intervals, in the words of the specification *)

(** The pending and confirmed appointments are the ones that occupy the
    calendar of a physician. *)
Definition es_activo_de (t : tabla) (medico_id : Z) (f : fila) : bool :=
  valor_eqb (leer t "medico_id" f) (VInt medico_id)
  && (valor_eqb (leer t "estado" f) (VText "pendiente")
      || valor_eqb (leer t "estado" f) (VText "confirmado")).

(** The interval [start, start + duration) of an appointment, the start
    being the instant Python reads in the stored text. *)
Definition intervalo (L : biblioteca) (t : tabla) (f : fila) : option (Z * Z) :=
  match leer t "fecha_hora" f, leer t "duracion" f with
  | VText txt, VInt d => option_map (fun s => (s, s + d)) (strptime L txt)
  | _, _ => None
  end.

(** [a, b) and [c, d) overlap iff a < d and c < b. *)
Definition solapan (a b c d : Z) : bool := (a <? d) && (c <? b).

(** [a] lies in [c, d). *)
Definition empieza_dentro (a c d : Z) : bool := (c <=? a) && (a <? d).

(** No active appointment of the physician overlaps [c, d). *)
Definition sin_solape (L : biblioteca) (t : tabla) (medico_id c d : Z) : bool :=
  forallb (fun f => negb (es_activo_de t medico_id f
                          && match intervalo L t f with
                             | Some (a, b) => solapan a b c d
                             | None => false
                             end))
          (tb_filas t).

(** No active appointment of the physician overlaps [c, d) or starts
    inside it. *)
Definition sin_estorbo (L : biblioteca) (t : tabla) (medico_id c d : Z) : bool :=
  forallb (fun f => negb (es_activo_de t medico_id f
                          && match intervalo L t f with
                             | Some (a, b) => solapan a b c d || empieza_dentro a c d
                             | None => false
                             end))
          (tb_filas t).

(** A row whose start text SQLite reads as Python does, with an integer
    duration that ends within the calendar. *)
Definition legible (L : biblioteca) (t : tabla) (f : fila) : Prop :=
  exists txt s d,
    leer t "fecha_hora" f = VText txt
    /\ strptime L txt = Some s
    /\ sql_datetime L (VText txt) = Some s
    /\ leer t "duracion" f = VInt d
    /\ s + d <= max_instante.

(** SQLite reads back the text Python writes for the instant [t]. *)
Definition releido (L : biblioteca) (t : Z) : Prop :=
  sql_datetime L (VText (strftime L t)) = Some t.

(** A table [actualizar_estado_turno] can write to: [id] is its key and
    it has columns [estado] and [observaciones] that are not UNIQUE. *)
Definition columna_sin_unique (t : tabla) (c : string) : bool :=
  match columna_de t c with
  | Some k => negb (col_unique k)
  | None => false
  end.

Definition tabla_actualizable (t : tabla) : bool :=
  es_clave t "id" && columna_sin_unique t "estado" && columna_sin_unique t "observaciones".

(** The row an INSERT builds. *)
Definition fila_nueva (t : tabla) (dados : list (string * valor)) (id : Z) : fila :=
  {| rowid := id;
     campos := map (fun k => (col_nombre k, valor_insertado dados k)) (tb_columnas t) |}.

(** The state a new appointment starts in: the DEFAULT the table declares
    for [estado]. *)
Definition estado_inicial (t : tabla) : valor :=
  match columna_de t "estado" with
  | Some k => col_default k
  | None => VNull
  end.

(** The start text is the seventh field of a row listed by date and the
    fifth of a row listed by patient. *)
Definition inicio_por_fecha (x : list valor) : valor := nth 6 x VNull.
Definition inicio_paciente (x : list valor) : valor := nth 4 x VNull.

(** ** The calendar of a physician, in the words of the specification *)

(** The intervals of the active appointments of a physician, in the
    order of the rows. *)
Definition intervalos_de (L : biblioteca) (t : tabla) (medico_id : Z) (filas : list fila)
  : list (Z * Z) :=
  flat_map (fun f => if es_activo_de t medico_id f
                     then match intervalo L t f with
                          | Some i => [i]
                          | None => []
                          end
                     else [])
           filas.

Definition intervalos_activos (L : biblioteca) (t : tabla) (medico_id : Z) : list (Z * Z) :=
  intervalos_de L t medico_id (tb_filas t).

(** No two intervals of the list overlap. *)
Fixpoint pares_sin_solape (l : list (Z * Z)) : bool :=
  match l with
  | [] => true
  | (a, b) :: l' =>
      forallb (fun cd => negb (solapan a b (fst cd) (snd cd))) l' && pares_sin_solape l'
  end.

(** One call of [crear_turno], but for the physician. *)
Record llamada : Type := mk_llamada {
  ll_paciente : Z;
  ll_fecha_hora : string;
  ll_duracion : Z;
  ll_motivo : option string
}.

(** A sequence of calls of [crear_turno] for one physician. *)
Definition crear_turnos (L : biblioteca) (db : base) (medico_id : Z) (l : list llamada)
  : base :=
  fold_left (fun db c => db_final (crear_turno L db (ll_paciente c) medico_id
                                               (ll_fecha_hora c) (ll_duracion c)
                                               (ll_motivo c)))
            l db.

(** A call whose start text, if Python parses it, SQLite reads as the
    same instant, and whose two bounds SQLite reads back. *)
Definition texto_legible (L : biblioteca) (c : llamada) : Prop :=
  forall dt,
    strptime L (ll_fecha_hora c) = Some dt ->
    sql_datetime L (VText (ll_fecha_hora c)) = Some dt
    /\ releido L dt
    /\ releido L (dt + ll_duracion c).

(** The state a sequence of calls keeps: the active appointments of the
    physician are rows both libraries read alike, and no two of them
    overlap. *)
Definition calendario_en_orden (L : biblioteca) (medico_id : Z) (db : base) : Prop :=
  exists t,
    turnos db = Some t
    /\ (forall f, In f (tb_filas t) -> es_activo_de t medico_id f = true -> legible L t f)
    /\ pares_sin_solape (intervalos_activos L t medico_id) = true.

(** ** The registers of patients and physicians *)

(** What [registrar_medico], [buscar_paciente_por_dni], [listar_pacientes]
    and [listar_medicos] print. *)
Inductive aviso : Type :=
| AvisoMedicoRegistrado (id : Z)               (* Medico ... registrado con ID *)
| AvisoMatriculaDuplicada (matricula : string) (* Ya existe un medico con matricula *)
| AvisoErrorRegistrarMedico (e : excepcion)    (* Error al registrar medico *)
| AvisoErrorBuscarPaciente (e : excepcion)     (* Error al buscar paciente *)
| AvisoErrorListarPacientes (e : excepcion)    (* Error al listar pacientes *)
| AvisoErrorListarMedicos (e : excepcion).     (* Error al listar medicos *)

Record resultado (A : Type) : Type := mk_resultado {
  rs_db : base;
  rs_avisos : list aviso;
  rs_valor : res A
}.
Arguments mk_resultado {A} _ _ _.
Arguments rs_db {A} _.
Arguments rs_avisos {A} _.
Arguments rs_valor {A} _.

Definition con_medicos (db : base) (t : tabla) : base :=
  {| pacientes := pacientes db; medicos := Some t; turnos := turnos db |}.

(** The tuple [SELECT *] yields for a row: its cells in the order of the
    columns, the key first, where every CREATE TABLE of the source
    declares it. *)
Definition tupla_estrella (t : tabla) (f : fila) : list valor :=
  match tb_clave t with
  | Some _ => [VInt (rowid f)]
  | None => []
  end ++ map (fun k => leer t (col_nombre k) f) (tb_columnas t).

(** [registrar_medico].  Any constraint that refuses the row is reported
    as a duplicate licence. *)
Definition registrar_medico (db : base) (nombre apellido especialidad matricula : string)
           (telefono email : option string) : resultado (option Z) :=
  match sql_insert (medicos db)
          ["nombre"; "apellido"; "especialidad"; "matricula"; "telefono"; "email"]
          [VText nombre; VText apellido; VText especialidad; VText matricula;
           de_opcional telefono; de_opcional email]
  with
  | Ok (t, id) =>
      mk_resultado (con_medicos db t) [AvisoMedicoRegistrado id] (Ok (Some id))
  | Raise e =>
      if es_integrity_error e
      then mk_resultado db [AvisoMatriculaDuplicada matricula] (Ok None)
      else if es_sqlite_error e
           then mk_resultado db [AvisoErrorRegistrarMedico e] (Ok None)
           else mk_resultado db [] (Raise e)
  end.

(** [SELECT * FROM t WHERE donde [ORDER BY ...]]: the rows kept, in the
    order given by [leb], or in the order of the table when the statement
    has no ORDER BY. *)
Definition sql_select (ot : option tabla) (cols : list string) (params : list valor)
           (donde : tabla -> fila -> sql_bool) (leb : option (tabla -> fila -> fila -> bool))
  : res (list (list valor)) :=
  match ot with
  | None => Raise OperationalError
  | Some t =>
      if negb (tiene_columnas t cols) then Raise OperationalError
      else if negb (forallb cabe_en_sqlite params) then Raise OverflowError
      else
        let elegidas := filter (fun f => cumple (donde t f)) (tb_filas t) in
        Ok (map (tupla_estrella t)
                (match leb with
                 | Some o => ordenar (o t) elegidas
                 | None => elegidas
                 end))
  end.

Definition sin_where (t : tabla) (f : fila) : sql_bool := Some true.

Definition con_dni (dni : string) (t : tabla) (f : fila) : sql_bool :=
  sql_eq (leer t "dni" f) (VText dni).

(** [buscar_paciente_por_dni]: [fetchone] gives the first row of the
    result, or None. *)
Definition buscar_paciente_por_dni (db : base) (dni : string)
  : resultado (option (list valor)) :=
  match sql_select (pacientes db) ["dni"] [VText dni] (con_dni dni) None with
  | Ok filas => mk_resultado db [] (Ok (hd_error filas))
  | Raise e =>
      if es_sqlite_error e then mk_resultado db [AvisoErrorBuscarPaciente e] (Ok None)
      else mk_resultado db [] (Raise e)
  end.

(** ORDER BY c1, c2, ...: the first column on which two rows differ
    decides. *)
Fixpoint lex_leb (a b : list valor) : bool :=
  match a, b with
  | x :: a', y :: b' => valor_leb x y && (negb (valor_leb y x) || lex_leb a' b')
  | _, _ => true
  end.

Definition orden_por (cols : list string) (t : tabla) (f g : fila) : bool :=
  lex_leb (map (fun c => leer t c f) cols) (map (fun c => leer t c g) cols).

(** [listar_pacientes]. *)
Definition listar_pacientes (db : base) : resultado (list (list valor)) :=
  match sql_select (pacientes db) ["apellido"; "nombre"] [] sin_where
                   (Some (orden_por ["apellido"; "nombre"]))
  with
  | Ok filas => mk_resultado db [] (Ok filas)
  | Raise e =>
      if es_sqlite_error e then mk_resultado db [AvisoErrorListarPacientes e] (Ok [])
      else mk_resultado db [] (Raise e)
  end.

Definition con_especialidad (especialidad : valor) (t : tabla) (f : fila) : sql_bool :=
  sql_eq (leer t "especialidad" f) especialidad.

(** [listar_medicos]: [if especialidad:] holds for a text that is not
    empty. *)
Definition listar_medicos (db : base) (especialidad : option string)
  : resultado (list (list valor)) :=
  let hecho :=
    if verdadero especialidad
    then sql_select (medicos db) ["especialidad"; "apellido"; "nombre"]
                    [de_opcional especialidad] (con_especialidad (de_opcional especialidad))
                    (Some (orden_por ["apellido"; "nombre"]))
    else sql_select (medicos db) ["especialidad"; "apellido"; "nombre"] [] sin_where
                    (Some (orden_por ["especialidad"; "apellido"; "nombre"])) in
  match hecho with
  | Ok filas => mk_resultado db [] (Ok filas)
  | Raise e =>
      if es_sqlite_error e then mk_resultado db [AvisoErrorListarMedicos e] (Ok [])
      else mk_resultado db [] (Raise e)
  end.

(** The table of physicians the second CREATE TABLE of [crear_tablas]
    spells out. *)
Definition medicos_declarada : tabla :=
  {| tb_clave := Some "id_medico";
     tb_columnas := [ mk_columna "nombre" VNull true false;
                      mk_columna "apellido" VNull true false;
                      mk_columna "especialidad" VNull true false;
                      mk_columna "telefono" VNull true false ];
     tb_secuencia := 0;
     tb_filas := [] |}.

Definition medico (id : Z) (nombre apellido especialidad matricula : string) : fila :=
  una_fila id [("nombre", VText nombre); ("apellido", VText apellido);
               ("especialidad", VText especialidad); ("matricula", VText matricula);
               ("telefono", VNull); ("email", VNull)].

Definition base_de_medicos (filas : list fila) : base :=
  {| pacientes := Some tabla_pacientes;
     medicos := Some {| tb_clave := Some "id";
                        tb_columnas := tb_columnas tabla_medicos;
                        tb_secuencia := max_rowid filas;
                        tb_filas := filas |};
     turnos := Some (tabla_turnos (VText "pendiente")) |}.

(** The table [t] holding the rows [l]. *)
Definition con_filas (t : tabla) (l : list fila) : tabla :=
  {| tb_clave := tb_clave t;
     tb_columnas := tb_columnas t;
     tb_secuencia := tb_secuencia t;
     tb_filas := l |}.


Definition paciente (id : Z) (nombre apellido dni : string) : fila :=
  una_fila id [("nombre", VText nombre); ("apellido", VText apellido);
               ("dni", VText dni); ("fecha_nacimiento", VNull); ("genero", VNull);
               ("telefono", VNull); ("domicilio", VNull)].

Definition base_de_pacientes (filas : list fila) : base :=
  {| pacientes := Some {| tb_clave := Some "id";
                          tb_columnas := tb_columnas tabla_pacientes;
                          tb_secuencia := max_rowid filas;
                          tb_filas := filas |};
     medicos := Some tabla_medicos;
     turnos := Some (tabla_turnos (VText "pendiente")) |}.

(** The assignments of the UPDATE [actualizar_estado_turno] runs. *)
Definition asignaciones (nuevo_estado : string) (observaciones : option string)
  : list (string * valor) :=
  if verdadero observaciones
  then [("estado", VText nuevo_estado); ("observaciones", de_opcional observaciones)]
  else [("estado", VText nuevo_estado)].

(** ** The example of use at the end of [app.py] *)

(** A line of output: what a method prints, or what the script itself
    prints. *)
Inductive linea : Type :=
| Texto (s : string)                     (* a constant text *)
| ConexionExitosa (db_name : string)     (* Conexion exitosa a ... *)
| ConexionCerrada                        (* Conexion cerrada *)
| DeMetodo (m : mensaje)
| DeRegistro (a : aviso)
| LineaTurno (id paciente_nombre paciente_apellido medico_nombre medico_apellido
              especialidad hora estado : valor)
| LineaEncontrado (nombre apellido dni : valor).

(** What stops the script: an exception a method lets through, or a
    tuple indexed past its end. *)
Inductive interrupcion : Type :=
| DeBiblioteca (e : excepcion)
| IndexError.

(** A stretch of the script: from the database it finds to the database
    it leaves, the lines it prints, and its value or what stopped it. *)
Definition guion (A : Type) : Type := base -> base * list linea * (A + interrupcion).

Definition devolver {A : Type} (a : A) : guion A := fun db => (db, [], inl a).

Definition luego {A B : Type} (c : guion A) (k : A -> guion B) : guion B :=
  fun db =>
    match c db with
    | (db1, l1, inl a) =>
        match k a db1 with
        | (db2, l2, r) => (db2, l1 ++ l2, r)
        end
    | (db1, l1, inr e) => (db1, l1, inr e)
    end.

Notation "x <- c ;; k" := (luego c (fun x => k))
  (at level 61, c at next level, right associativity).
Notation "c ;;; k" := (luego c (fun _ => k))
  (at level 61, right associativity).

Definition imprimir (l : linea) : guion unit := fun db => (db, [l], inl tt).

Definition interrumpir {A : Type} (e : interrupcion) : guion A :=
  fun db => (db, [], inr e).

Definition metodo {A : Type} (m : base -> salida A) : guion A :=
  fun db =>
    (db_final (m db), map DeMetodo (impreso (m db)),
     match devuelto (m db) with
     | Ok a => inl a
     | Raise e => inr (DeBiblioteca e)
     end).

Definition registro {A : Type} (m : base -> resultado A) : guion A :=
  fun db =>
    (rs_db (m db), map DeRegistro (rs_avisos (m db)),
     match rs_valor (m db) with
     | Ok a => inl a
     | Raise e => inr (DeBiblioteca e)
     end).

(** [conectar], when [sqlite3.connect] opens the file, which it creates
    if it is missing.  A file that cannot be opened is outside this
    model. *)
Definition conectar (db_name : string) : guion unit :=
  imprimir (ConexionExitosa db_name).

(** [__init__]. *)
Definition construir (db_name : string) : guion unit :=
  conectar db_name ;;; metodo crear_tablas.

(** [cerrar_conexion], the connection being set. *)
Definition cerrar_conexion : guion unit := imprimir ConexionCerrada.

(** [if paciente_id and medico_id:] holds when neither is None or 0. *)
Definition si_ambos (paciente_id medico_id : option Z) (k : Z -> Z -> guion unit)
  : guion unit :=
  match paciente_id, medico_id with
  | Some p, Some m => if negb (p =? 0) && negb (m =? 0) then k p m else devolver tt
  | _, _ => devolver tt
  end.

(** [x[k]]. *)
Definition elemento (k : nat) (x : list valor) : guion valor :=
  match nth_error x k with
  | Some v => devolver v
  | None => interrumpir IndexError
  end.

Definition imprimir_turno (x : list valor) : guion unit :=
  a0 <- elemento 0 x ;; a1 <- elemento 1 x ;; a2 <- elemento 2 x ;;
  a3 <- elemento 3 x ;; a4 <- elemento 4 x ;; a5 <- elemento 5 x ;;
  a6 <- elemento 6 x ;; a8 <- elemento 8 x ;;
  imprimir (LineaTurno a0 a1 a2 a3 a4 a5 a6 a8).

Fixpoint por_cada (l : list (list valor)) : guion unit :=
  match l with
  | [] => devolver tt
  | x :: l' => imprimir_turno x ;;; por_cada l'
  end.

Definition salto : string := String (ascii_of_nat 10) EmptyString.
Definition barra : string := "==================================================".
Definition guiones : string := "--------------------------------------------------".

(** The block under [if __name__ == "__main__":]. *)
Definition ejemplo_de_uso (L : biblioteca) : guion unit :=
  construir "hospital_turnos.db" ;;;
  imprimir (Texto (salto ++ barra)) ;;;
  imprimir (Texto "EJEMPLO DE USO DEL SISTEMA") ;;;
  imprimir (Texto (barra ++ salto)) ;;;
  imprimir (Texto "1. REGISTRANDO PACIENTES") ;;;
  imprimir (Texto guiones) ;;;
  paciente1_id <- metodo (fun db =>
    registrar_paciente db "Juan" "Pérez" "12345678" (Some "1980-05-15")
      (Some "1145678901") (Some "juan.perez@email.com") (Some "Av. Corrientes 1234")) ;;
  paciente2_id <- metodo (fun db =>
    registrar_paciente db "María" "González" "87654321" (Some "1992-08-20")
      (Some "1156789012") (Some "maria.gonzalez@email.com") None) ;;
  paciente3_id <- metodo (fun db =>
    registrar_paciente db "Milagros" "Suarez" "2432423" (Some "200-14-05")
      (Some "2424232423") (Some "suarezmilagros@email.com") (Some "Av. Corrientes 1324")) ;;
  imprimir (Texto (salto ++ "2. REGISTRANDO MÉDICOS")) ;;;
  imprimir (Texto guiones) ;;;
  medico1_id <- registro (fun db =>
    registrar_medico db "Carlos" "Rodríguez" "Cardiología" "MN12345"
      (Some "1167890123") (Some "dr.rodriguez@hospital.com")) ;;
  medico2_id <- registro (fun db =>
    registrar_medico db "Ana" "Martínez" "Traumatología" "MN67890"
      (Some "1178901234") (Some "dra.martinez@hospital.com")) ;;
  imprimir (Texto (salto ++ "3. CREANDO TURNOS")) ;;;
  imprimir (Texto guiones) ;;;
  si_ambos paciente1_id medico1_id (fun p m =>
    _ <- metodo (fun db => crear_turno L db p m "2025-11-20 10:00" 30
                                       (Some "Control rutinario")) ;;
    devolver tt) ;;;
  si_ambos paciente2_id medico2_id (fun p m =>
    _ <- metodo (fun db => crear_turno L db p m "2025-11-20 11:00" 45
                                       (Some "Dolor de rodilla")) ;;
    devolver tt) ;;;
  imprimir (Texto (salto ++ "4. TURNOS DEL DÍA 2025-11-20")) ;;;
  imprimir (Texto guiones) ;;;
  turnos_del_dia <- metodo (fun db => listar_turnos_por_fecha L db "2025-11-20") ;;
  por_cada turnos_del_dia ;;;
  imprimir (Texto (salto ++ "5. ACTUALIZANDO ESTADO DE TURNO")) ;;;
  imprimir (Texto guiones) ;;;
  _ <- metodo (fun db =>
    actualizar_estado_turno db 1 "confirmado" (Some "Paciente confirmó por teléfono")) ;;
  imprimir (Texto (salto ++ "6. BUSCAR PACIENTE POR DNI")) ;;;
  imprimir (Texto guiones) ;;;
  encontrado <- registro (fun db => buscar_paciente_por_dni db "2432423") ;;
  match encontrado with
  | Some (v :: x) =>
      a1 <- elemento 1 (v :: x) ;; a2 <- elemento 2 (v :: x) ;;
      a3 <- elemento 3 (v :: x) ;;
      imprimir (LineaEncontrado a1 a2 a3)
  | _ => devolver tt
  end ;;;
  imprimir (Texto (salto ++ barra)) ;;;
  imprimir (Texto "FIN DEL EJEMPLO") ;;;
  imprimir (Texto (barra ++ salto)) ;;;
  cerrar_conexion.

(** [__del__].  [cerrar_conexion] leaves [self.conn] set, and closing a
    closed connection is allowed, so the destructor prints the line
    again. *)
Definition destructor : guion unit := cerrar_conexion.

(** A run of [app.py] as a program: the block, then the interpreter
    finalises [sistema] on its way out, as CPython does, also when an
    exception stopped the block. *)
Definition programa (L : biblioteca) : guion unit :=
  fun db =>
    match ejemplo_de_uso L db with
    | (db1, l1, r) =>
        match destructor db1 with
        | (db2, l2, _) => (db2, l1 ++ l2, r)
        end
    end.

(** A database with one patient, one physician and two appointments of
    2025-11-20, to run the example on. *)
Definition base_con_datos : base :=
  {| pacientes :=
       Some (con_filas tabla_pacientes
               [una_fila 1 [("nombre", VText "Milagros"); ("apellido", VText "Suarez");
                            ("dni", VText "2432423"); ("fecha_nacimiento", VNull);
                            ("genero", VNull); ("telefono", VNull);
                            ("domicilio", VNull)]]);
     medicos :=
       Some {| tb_clave := Some "id"; tb_columnas := tb_columnas tabla_medicos;
               tb_secuencia := 1;
               tb_filas := [medico 1 "Carla" "Ruiz" "Clinica" "MN12345"] |};
     turnos :=
       Some {| tb_clave := Some "id";
               tb_columnas := tb_columnas (tabla_turnos (VText "pendiente"));
               tb_secuencia := 2;
               tb_filas :=
                 [una_fila 1 [("paciente_id", VInt 1); ("medico_id", VInt 1);
                              ("fecha_hora", VText "2025-11-20 10:00");
                              ("duracion", VInt 30); ("estado", VText "pendiente");
                              ("motivo_consulta", VNull); ("observaciones", VNull)];
                  una_fila 2 [("paciente_id", VInt 1); ("medico_id", VInt 1);
                              ("fecha_hora", VText "2025-11-20 09:00");
                              ("duracion", VInt 30); ("estado", VText "cancelado");
                              ("motivo_consulta", VNull); ("observaciones", VNull)]] |} |}.

(** A stretch of script that keeps [Inv] of the database, prints only
    lines that satisfy [Bien] and, when it ends, yields a value that
    satisfies [Q]. *)
Definition mantiene {A : Type} (Inv : base -> Prop) (Bien : linea -> Prop)
           (c : guion A) (Q : A -> Prop) : Prop :=
  forall db,
    Inv db ->
    match c db with
    | (db', ls, r) =>
        Inv db' /\ Forall Bien ls
        /\ match r with
           | inl a => Q a
           | inr _ => True
           end
    end.

(** The ids of the appointments the database holds, in the order of the
    table, if it has the table. *)
Definition ids_de_turnos (db : base) : option (list Z) :=
  option_map (fun t => map rowid (tb_filas t)) (turnos db).

(** A line that does not announce a new patient or a new appointment. *)
Definition sin_altas (l : linea) : Prop :=
  match l with
  | DeMetodo (MsgTurnoCreado _) | DeMetodo (MsgPacienteRegistrado _) => False
  | _ => True
  end.

(** The database keeps the patients and the ids of the appointments of
    [db0]. *)
Definition mismas_altas (db0 db : base) : Prop :=
  pacientes db = pacientes db0 /\ ids_de_turnos db = ids_de_turnos db0.

(** ** Two callers on one database *)

(** A table that takes every row [crear_turno] inserts: it is keyed by
    [id], has the columns the INSERT names, no column of it is UNIQUE,
    and NOT NULL is declared on none but the four columns the INSERT
    always fills. *)
Definition siempre_dado (c : string) : bool :=
  existsb (String.eqb c) ["paciente_id"; "medico_id"; "fecha_hora"; "duracion"].

Definition admite_turnos (t : tabla) : bool :=
  es_clave t "id"
  && tiene_columnas t ["paciente_id"; "medico_id"; "fecha_hora"; "duracion";
                       "motivo_consulta"]
  && forallb (fun k => negb (col_unique k)
                       && (negb (col_not_null k) || siempre_dado (col_nombre k)))
             (tb_columnas t).

(** The rowid the next INSERT that does not name the key gets. *)
Definition siguiente_rowid (t : tabla) : Z :=
  Z.max (tb_secuencia t) (max_rowid (tb_filas t)) + 1.

(** [crear_turno] reaches the database twice: with the SELECT of
    [verificar_disponibilidad] and, when the answer is True, with the
    INSERT and its commit.  Nothing is held from the one to the other, no
    transaction and no lock, so what another connection commits in
    between is what the INSERT finds.  A caller is before the check,
    between the check and the INSERT, or done. *)
Inductive punto : Type :=
| PorVerificar
| PorInsertar (avisos : list mensaje)
| Terminado (impreso : list mensaje) (devuelto : res (option Z)).

(** The next access of a caller to the database. *)
Definition avanzar (L : biblioteca) (medico_id : Z) (c : llamada) (db : base) (p : punto)
  : base * punto :=
  match p with
  | PorVerificar =>
      let '(avisos, disponible) :=
        verificar_disponibilidad L db medico_id (ll_fecha_hora c) (ll_duracion c) in
      if negb disponible then (db, Terminado (avisos ++ [MsgNoDisponible]) (Ok None))
      else (db, PorInsertar avisos)
  | PorInsertar avisos =>
      match sql_insert (turnos db)
              ["paciente_id"; "medico_id"; "fecha_hora"; "duracion"; "motivo_consulta"]
              [VInt (ll_paciente c); VInt medico_id; VText (ll_fecha_hora c);
               VInt (ll_duracion c); de_opcional (ll_motivo c)]
      with
      | Ok (t, id) =>
          (con_turnos db t, Terminado (avisos ++ [MsgTurnoCreado id]) (Ok (Some id)))
      | Raise e =>
          if es_sqlite_error e
          then (db, Terminado (avisos ++ [MsgErrorCrearTurno e]) (Ok None))
          else (db, Terminado avisos (Raise e))
      end
  | Terminado _ _ => (db, p)
  end.

(** Two callers, each with a connection of its own to the same database,
    and the order in which they reach it. *)
Inductive quien : Type := Uno | Otro.

Record carrera : Type := mk_carrera {
  cr_db : base;
  cr_uno : punto;
  cr_otro : punto
}.

Definition turno_de (L : biblioteca) (medico_id : Z) (c1 c2 : llamada) (s : carrera)
           (q : quien) : carrera :=
  match q with
  | Uno =>
      let '(db, p) := avanzar L medico_id c1 (cr_db s) (cr_uno s) in
      mk_carrera db p (cr_otro s)
  | Otro =>
      let '(db, p) := avanzar L medico_id c2 (cr_db s) (cr_otro s) in
      mk_carrera db (cr_uno s) p
  end.

Definition correr (L : biblioteca) (medico_id : Z) (c1 c2 : llamada) (db : base)
           (plan : list quien) : carrera :=
  fold_left (turno_de L medico_id c1 c2) plan (mk_carrera db PorVerificar PorVerificar).

(** * Proofs *)

(** ** Values *)

Lemma valor_eqb_eq (a b : valor) : valor_eqb a b = true <-> a = b.
Proof.
  destruct a, b; simpl; split; intro H; try congruence; try reflexivity.
  - apply Z.eqb_eq in H. now subst.
  - inversion H. apply Z.eqb_refl.
  - apply String.eqb_eq in H. now subst.
  - inversion H. apply String.eqb_refl.
Qed.

(** ** Cells and rows *)

Lemma asociado_poner_mismo (c : string) (v : valor) (l : list (string * valor)) :
  asociado c (poner c v l) = Some v.
Proof.
  induction l as [|[k w] l IH]; simpl.
  - now rewrite String.eqb_refl.
  - destruct (String.eqb k c) eqn:E; simpl.
    + now rewrite String.eqb_refl.
    + now rewrite E.
Qed.

Lemma asociado_poner_otro (c c' : string) (v : valor) (l : list (string * valor)) :
  c' <> c -> asociado c' (poner c v l) = asociado c' l.
Proof.
  intro Hne. induction l as [|[k w] l IH]; simpl.
  - destruct (String.eqb c c') eqn:E; [apply String.eqb_eq in E; congruence | reflexivity].
  - destruct (String.eqb k c) eqn:E; simpl.
    + apply String.eqb_eq in E. subst k.
      destruct (String.eqb c c') eqn:E'; [apply String.eqb_eq in E'; congruence | reflexivity].
    + destruct (String.eqb k c'); [reflexivity | exact IH].
Qed.

Lemma leer_asignar_estado_otro (t : tabla) (v : valor) (f : fila) (c : string) :
  c <> "estado" -> leer t c (asignar [("estado", v)] f) = leer t c f.
Proof.
  intro Hne. unfold leer, asignar. simpl.
  destruct (es_clave t c); [reflexivity|].
  now rewrite asociado_poner_otro.
Qed.

Lemma leer_asignar_estado (t : tabla) (v : valor) (f : fila) :
  es_clave t "estado" = false -> leer t "estado" (asignar [("estado", v)] f) = v.
Proof.
  intro Hk. unfold leer, asignar. simpl. rewrite Hk.
  now rewrite asociado_poner_mismo.
Qed.

Lemma leer_asignar_estado_obs (t : tabla) (v w : valor) (f : fila) :
  es_clave t "estado" = false ->
  leer t "estado" (asignar [("estado", v); ("observaciones", w)] f) = v.
Proof.
  intro Hk. unfold leer, asignar. simpl. rewrite Hk.
  rewrite asociado_poner_otro by discriminate.
  now rewrite asociado_poner_mismo.
Qed.

(** [leer] looks at the table only for the name of its key. *)
Lemma leer_misma_clave (t t' : tabla) (c : string) (f : fila) :
  tb_clave t' = tb_clave t -> leer t' c f = leer t c f.
Proof. intro H. unfold leer, es_clave. now rewrite H. Qed.

Lemma cumple_sql_eq (a b : valor) : cumple (sql_eq a b) = true -> a = b.
Proof.
  destruct a, b; simpl; try discriminate; intro H.
  - destruct (n =? n0) eqn:E; [|discriminate]. apply Z.eqb_eq in E. now subst.
  - destruct (String.eqb s s0) eqn:E; [|discriminate]. apply String.eqb_eq in E. now subst.
Qed.

Lemma Forall2_map_derecha {A B : Type} (P : A -> B -> Prop) (g : A -> B) (l : list A) :
  (forall x, In x l -> P x (g x)) -> Forall2 P l (map g l).
Proof.
  induction l as [|x l IH]; simpl; intro H; constructor.
  - apply H. now left.
  - apply IH. intros y Hy. apply H. now right.
Qed.

Lemma Forall2_mismo {A : Type} (P : A -> A -> Prop) (l : list A) :
  (forall x, In x l -> P x x) -> Forall2 P l l.
Proof.
  intro H. rewrite <- (map_id l) at 2. now apply Forall2_map_derecha.
Qed.

Lemma longitud_filter_cero {A : Type} (p : A -> bool) (l : list A) :
  (Z.of_nat (List.length (filter p l)) =? 0) = forallb (fun x => negb (p x)) l.
Proof.
  induction l as [|x l IH]; simpl; [reflexivity|].
  destruct (p x); simpl; [|exact IH].
  first [reflexivity | apply Z.eqb_neq; lia].
Qed.

Lemma longitud_filter_positiva {A : Type} (p : A -> bool) (l : list A) :
  (0 <? Z.of_nat (List.length (filter p l))) = existsb p l.
Proof.
  induction l as [|x l IH]; simpl; [reflexivity|].
  destruct (p x); simpl; [|exact IH].
  first [reflexivity | apply Z.ltb_lt; lia].
Qed.

(** ** Statements *)

(** A statement that names more or fewer columns than it gives values is
    never run. *)
Lemma sql_insert_descuadrado (ot : option tabla) (cols : list string) (vals : list valor) :
  List.length cols <> List.length vals ->
  sql_insert ot cols vals = Raise OperationalError.
Proof.
  intro Hne. unfold sql_insert. destruct ot as [t|]; [|reflexivity].
  destruct (tiene_columnas t cols); simpl; [|reflexivity].
  apply Nat.eqb_neq in Hne. now rewrite Hne.
Qed.

(** What a successful UPDATE leaves. *)
Lemma sql_update_ok (ot : option tabla) (set : list (string * valor))
      (cw : list string) (pw : list valor) (donde : tabla -> fila -> sql_bool)
      (t' : tabla) (n : Z) :
  sql_update ot set cw pw donde = Ok (t', n) ->
  exists t,
    ot = Some t
    /\ tb_clave t' = tb_clave t
    /\ tb_columnas t' = tb_columnas t
    /\ tb_secuencia t' = tb_secuencia t
    /\ tb_filas t' = map (fun f => if cumple (donde t f) then asignar set f else f)
                         (tb_filas t)
    /\ n = Z.of_nat (List.length (filter (fun f => cumple (donde t f)) (tb_filas t)))
    /\ (existsb (fun f => cumple (donde t f)) (tb_filas t) = true ->
        set_toca_clave t set = false).
Proof.
  unfold sql_update. destruct ot as [t|]; [|discriminate].
  destruct (tiene_columnas t (map fst set ++ cw)); simpl; [|discriminate].
  destruct (forallb cabe_en_sqlite (map snd set ++ pw)); simpl; [|discriminate].
  destruct (existsb (fun f => cumple (donde t f)) (tb_filas t)) eqn:Ex; simpl.
  - destruct (set_toca_clave t set) eqn:Hk; simpl; [discriminate|].
    destruct (set_viola_not_null t set || set_viola_unique t set _); [discriminate|].
    intro H. inversion H; subst. exists t. simpl.
    repeat split; first [reflexivity | intros _; exact Hk].
  - intro H. inversion H; subst. exists t. simpl.
    repeat split; first [reflexivity | intro Hx; rewrite Hx in Ex; discriminate].
Qed.

Lemma sql_update_exito (t : tabla) (set : list (string * valor))
      (cw : list string) (pw : list valor) (donde : tabla -> fila -> sql_bool) :
  tiene_columnas t (map fst set ++ cw) = true ->
  forallb cabe_en_sqlite (map snd set ++ pw) = true ->
  set_toca_clave t set = false ->
  set_viola_not_null t set = false ->
  (forall nuevas, set_viola_unique t set nuevas = false) ->
  sql_update (Some t) set cw pw donde
  = Ok ({| tb_clave := tb_clave t;
           tb_columnas := tb_columnas t;
           tb_secuencia := tb_secuencia t;
           tb_filas := map (fun f => if cumple (donde t f) then asignar set f else f)
                           (tb_filas t) |},
        Z.of_nat (List.length (filter (fun f => cumple (donde t f)) (tb_filas t)))).
Proof.
  intros Hc Hb Hk Hn Hu. unfold sql_update.
  rewrite Hc, Hb, Hk, Hn, Hu. simpl.
  now rewrite andb_false_r.
Qed.

Lemma en_estados_validos (s : string) :
  existsb (String.eqb s) estados_validos = true <-> In s estados_validos.
Proof.
  rewrite existsb_exists. split.
  - intros [x [Hin Heq]]. apply String.eqb_eq in Heq. now subst.
  - intro Hin. exists s. split; [exact Hin | apply String.eqb_refl].
Qed.

Lemma columna_sin_unique_tiene (t : tabla) (c : string) :
  columna_sin_unique t c = true -> tiene_columna t c = true.
Proof.
  unfold columna_sin_unique, columna_de, tiene_columna. intro H.
  destruct (find _ (tb_columnas t)) as [k|] eqn:Ef; [|discriminate].
  apply find_some in Ef. destruct Ef as [Hin Hk].
  apply orb_true_iff. right. apply existsb_exists. now exists k.
Qed.

Lemma es_clave_unica (t : tabla) (c c' : string) :
  es_clave t c = true -> c' <> c -> es_clave t c' = false.
Proof.
  unfold es_clave. destruct (tb_clave t) as [k|]; [|discriminate].
  intros H Hne. apply String.eqb_eq in H. subst k.
  apply String.eqb_neq. congruence.
Qed.

Lemma tabla_actualizable_estado (t : tabla) (v : string) (turno_id : Z)
      (donde : tabla -> fila -> sql_bool) :
  tabla_actualizable t = true ->
  cabe_en_sqlite (VInt turno_id) = true ->
  sql_update (Some t) [("estado", VText v)] ["id"] [VInt turno_id] donde
  = Ok ({| tb_clave := tb_clave t;
           tb_columnas := tb_columnas t;
           tb_secuencia := tb_secuencia t;
           tb_filas := map (fun f => if cumple (donde t f)
                                     then asignar [("estado", VText v)] f else f)
                           (tb_filas t) |},
        Z.of_nat (List.length (filter (fun f => cumple (donde t f)) (tb_filas t)))).
Proof.
  unfold tabla_actualizable. intros Ht Hid.
  apply andb_true_iff in Ht. destruct Ht as [Ht Ho].
  apply andb_true_iff in Ht. destruct Ht as [Hk He].
  apply sql_update_exito.
  - simpl. rewrite (columna_sin_unique_tiene _ _ He).
    unfold tiene_columna. now rewrite Hk.
  - cbn [map snd app forallb]. rewrite Hid. reflexivity.
  - simpl. rewrite (es_clave_unica t "id" "estado" Hk) by discriminate. reflexivity.
  - simpl. destruct (columna_de t "estado"); [now rewrite andb_false_r | reflexivity].
  - intro nuevas. unfold set_viola_unique. simpl.
    unfold columna_sin_unique in He.
    destruct (columna_de t "estado") as [k|]; [|reflexivity].
    destruct (col_unique k); [discriminate | reflexivity].
Qed.

Lemma tabla_actualizable_estado_obs (t : tabla) (v w : string) (turno_id : Z)
      (donde : tabla -> fila -> sql_bool) :
  tabla_actualizable t = true ->
  cabe_en_sqlite (VInt turno_id) = true ->
  sql_update (Some t) [("estado", VText v); ("observaciones", VText w)]
             ["id"] [VInt turno_id] donde
  = Ok ({| tb_clave := tb_clave t;
           tb_columnas := tb_columnas t;
           tb_secuencia := tb_secuencia t;
           tb_filas := map (fun f => if cumple (donde t f)
                                     then asignar [("estado", VText v);
                                                   ("observaciones", VText w)] f
                                     else f)
                           (tb_filas t) |},
        Z.of_nat (List.length (filter (fun f => cumple (donde t f)) (tb_filas t)))).
Proof.
  unfold tabla_actualizable. intros Ht Hid.
  apply andb_true_iff in Ht. destruct Ht as [Ht Ho].
  apply andb_true_iff in Ht. destruct Ht as [Hk He].
  apply sql_update_exito.
  - simpl. rewrite (columna_sin_unique_tiene _ _ He), (columna_sin_unique_tiene _ _ Ho).
    unfold tiene_columna. now rewrite Hk.
  - cbn [map snd app forallb]. rewrite Hid. reflexivity.
  - simpl. rewrite (es_clave_unica t "id" "estado" Hk) by discriminate.
    rewrite (es_clave_unica t "id" "observaciones" Hk) by discriminate. reflexivity.
  - simpl. destruct (columna_de t "estado"), (columna_de t "observaciones");
      rewrite ?andb_false_r; reflexivity.
  - intro nuevas. unfold set_viola_unique. simpl.
    unfold columna_sin_unique in He, Ho.
    destruct (columna_de t "estado") as [k|]; [|discriminate].
    destruct (columna_de t "observaciones") as [k'|]; [|discriminate].
    destruct (col_unique k); [discriminate|].
    destruct (col_unique k'); [discriminate | reflexivity].
Qed.

(** ** Patients *)

(** C7, the defect behind it.  [registrar_paciente] never registers
    anyone: its INSERT names eight columns and gives seven values, so the
    statement is refused when it is prepared, whatever the database and
    the patient; the method reports a registration error and returns
    None, leaving the database as it was.  The first of two registrations
    with one national ID therefore fails too, and the duplicate report is
    never reached. *)
Theorem registrar_paciente_nunca_registra :
  forall (db : base) (nombre apellido dni : string)
         (fecha_nacimiento telefono email direccion : option string),
    registrar_paciente db nombre apellido dni fecha_nacimiento telefono email direccion
    = mk_salida db [MsgErrorRegistrarPaciente OperationalError] (Ok None).
Proof.
  intros. unfold registrar_paciente.
  rewrite sql_insert_descuadrado by (simpl; discriminate).
  reflexivity.
Qed.

(** The first registration of the example at the end of [app.py]. *)
Example registrar_paciente_juan :
  devuelto (registrar_paciente base_ejemplo "Juan" "Perez" "12345678"
              (Some "1980-05-15") (Some "1145678901") (Some "juan.perez@email.com")
              (Some "Av. Corrientes 1234"))
  = Ok None.
Proof. reflexivity. Qed.

(** ** State changes *)

Lemma con_id_rowid (t : tabla) (turno_id : Z) (f : fila) :
  es_clave t "id" = true ->
  cumple (con_id turno_id t f) = (rowid f =? turno_id).
Proof.
  intro Hk. unfold con_id, leer. rewrite Hk. simpl.
  now destruct (rowid f =? turno_id).
Qed.

(** A completed appointment goes back to pending. *)
Lemma actualizar_estado_turno_desde_completado :
  devuelto (actualizar_estado_turno
              (base_con [turno 1 1 1 "2025-11-20 10:00" 30 "completado"])
              1 "pendiente" None) = Ok true
  /\ option_map tb_filas
       (turnos (db_final (actualizar_estado_turno
                            (base_con [turno 1 1 1 "2025-11-20 10:00" 30 "completado"])
                            1 "pendiente" None)))
     = Some [turno 1 1 1 "2025-11-20 10:00" 30 "pendiente"].
Proof. split; reflexivity. Qed.

(** C3, as the code has it.  [actualizar_estado_turno] refuses a new
    state only when it is not one of the four recognised texts: it then
    reports the invalid state, returns False and leaves the database as it
    was.  For a recognised state there is no table of moves and no
    terminal state: on a table it can write to, the appointment with the
    given id gets the new state whatever state it was in, the change is
    reported and True is returned; the other appointments stay as they
    were. *)
Theorem actualizar_estado_turno_sobrescribe :
  forall (db : base) (t : tabla) (turno_id : Z) (nuevo_estado : string)
         (observaciones : option string),
    (~ In nuevo_estado estados_validos ->
     actualizar_estado_turno db turno_id nuevo_estado observaciones
     = mk_salida db [MsgEstadoInvalido] (Ok false))
    /\ (In nuevo_estado estados_validos ->
        turnos db = Some t ->
        tabla_actualizable t = true ->
        cabe_en_sqlite (VInt turno_id) = true ->
        (exists f, In f (tb_filas t) /\ rowid f = turno_id) ->
        devuelto (actualizar_estado_turno db turno_id nuevo_estado observaciones) = Ok true
        /\ impreso (actualizar_estado_turno db turno_id nuevo_estado observaciones)
           = [MsgEstadoActualizado nuevo_estado]
        /\ exists t',
            turnos (db_final (actualizar_estado_turno db turno_id nuevo_estado observaciones))
            = Some t'
            /\ Forall2 (fun f f' =>
                          rowid f' = rowid f
                          /\ (rowid f = turno_id ->
                              leer t' "estado" f' = VText nuevo_estado)
                          /\ (rowid f <> turno_id -> f' = f))
                       (tb_filas t) (tb_filas t')).
Proof.
  intros db t turno_id nuevo_estado observaciones. split.
  - intro Hno. unfold actualizar_estado_turno.
    destruct (existsb (String.eqb nuevo_estado) estados_validos) eqn:E; [|reflexivity].
    apply en_estados_validos in E. contradiction.
  - intros Hin Ht Hact Hid [f0 [Hf0 Hr0]].
    apply en_estados_validos in Hin.
    assert (Hk : es_clave t "id" = true).
    { unfold tabla_actualizable in Hact.
      apply andb_true_iff in Hact. destruct Hact as [Hact _].
      apply andb_true_iff in Hact. tauto. }
    assert (He : es_clave t "estado" = false)
      by (apply (es_clave_unica t "id"); [exact Hk | discriminate]).
    assert (Hpos : existsb (fun f => cumple (con_id turno_id t f)) (tb_filas t) = true).
    { apply existsb_exists. exists f0. split; [exact Hf0|].
      rewrite con_id_rowid by exact Hk. now apply Z.eqb_eq. }
    unfold actualizar_estado_turno. rewrite Hin, Ht. simpl negb. cbv iota.
    destruct (verdadero observaciones) eqn:Ev.
    + destruct observaciones as [w|]; [|discriminate]. simpl de_opcional.
      rewrite tabla_actualizable_estado_obs by assumption.
      rewrite longitud_filter_positiva, Hpos. simpl.
      repeat split. eexists. split; [reflexivity|]. simpl.
      apply Forall2_map_derecha. intros f Hf.
      rewrite con_id_rowid by exact Hk.
      destruct (rowid f =? turno_id) eqn:Er.
      * repeat split.
        -- intros _. rewrite (leer_misma_clave t) by reflexivity.
           now apply leer_asignar_estado_obs.
        -- intro Hne. apply Z.eqb_eq in Er. contradiction.
      * repeat split. intro Heq. apply Z.eqb_neq in Er. contradiction.
    + rewrite tabla_actualizable_estado by assumption.
      rewrite longitud_filter_positiva, Hpos. simpl.
      repeat split. eexists. split; [reflexivity|]. simpl.
      apply Forall2_map_derecha. intros f Hf.
      rewrite con_id_rowid by exact Hk.
      destruct (rowid f =? turno_id) eqn:Er.
      * repeat split.
        -- intros _. rewrite (leer_misma_clave t) by reflexivity.
           now apply leer_asignar_estado.
        -- intro Hne. apply Z.eqb_eq in Er. contradiction.
      * repeat split. intro Heq. apply Z.eqb_neq in Er. contradiction.
Qed.

Lemma actualizar_estado_turno_sobrescribe_ejemplo :
  actualizar_estado_turno (base_con [turno 1 1 1 "2025-11-20 10:00" 30 "cancelado"])
                          1 "archivado" None
  = mk_salida (base_con [turno 1 1 1 "2025-11-20 10:00" 30 "cancelado"])
              [MsgEstadoInvalido] (Ok false)
  /\ devuelto (actualizar_estado_turno
                 (base_con [turno 1 1 1 "2025-11-20 10:00" 30 "cancelado"])
                 1 "confirmado" (Some "llamo por telefono")) = Ok true.
Proof.
  split.
  - apply (actualizar_estado_turno_sobrescribe
             (base_con [turno 1 1 1 "2025-11-20 10:00" 30 "cancelado"])
             (tabla_turnos VNull) 1 "archivado" None).
    simpl. intuition discriminate.
  - refine (proj1 (proj2 (actualizar_estado_turno_sobrescribe
             (base_con [turno 1 1 1 "2025-11-20 10:00" 30 "cancelado"])
             _ 1 "confirmado" (Some "llamo por telefono")) _ eq_refl _ _ _)).
    + simpl. tauto.
    + reflexivity.
    + reflexivity.
    + eexists. split; [left; reflexivity | reflexivity].
Defined.

(** C10.  With a recognised new state and observations that are None or
    the empty text, [actualizar_estado_turno] does the same in both
    cases, and what it does is confined to the state: the patients and
    physicians are untouched, the appointments table keeps its columns
    and its rows one by one, every cell other than [estado] reads as
    before (the observations among them), an appointment with another id
    is the same row as before, and when True is returned the appointment
    with the given id holds the new state.  And on a table it can write
    to, for the id of a stored appointment, True is returned, the change
    is reported, and that appointment holds the new state with every
    other cell as before. *)
Theorem actualizar_estado_turno_sin_observaciones :
  forall (db : base) (turno_id : Z) (nuevo_estado : string)
         (observaciones : option string),
    In nuevo_estado estados_validos ->
    observaciones = None \/ observaciones = Some "" ->
    actualizar_estado_turno db turno_id nuevo_estado observaciones
    = actualizar_estado_turno db turno_id nuevo_estado None
    /\ pacientes (db_final (actualizar_estado_turno db turno_id nuevo_estado observaciones))
       = pacientes db
    /\ medicos (db_final (actualizar_estado_turno db turno_id nuevo_estado observaciones))
       = medicos db
    /\ match turnos db,
             turnos (db_final (actualizar_estado_turno db turno_id nuevo_estado
                                                       observaciones))
       with
       | Some t, Some t' =>
           tb_clave t' = tb_clave t
           /\ tb_columnas t' = tb_columnas t
           /\ tb_secuencia t' = tb_secuencia t
           /\ Forall2 (fun f f' =>
                         rowid f' = rowid f
                         /\ (forall c, c <> "estado" -> leer t' c f' = leer t c f)
                         /\ (leer t "id" f <> VInt turno_id -> f' = f)
                         /\ (devuelto (actualizar_estado_turno db turno_id nuevo_estado
                                                               observaciones) = Ok true ->
                             leer t "id" f = VInt turno_id ->
                             leer t' "estado" f' = VText nuevo_estado))
                      (tb_filas t) (tb_filas t')
       | None, None => True
       | _, _ => False
       end
    /\ (forall t,
           turnos db = Some t ->
           tabla_actualizable t = true ->
           cabe_en_sqlite (VInt turno_id) = true ->
           (exists f, In f (tb_filas t) /\ rowid f = turno_id) ->
           devuelto (actualizar_estado_turno db turno_id nuevo_estado observaciones)
           = Ok true
           /\ impreso (actualizar_estado_turno db turno_id nuevo_estado observaciones)
              = [MsgEstadoActualizado nuevo_estado]
           /\ exists t',
               turnos (db_final (actualizar_estado_turno db turno_id nuevo_estado
                                                         observaciones)) = Some t'
               /\ Forall2 (fun f f' =>
                             rowid f' = rowid f
                             /\ (rowid f = turno_id ->
                                 leer t' "estado" f' = VText nuevo_estado
                                 /\ forall c, c <> "estado" -> leer t' c f' = leer t c f)
                             /\ (rowid f <> turno_id -> f' = f))
                          (tb_filas t) (tb_filas t')).
Proof.
  intros db turno_id nuevo_estado observaciones Hin Hobs.
  assert (Higual : actualizar_estado_turno db turno_id nuevo_estado observaciones
                   = actualizar_estado_turno db turno_id nuevo_estado None)
    by (destruct Hobs; subst; reflexivity).
  split; [exact Higual|]. rewrite Higual. clear Higual Hobs observaciones.
  apply en_estados_validos in Hin.
  assert (Hgeneral :
    pacientes (db_final (actualizar_estado_turno db turno_id nuevo_estado None))
    = pacientes db
    /\ medicos (db_final (actualizar_estado_turno db turno_id nuevo_estado None))
       = medicos db
    /\ match turnos db,
             turnos (db_final (actualizar_estado_turno db turno_id nuevo_estado None))
       with
       | Some t, Some t' =>
           tb_clave t' = tb_clave t
           /\ tb_columnas t' = tb_columnas t
           /\ tb_secuencia t' = tb_secuencia t
           /\ Forall2 (fun f f' =>
                         rowid f' = rowid f
                         /\ (forall c, c <> "estado" -> leer t' c f' = leer t c f)
                         /\ (leer t "id" f <> VInt turno_id -> f' = f)
                         /\ (devuelto (actualizar_estado_turno db turno_id nuevo_estado
                                                               None) = Ok true ->
                             leer t "id" f = VInt turno_id ->
                             leer t' "estado" f' = VText nuevo_estado))
                      (tb_filas t) (tb_filas t')
       | None, None => True
       | _, _ => False
       end).
  { unfold actualizar_estado_turno. rewrite Hin. simpl negb. cbv iota. simpl verdadero.
    cbv iota.
    destruct (sql_update (turnos db) [("estado", VText nuevo_estado)] ["id"]
                         [VInt turno_id] (con_id turno_id)) as [[t' n]|e] eqn:Eu.
    - apply sql_update_ok in Eu.
      destruct Eu as [t [Ht [Hk [Hc [Hs [Hf [Hn Htoca]]]]]]].
      destruct (0 <? n) eqn:En; simpl; rewrite Ht;
        (repeat split; try assumption);
        rewrite Hf; apply Forall2_map_derecha; intros f Hfin;
        destruct (cumple (con_id turno_id t f)) eqn:Ec.
      + assert (Hex : existsb (fun g => cumple (con_id turno_id t g)) (tb_filas t) = true)
          by (apply existsb_exists; now exists f).
        specialize (Htoca Hex). simpl in Htoca. rewrite orb_false_r in Htoca.
        repeat split.
        * intros c Hc'. rewrite (leer_misma_clave t) by exact Hk.
          now apply leer_asignar_estado_otro.
        * intro Hne. apply cumple_sql_eq in Ec. contradiction.
        * intros _ _. rewrite (leer_misma_clave t) by exact Hk.
          now apply leer_asignar_estado.
      + repeat split.
        * intros c _. now apply leer_misma_clave.
        * intros _ Hid. unfold con_id in Ec. rewrite Hid in Ec. simpl in Ec.
          rewrite Z.eqb_refl in Ec. discriminate.
      + assert (Hex : existsb (fun g => cumple (con_id turno_id t g)) (tb_filas t) = true)
          by (apply existsb_exists; now exists f).
        specialize (Htoca Hex). simpl in Htoca. rewrite orb_false_r in Htoca.
        repeat split.
        * intros c Hc'. rewrite (leer_misma_clave t) by exact Hk.
          now apply leer_asignar_estado_otro.
        * intro Hne. apply cumple_sql_eq in Ec. contradiction.
        * discriminate.
      + repeat split.
        * intros c _. now apply leer_misma_clave.
        * discriminate.
    - assert (Hd : db_final (if es_sqlite_error e
                             then mk_salida db [MsgErrorActualizarEstado e] (Ok false)
                             else mk_salida db [] (Raise e)) = db)
        by now destruct (es_sqlite_error e).
      rewrite Hd. repeat split.
      destruct (turnos db) as [t|]; [|exact I].
      repeat split. apply Forall2_mismo. intros f _. repeat split.
      intro Habs. destruct (es_sqlite_error e); discriminate. }
  destruct Hgeneral as [H1 [H2 H3]].
  split; [exact H1|]. split; [exact H2|]. split; [exact H3|].
  clear H1 H2 H3.
  intros t Ht Hact Hid [f0 [Hf0 Hr0]].
  assert (Hk : es_clave t "id" = true).
  { unfold tabla_actualizable in Hact.
    apply andb_true_iff in Hact. destruct Hact as [Hact _].
    apply andb_true_iff in Hact. tauto. }
  assert (He : es_clave t "estado" = false)
    by (apply (es_clave_unica t "id"); [exact Hk | discriminate]).
  assert (Hpos : existsb (fun f => cumple (con_id turno_id t f)) (tb_filas t) = true).
  { apply existsb_exists. exists f0. split; [exact Hf0|].
    rewrite con_id_rowid by exact Hk. now apply Z.eqb_eq. }
  unfold actualizar_estado_turno. rewrite Hin, Ht. simpl negb. cbv iota.
  simpl verdadero. cbv iota.
  rewrite tabla_actualizable_estado by assumption.
  rewrite longitud_filter_positiva, Hpos. simpl.
  repeat split. eexists. split; [reflexivity|]. simpl.
  apply Forall2_map_derecha. intros f Hf.
  rewrite con_id_rowid by exact Hk.
  destruct (rowid f =? turno_id) eqn:Er.
  - repeat split.
    + rewrite (leer_misma_clave t) by reflexivity. now apply leer_asignar_estado.
    + intros c Hc. rewrite (leer_misma_clave t) by reflexivity.
      now apply leer_asignar_estado_otro.
    + intro Hne. apply Z.eqb_eq in Er. contradiction.
  - apply Z.eqb_neq in Er. split; [reflexivity|]. split; [intro Heq; contradiction|].
    reflexivity.
Qed.

Lemma actualizar_estado_turno_sin_observaciones_ejemplo :
  actualizar_estado_turno
    (base_con [turno 1 1 1 "2025-11-20 10:00" 30 "pendiente";
               turno 2 1 1 "2025-11-20 11:00" 30 "pendiente"])
    1 "confirmado" (Some "")
  = actualizar_estado_turno
      (base_con [turno 1 1 1 "2025-11-20 10:00" 30 "pendiente";
                 turno 2 1 1 "2025-11-20 11:00" 30 "pendiente"])
      1 "confirmado" None
  /\ devuelto (actualizar_estado_turno
                 (base_con [turno 1 1 1 "2025-11-20 10:00" 30 "pendiente";
                            turno 2 1 1 "2025-11-20 11:00" 30 "pendiente"])
                 1 "confirmado" (Some "")) = Ok true
  /\ option_map tb_filas
       (turnos (db_final (actualizar_estado_turno
                            (base_con [turno 1 1 1 "2025-11-20 10:00" 30 "pendiente";
                                       turno 2 1 1 "2025-11-20 11:00" 30 "pendiente"])
                            1 "confirmado" (Some ""))))
     = Some [turno 1 1 1 "2025-11-20 10:00" 30 "confirmado";
             turno 2 1 1 "2025-11-20 11:00" 30 "pendiente"].
Proof.
  pose proof (actualizar_estado_turno_sin_observaciones
                (base_con [turno 1 1 1 "2025-11-20 10:00" 30 "pendiente";
                           turno 2 1 1 "2025-11-20 11:00" 30 "pendiente"])
                1 "confirmado" (Some "")
                (or_intror (or_introl eq_refl)) (or_intror eq_refl))
    as [Higual [_ [_ [_ Hhecho]]]].
  split; [exact Higual|]. split; [|reflexivity].
  refine (proj1 (Hhecho _ eq_refl eq_refl eq_refl _)).
  eexists. split; [left; reflexivity | reflexivity].
Defined.

(** ** Creating an appointment *)

Lemma sql_insert_ok (ot : option tabla) (cols : list string) (vals : list valor)
      (t' : tabla) (id : Z) :
  sql_insert ot cols vals = Ok (t', id) ->
  exists t,
    ot = Some t
    /\ t' = {| tb_clave := tb_clave t;
               tb_columnas := tb_columnas t;
               tb_secuencia := Z.max (tb_secuencia t) id;
               tb_filas := tb_filas t ++ [fila_nueva t (combine cols vals) id] |}
    /\ tiene_columnas t cols = true
    /\ elegir_rowid t (combine cols vals) = Some id.
Proof.
  unfold sql_insert. destruct ot as [t|]; [|discriminate].
  destruct (tiene_columnas t cols) eqn:Hc; simpl; [|discriminate].
  destruct (Nat.eqb (List.length cols) (List.length vals)); simpl; [|discriminate].
  destruct (forallb cabe_en_sqlite vals); simpl; [|discriminate].
  destruct (elegir_rowid t (combine cols vals)) as [id'|] eqn:Hid; [|discriminate].
  destruct (viola_not_null t _ || viola_unique t (tb_filas t) _); [discriminate|].
  intro H. inversion H; subst. exists t. repeat split; first [reflexivity | assumption].
Qed.

Lemma asociado_columnas (dados : list (string * valor)) (c : string) (l : list columna) :
  existsb (fun k => String.eqb (col_nombre k) c) l = true ->
  asociado c (map (fun k => (col_nombre k, valor_insertado dados k)) l)
  = Some (match asociado c dados with
          | Some v => v
          | None => match find (fun k => String.eqb (col_nombre k) c) l with
                    | Some k => col_default k
                    | None => VNull
                    end
          end).
Proof.
  induction l as [|k l IH]; simpl; [discriminate|].
  destruct (String.eqb (col_nombre k) c) eqn:E; simpl.
  - intros _. apply String.eqb_eq in E. unfold valor_insertado. now rewrite E.
  - exact IH.
Qed.

Lemma asociado_sin_columna (dados : list (string * valor)) (c : string) (l : list columna) :
  existsb (fun k => String.eqb (col_nombre k) c) l = false ->
  asociado c (map (fun k => (col_nombre k, valor_insertado dados k)) l) = None.
Proof.
  induction l as [|k l IH]; simpl; [reflexivity|].
  destruct (String.eqb (col_nombre k) c); simpl; [discriminate | exact IH].
Qed.

(** A column the statement gives a value to holds that value. *)
Lemma leer_insertado (t : tabla) (dados : list (string * valor)) (id : Z)
      (c : string) (v : valor) :
  asociado c dados = Some v ->
  tiene_columna t c = true ->
  (es_clave t c = true -> v = VInt id) ->
  leer t c (fila_nueva t dados id) = v.
Proof.
  intros Hd Hc Hk. unfold leer, fila_nueva. simpl.
  unfold tiene_columna in Hc.
  destruct (es_clave t c); [symmetry; now apply Hk|].
  simpl in Hc. rewrite asociado_columnas by exact Hc. now rewrite Hd.
Qed.

(** A column the statement does not name holds its declared default. *)
Lemma leer_no_insertado (t : tabla) (dados : list (string * valor)) (id : Z) (c : string) :
  asociado c dados = None ->
  es_clave t c = false ->
  leer t c (fila_nueva t dados id)
  = match columna_de t c with
    | Some k => col_default k
    | None => VNull
    end.
Proof.
  intros Hd Hk. unfold leer, fila_nueva, columna_de. simpl. rewrite Hk.
  destruct (existsb (fun k => String.eqb (col_nombre k) c) (tb_columnas t)) eqn:E.
  - rewrite asociado_columnas by exact E. now rewrite Hd.
  - rewrite asociado_sin_columna by exact E.
    destruct (find _ (tb_columnas t)) as [k|] eqn:Ef; [|reflexivity].
    apply find_some in Ef. destruct Ef as [Hin Hn].
    assert (Habs : existsb (fun k => String.eqb (col_nombre k) c) (tb_columnas t) = true)
      by (apply existsb_exists; now exists k).
    congruence.
Qed.

Lemma elegir_rowid_clave (t : tabla) (dados : list (string * valor)) (id : Z)
      (c : string) (v : valor) :
  elegir_rowid t dados = Some id ->
  es_clave t c = true ->
  asociado c dados = Some v ->
  v = VNull \/ v = VInt id.
Proof.
  unfold elegir_rowid, es_clave. destruct (tb_clave t) as [k|]; [|discriminate].
  intros He Hk Hd. apply String.eqb_eq in Hk. subst k. rewrite Hd in He.
  destruct v as [|n|s]; [now left | | discriminate].
  destruct (existsb _ (tb_filas t)); [discriminate|]. right. congruence.
Qed.

Lemma existsb_falso {A : Type} (p : A -> bool) (l : list A) :
  (forall x, In x l -> p x = false) -> existsb p l = false.
Proof.
  induction l as [|x l IH]; simpl; intro H; [reflexivity|].
  rewrite (H x) by now left. apply IH. intros y Hy. apply H. now right.
Qed.

(** What the row of an appointment holds, on a table keyed by [id] that
    has the columns the INSERT names. *)
Lemma fila_de_turno_leida (t : tabla) (paciente_id medico_id : Z) (fecha_hora : string)
      (duracion : Z) (motivo_consulta : option string) (id : Z) :
  es_clave t "id" = true ->
  tiene_columnas t ["paciente_id"; "medico_id"; "fecha_hora"; "duracion";
                    "motivo_consulta"] = true ->
  let f := fila_nueva t
             (combine ["paciente_id"; "medico_id"; "fecha_hora"; "duracion";
                       "motivo_consulta"]
                      [VInt paciente_id; VInt medico_id; VText fecha_hora; VInt duracion;
                       de_opcional motivo_consulta]) id in
  leer t "paciente_id" f = VInt paciente_id
  /\ leer t "medico_id" f = VInt medico_id
  /\ leer t "fecha_hora" f = VText fecha_hora
  /\ leer t "duracion" f = VInt duracion
  /\ leer t "estado" f = estado_inicial t.
Proof.
  intros Hk Hc f. simpl in Hc.
  repeat (apply andb_true_iff in Hc; destruct Hc as [? Hc]).
  assert (Hno : forall c, c <> "id" -> es_clave t c = false)
    by (intros c Hne; now apply (es_clave_unica t "id")).
  repeat split.
  - apply leer_insertado; [reflexivity | assumption |].
    intro Hx. rewrite Hno in Hx by discriminate. discriminate.
  - apply leer_insertado; [reflexivity | assumption |].
    intro Hx. rewrite Hno in Hx by discriminate. discriminate.
  - apply leer_insertado; [reflexivity | assumption |].
    intro Hx. rewrite Hno in Hx by discriminate. discriminate.
  - apply leer_insertado; [reflexivity | assumption |].
    intro Hx. rewrite Hno in Hx by discriminate. discriminate.
  - unfold f. rewrite leer_no_insertado; [reflexivity | reflexivity |].
    apply Hno. discriminate.
Qed.

(** A table that admits appointments accepts the INSERT of [crear_turno]
    whenever the three integers fit in 64 bits: the row is added at the
    end with the next rowid. *)
Lemma sql_insert_turno_admitido (t : tabla) (paciente_id medico_id : Z)
      (fecha_hora : string) (duracion : Z) (motivo_consulta : option string) :
  admite_turnos t = true ->
  cabe_en_sqlite (VInt paciente_id) = true ->
  cabe_en_sqlite (VInt medico_id) = true ->
  cabe_en_sqlite (VInt duracion) = true ->
  sql_insert (Some t)
    ["paciente_id"; "medico_id"; "fecha_hora"; "duracion"; "motivo_consulta"]
    [VInt paciente_id; VInt medico_id; VText fecha_hora; VInt duracion;
     de_opcional motivo_consulta]
  = Ok ({| tb_clave := tb_clave t;
           tb_columnas := tb_columnas t;
           tb_secuencia := Z.max (tb_secuencia t) (siguiente_rowid t);
           tb_filas :=
             tb_filas t
             ++ [fila_nueva t
                   (combine ["paciente_id"; "medico_id"; "fecha_hora"; "duracion";
                             "motivo_consulta"]
                            [VInt paciente_id; VInt medico_id; VText fecha_hora;
                             VInt duracion; de_opcional motivo_consulta])
                   (siguiente_rowid t)] |},
        siguiente_rowid t).
Proof.
  intros Ha Hp Hm Hd. unfold admite_turnos in Ha.
  apply andb_true_iff in Ha. destruct Ha as [Ha Hall].
  apply andb_true_iff in Ha. destruct Ha as [Hk Hc].
  rewrite forallb_forall in Hall.
  destruct (fila_de_turno_leida t paciente_id medico_id fecha_hora duracion
              motivo_consulta (siguiente_rowid t) Hk Hc)
    as [Lp [Lm [Lf [Ld _]]]].
  set (dados := combine ["paciente_id"; "medico_id"; "fecha_hora"; "duracion";
                         "motivo_consulta"]
                        [VInt paciente_id; VInt medico_id; VText fecha_hora;
                         VInt duracion; de_opcional motivo_consulta]) in *.
  assert (Hcabe : forallb cabe_en_sqlite
                    [VInt paciente_id; VInt medico_id; VText fecha_hora; VInt duracion;
                     de_opcional motivo_consulta] = true).
  { cbn [forallb]. rewrite Hp, Hm, Hd. now destruct motivo_consulta. }
  assert (Hid : elegir_rowid t dados = Some (siguiente_rowid t)).
  { unfold elegir_rowid, es_clave in *. destruct (tb_clave t) as [k|]; [|discriminate].
    apply String.eqb_eq in Hk. subst k. reflexivity. }
  assert (Hnn : viola_not_null t (fila_nueva t dados (siguiente_rowid t)) = false).
  { apply existsb_falso. intros k Hin. specialize (Hall k Hin).
    apply andb_true_iff in Hall. destruct Hall as [_ Hall].
    destruct (col_not_null k); [|reflexivity]. simpl in Hall.
    repeat (apply orb_true_iff in Hall; destruct Hall as [Hall|Hall]);
      try discriminate; apply String.eqb_eq in Hall; rewrite Hall;
      rewrite ?Lp, ?Lm, ?Lf, ?Ld; reflexivity. }
  assert (Hun : viola_unique t (tb_filas t) (fila_nueva t dados (siguiente_rowid t))
                = false).
  { apply existsb_falso. intros k Hin. specialize (Hall k Hin).
    apply andb_true_iff in Hall. destruct Hall as [Hall _].
    destruct (col_unique k); [discriminate | reflexivity]. }
  unfold sql_insert. rewrite Hc. cbn [negb List.length Nat.eqb]. rewrite Hcabe.
  cbn [negb]. fold dados. rewrite Hid.
  fold (fila_nueva t dados (siguiente_rowid t)). rewrite Hnn, Hun. reflexivity.
Qed.

Section CrearTurno.

Variable L : biblioteca.

(** What a successful [crear_turno] has done: the availability check
    answered True, and one row was added at the end of [turnos], with the
    identifier returned, the physician, start text and duration given,
    and the state the table declares as default; nothing else changed. *)
Lemma crear_turno_exito (db : base) (paciente_id medico_id : Z) (fecha_hora : string)
      (duracion : Z) (motivo_consulta : option string) (id : Z) :
  devuelto (crear_turno L db paciente_id medico_id fecha_hora duracion motivo_consulta)
  = Ok (Some id) ->
  exists t f,
    turnos db = Some t
    /\ snd (verificar_disponibilidad L db medico_id fecha_hora duracion) = true
    /\ db_final (crear_turno L db paciente_id medico_id fecha_hora duracion motivo_consulta)
       = con_turnos db {| tb_clave := tb_clave t;
                          tb_columnas := tb_columnas t;
                          tb_secuencia := Z.max (tb_secuencia t) id;
                          tb_filas := tb_filas t ++ [f] |}
    /\ rowid f = id
    /\ leer t "medico_id" f = VInt medico_id
    /\ leer t "fecha_hora" f = VText fecha_hora
    /\ leer t "duracion" f = VInt duracion
    /\ (es_clave t "estado" = false -> leer t "estado" f = estado_inicial t).
Proof.
  unfold crear_turno.
  destruct (verificar_disponibilidad L db medico_id fecha_hora duracion)
    as [avisos disponible] eqn:Ev.
  destruct disponible; simpl negb; cbv iota; [|discriminate].
  match goal with
  | |- context [sql_insert ?o ?c ?v] => destruct (sql_insert o c v) as [[t' id']|e] eqn:Ei
  end.
  - simpl. intro H. inversion H; subst id'. clear H.
    apply sql_insert_ok in Ei. destruct Ei as [t [Ht [Ht' [Hc He]]]].
    exists t. eexists. split; [exact Ht|]. split; [reflexivity|].
    split; [rewrite Ht'; reflexivity|]. split; [reflexivity|].
    simpl in Hc. repeat (apply andb_true_iff in Hc; destruct Hc as [? Hc]).
    repeat split.
    + apply leer_insertado; [reflexivity | assumption |].
      intro Hk. destruct (elegir_rowid_clave _ _ _ _ _ He Hk eq_refl); congruence.
    + apply leer_insertado; [reflexivity | assumption |].
      intro Hk. destruct (elegir_rowid_clave _ _ _ _ _ He Hk eq_refl); congruence.
    + apply leer_insertado; [reflexivity | assumption |].
      intro Hk. destruct (elegir_rowid_clave _ _ _ _ _ He Hk eq_refl); congruence.
    + intro Hk. now apply leer_no_insertado.
  - destruct (es_sqlite_error e); discriminate.
Qed.

(** C5.  When [verificar_disponibilidad] answers False, [crear_turno]
    reports that the physician is not available at that time, returns
    None and inserts nothing: the database it leaves is the database it
    was given.  (The class raises no typed errors; this report is its
    scheduling conflict.) *)
Theorem crear_turno_no_disponible :
  forall (db : base) (paciente_id medico_id : Z) (fecha_hora : string)
         (duracion : Z) (motivo_consulta : option string),
    snd (verificar_disponibilidad L db medico_id fecha_hora duracion) = false ->
    crear_turno L db paciente_id medico_id fecha_hora duracion motivo_consulta
    = mk_salida db
        (fst (verificar_disponibilidad L db medico_id fecha_hora duracion)
         ++ [MsgNoDisponible])
        (Ok None).
Proof.
  intros db paciente_id medico_id fecha_hora duracion motivo_consulta.
  unfold crear_turno.
  destruct (verificar_disponibilidad L db medico_id fecha_hora duracion)
    as [avisos disponible].
  simpl. intro H. now subst disponible.
Qed.

(** A call that returns no identifier leaves the database alone. *)
Lemma crear_turno_sin_exito (db : base) (paciente_id medico_id : Z)
      (fecha_hora : string) (duracion : Z) (motivo_consulta : option string) :
  (forall id,
      devuelto (crear_turno L db paciente_id medico_id fecha_hora duracion
                            motivo_consulta) <> Ok (Some id)) ->
  db_final (crear_turno L db paciente_id medico_id fecha_hora duracion motivo_consulta)
  = db.
Proof.
  unfold crear_turno.
  destruct (verificar_disponibilidad L db medico_id fecha_hora duracion)
    as [avisos disponible].
  destruct disponible; simpl negb; cbv iota; [|reflexivity].
  match goal with
  | |- context [sql_insert ?o ?c ?v] => destruct (sql_insert o c v) as [[t' id']|e]
  end.
  - simpl. intro H. exfalso. now apply (H id').
  - intros _. now destruct (es_sqlite_error e).
Qed.


End CrearTurno.

(** The half-open boundary of the specification: with [10:00, 10:30)
    taken, 10:30 is free and 10:29 is not. *)
Example crear_turno_a_continuacion :
  devuelto (crear_turno calendario
              (base_con [turno 1 1 1 "2025-11-20 10:00" 30 "pendiente"])
              1 1 "2025-11-20 10:30" 30 None) = Ok (Some 2).
Proof. vm_compute. reflexivity. Qed.

Lemma crear_turno_no_disponible_ejemplo :
  crear_turno calendario (base_con [turno 1 1 1 "2025-11-20 10:00" 30 "pendiente"])
              1 1 "2025-11-20 10:29" 30 None
  = mk_salida (base_con [turno 1 1 1 "2025-11-20 10:00" 30 "pendiente"])
              [MsgNoDisponible] (Ok None).
Proof.
  apply (crear_turno_no_disponible calendario
           (base_con [turno 1 1 1 "2025-11-20 10:00" 30 "pendiente"])
           1 1 "2025-11-20 10:29" 30 None).
  vm_compute. reflexivity.
Defined.



(** C8, the defect behind it.  [crear_turno] writes no state: its INSERT
    names the patient, the physician, the start, the duration and the
    reason, and the state of the new row is whatever DEFAULT the table
    declares for [estado].  On a table with the columns the statement
    names and [estado] declared without a default, the call succeeds,
    returns 1 and leaves one row whose state is NULL, not [pendiente]. *)
Theorem crear_turno_estado_sin_default :
  devuelto (crear_turno calendario base_sin_default 1 1 "2025-11-20 10:00" 30
                        (Some "Control rutinario")) = Ok (Some 1)
  /\ exists t f,
      turnos (db_final (crear_turno calendario base_sin_default 1 1 "2025-11-20 10:00" 30
                                    (Some "Control rutinario"))) = Some t
      /\ tb_filas t = [f]
      /\ rowid f = 1
      /\ leer t "estado" f = VNull.
Proof.
  split; [vm_compute; reflexivity|].
  eexists. eexists. split; [vm_compute; reflexivity|].
  repeat split.
Qed.

(** On the table [crear_tablas] spells out, which has none of the columns
    the statements of [crear_turno] name, the availability query is
    refused and nothing is created; so it is on a new database, where
    [crear_tablas] has created no table. *)
Example crear_turno_tabla_declarada :
  crear_turno calendario base_declarada 1 1 "2025-11-20 10:00" 30 None
  = mk_salida base_declarada [MsgErrorVerificar OperationalError; MsgNoDisponible]
              (Ok None)
  /\ crear_turno calendario (db_final (crear_tablas base_nueva)) 1 1
                 "2025-11-20 10:00" 30 None
     = mk_salida base_nueva [MsgErrorVerificar OperationalError; MsgNoDisponible]
                 (Ok None).
Proof. split; vm_compute; reflexivity. Qed.

(** With [estado] declared DEFAULT 'pendiente' the new row is pending. *)
Example crear_turno_estado_con_default :
  option_map tb_filas
    (turnos (db_final (crear_turno calendario base_ejemplo 1 1 "2025-11-20 10:00" 30
                                   (Some "Control rutinario"))))
  = Some [una_fila 1 [("paciente_id", VInt 1); ("medico_id", VInt 1);
                      ("fecha_hora", VText "2025-11-20 10:00"); ("duracion", VInt 30);
                      ("estado", VText "pendiente");
                      ("motivo_consulta", VText "Control rutinario");
                      ("observaciones", VNull)]].
Proof. vm_compute. reflexivity. Qed.

(** ** The availability check *)

Lemma forallb_igual_en {A : Type} (f g : A -> bool) (l : list A) :
  (forall x, In x l -> f x = g x) -> forallb f l = forallb g l.
Proof.
  induction l as [|x l IH]; simpl; intro H; [reflexivity|].
  rewrite (H x) by now left. f_equal. apply IH. intros y Hy. apply H. now right.
Qed.

Section Disponibilidad.

Variable L : biblioteca.

(** The query skips the appointments of other physicians and those that
    are neither pending nor confirmed. *)
Lemma turno_ocupa_inactivo (t : tabla) (medico_id : Z) (p2 p3 p4 p5 : valor) (f : fila) :
  es_activo_de t medico_id f = false ->
  cumple (turno_ocupa L (VInt medico_id) p2 p3 p4 p5 t f) = false.
Proof.
  unfold es_activo_de, turno_ocupa, sql_in. simpl fold_right.
  match goal with |- context [sql_or (sql_and ?a ?b) ?c] => generalize (sql_or (sql_and a b) c) end.
  intros x H.
  destruct (leer t "medico_id" f) as [|n|s]; simpl in *;
    destruct (leer t "estado" f) as [|n'|s']; simpl in *;
    repeat match goal with
           | |- context [?a =? ?b] => destruct (a =? b)
           | H : context [?a =? ?b] |- _ => destruct (a =? b)
           | |- context [String.eqb ?a ?b] => destruct (String.eqb a b)
           | H : context [String.eqb ?a ?b] |- _ => destruct (String.eqb a b)
           end;
    simpl in *; try discriminate; destruct x as [[|]|]; reflexivity.
Qed.

(** On an active appointment that both libraries read alike, the query
    asks whether it overlaps the interval or starts inside it. *)
Lemma turno_ocupa_legible (t : tabla) (medico_id : Z) (f : fila) (txt : string)
      (s d c e : Z) (pc pe : valor) :
  es_activo_de t medico_id f = true ->
  leer t "fecha_hora" f = VText txt ->
  sql_datetime L (VText txt) = Some s ->
  leer t "duracion" f = VInt d ->
  s + d <= max_instante ->
  sql_datetime L pc = Some c ->
  sql_datetime L pe = Some e ->
  cumple (turno_ocupa L (VInt medico_id) pe pc pc pe t f)
  = solapan s (s + d) c e || empieza_dentro s c e.
Proof.
  intros Ha Hf Hs Hd Hmax Hc He.
  unfold es_activo_de in Ha. apply andb_true_iff in Ha. destruct Ha as [Hm Hest].
  apply valor_eqb_eq in Hm.
  assert (Hin : sql_in (leer t "estado" f) [VText "pendiente"; VText "confirmado"]
                = Some true).
  { apply orb_true_iff in Hest. destruct Hest as [H|H]; apply valor_eqb_eq in H;
      rewrite H; reflexivity. }
  unfold turno_ocupa. rewrite Hin, Hm, Hf, Hd, Hc, He.
  unfold sql_datetime_mas. rewrite Hs.
  unfold solapan, empieza_dentro, sql_gt, sql_lt, sql_ge, sql_eq.
  simpl valor_eqb. rewrite Z.eqb_refl.
  destruct (0 <=? d) eqn:E0; simpl.
  - assert (Hle : (s + d <=? max_instante) = true) by now apply Z.leb_le.
    rewrite Hle.
    destruct (s <? e), (c <? s + d), (c <=? s); reflexivity.
  - apply Z.leb_gt in E0.
    destruct (s <? e) eqn:E1; destruct (c <=? s) eqn:E2; simpl;
      destruct (c <? s + d) eqn:E3; try reflexivity.
    apply Z.ltb_lt in E3. apply Z.leb_gt in E2. lia.
Qed.

(** The count of the availability query, on rows both libraries read
    alike: it is zero iff no active appointment of the physician overlaps
    the interval or starts inside it. *)
Lemma contar_ocupados_sin_estorbo (db : base) (t : tabla) (medico_id dt dt_fin : Z) :
  turnos db = Some t ->
  tiene_columnas t ["medico_id"; "estado"; "fecha_hora"; "duracion"] = true ->
  cabe_en_sqlite (VInt medico_id) = true ->
  releido L dt ->
  releido L dt_fin ->
  (forall f, In f (tb_filas t) -> es_activo_de t medico_id f = true -> legible L t f) ->
  exists n,
    contar_ocupados L db medico_id dt dt_fin = Ok n
    /\ (n =? 0) = sin_estorbo L t medico_id dt dt_fin.
Proof.
  intros Ht Hcols Hid Hc He Hleg.
  unfold contar_ocupados, sql_count. rewrite Ht, Hcols.
  cbn [forallb negb]. rewrite Hid. cbn [cabe_en_sqlite andb negb].
  eexists. split; [reflexivity|].
  rewrite longitud_filter_cero. unfold sin_estorbo.
  apply forallb_igual_en. intros f Hf. f_equal.
  destruct (es_activo_de t medico_id f) eqn:Ea.
  - destruct (Hleg f Hf Ea) as [txt [s [d [Hfh [Hpy [Hsql [Hdur Hmax]]]]]]].
    rewrite (turno_ocupa_legible t medico_id f txt s d dt dt_fin); try assumption.
    unfold intervalo. rewrite Hfh, Hdur, Hpy. reflexivity.
  - now apply turno_ocupa_inactivo.
Qed.

(** C1, as the code has it.  Take a physician, a start text that parses
    to the instant [dt], and a duration that keeps [dt + duracion] within
    the calendar; let the table have the columns the query names, let
    SQLite read back the two bounds Python writes, and let it read each
    active appointment of the physician as Python does.  Then
    [verificar_disponibilidad] answers True iff no pending or confirmed
    appointment of that physician overlaps [dt, dt + duracion) under
    half-open semantics or starts inside it.  When every one of those
    appointments has a positive duration, starting inside is
    overlapping: the answer is that of the half-open overlap test, under
    which an appointment that ends exactly at [dt] does not conflict. *)
Theorem verificar_disponibilidad_intervalos :
  forall (db : base) (t : tabla) (medico_id : Z) (fecha_hora : string)
         (duracion dt : Z),
    turnos db = Some t ->
    tiene_columnas t ["medico_id"; "estado"; "fecha_hora"; "duracion"] = true ->
    cabe_en_sqlite (VInt medico_id) = true ->
    strptime L fecha_hora = Some dt ->
    0 <= dt + duracion <= max_instante ->
    releido L dt ->
    releido L (dt + duracion) ->
    (forall f, In f (tb_filas t) -> es_activo_de t medico_id f = true -> legible L t f) ->
    snd (verificar_disponibilidad L db medico_id fecha_hora duracion)
    = sin_estorbo L t medico_id dt (dt + duracion)
    /\ ((forall f d, In f (tb_filas t) -> es_activo_de t medico_id f = true ->
                     leer t "duracion" f = VInt d -> 0 < d) ->
        snd (verificar_disponibilidad L db medico_id fecha_hora duracion)
        = sin_solape L t medico_id dt (dt + duracion)).
Proof.
  intros db t medico_id fecha_hora duracion dt Ht Hcols Hid Hp Hrango Hc He Hleg.
  assert (Hv : snd (verificar_disponibilidad L db medico_id fecha_hora duracion)
               = sin_estorbo L t medico_id dt (dt + duracion)).
  { unfold verificar_disponibilidad, sumar_minutos. rewrite Hp.
    assert (Hr : ((0 <=? dt + duracion) && (dt + duracion <=? max_instante)) = true).
    { apply andb_true_iff. split; apply Z.leb_le; lia. }
    rewrite Hr.
    destruct (contar_ocupados_sin_estorbo db t medico_id dt (dt + duracion)
                Ht Hcols Hid Hc He Hleg) as [n [Hn Hcero]].
    rewrite Hn. exact Hcero. }
  split; [exact Hv|].
  intro Hpos. rewrite Hv. unfold sin_estorbo, sin_solape.
  apply forallb_igual_en. intros f Hf. f_equal.
  destruct (es_activo_de t medico_id f) eqn:Ea; [|reflexivity]. simpl.
  destruct (Hleg f Hf Ea) as [txt [s [d [Hfh [Hpy [_ [Hdur _]]]]]]].
  specialize (Hpos f d Hf Ea Hdur).
  unfold intervalo. rewrite Hfh, Hdur, Hpy. simpl.
  unfold solapan, empieza_dentro.
  destruct (s <? dt + duracion) eqn:E1; simpl; [|now rewrite andb_false_r].
  destruct (dt <? s + d) eqn:E2; simpl; [reflexivity|].
  rewrite andb_true_r. apply Z.leb_gt. apply Z.ltb_ge in E2. lia.
Qed.

(** Where SQLite reads nothing in the text Python writes for the start,
    the query counts no row. *)
Lemma turno_ocupa_sin_inicio (t : tabla) (p1 pe pc : valor) (f : fila) :
  sql_datetime L pc = None ->
  cumple (turno_ocupa L p1 pe pc pc pe t f) = false.
Proof.
  intro Hc. unfold turno_ocupa. rewrite Hc.
  destruct (sql_and (sql_eq (leer t "medico_id" f) p1) _) as [[|]|];
    destruct (sql_datetime L (leer t "fecha_hora" f)) as [x|];
    destruct (sql_datetime_mas L _ _) as [y|];
    destruct (sql_datetime L pe) as [z|]; simpl; try reflexivity;
    destruct (x <? z); reflexivity.
Qed.

(** So there the availability check answers True whatever the table
    holds. *)
Lemma verificar_disponibilidad_sin_relectura (db : base) (t : tabla) (medico_id : Z)
      (fecha_hora : string) (duracion dt : Z) :
  turnos db = Some t ->
  tiene_columnas t ["medico_id"; "estado"; "fecha_hora"; "duracion"] = true ->
  cabe_en_sqlite (VInt medico_id) = true ->
  strptime L fecha_hora = Some dt ->
  0 <= dt + duracion <= max_instante ->
  sql_datetime L (VText (strftime L dt)) = None ->
  verificar_disponibilidad L db medico_id fecha_hora duracion = ([], true).
Proof.
  intros Ht Hcols Hid Hp Hrango Hnada.
  unfold verificar_disponibilidad, sumar_minutos. rewrite Hp.
  assert (Hr : ((0 <=? dt + duracion) && (dt + duracion <=? max_instante)) = true).
  { apply andb_true_iff. split; apply Z.leb_le; lia. }
  rewrite Hr. unfold contar_ocupados, sql_count. rewrite Ht, Hcols.
  cbn [forallb negb]. rewrite Hid. cbn [cabe_en_sqlite andb negb].
  rewrite longitud_filter_cero.
  assert (Hf : forallb (fun f => negb (cumple (turno_ocupa L (VInt medico_id)
                                                 (VText (strftime L (dt + duracion)))
                                                 (VText (strftime L dt))
                                                 (VText (strftime L dt))
                                                 (VText (strftime L (dt + duracion))) t f)))
                       (tb_filas t) = true).
  { apply forallb_forall. intros f _. now rewrite turno_ocupa_sin_inicio. }
  now rewrite Hf.
Qed.

End Disponibilidad.

(** A pending appointment of no length at 10:00 overlaps no interval, yet
    it makes [10:00, 10:30) unavailable. *)
Lemma verificar_disponibilidad_duracion_cero :
  devuelto (crear_turno calendario base_ejemplo 1 1 "2025-11-20 10:00" 0 None)
  = Ok (Some 1)
  /\ strptime calendario "2025-11-20 10:00" = Some 1064987160
  /\ snd (verificar_disponibilidad calendario
            (db_final (crear_turno calendario base_ejemplo 1 1 "2025-11-20 10:00" 0 None))
            1 "2025-11-20 10:00" 30) = false
  /\ option_map (fun t => sin_solape calendario t 1 1064987160 (1064987160 + 30))
       (turnos (db_final (crear_turno calendario base_ejemplo 1 1
                                      "2025-11-20 10:00" 0 None)))
     = Some true.
Proof. repeat split; vm_compute; reflexivity. Qed.

(** Before the year 1000 Python writes the year without leading zeros
    and SQLite reads nothing in it: the slot of a pending appointment at
    0999-06-01 10:00 is reported free. *)
Example verificar_disponibilidad_anio_999 :
  strptime calendario "0999-06-01 10:00" = Some 525115320
  /\ strftime calendario 525115320 = "999-06-01 10:00"
  /\ sql_datetime calendario (VText "999-06-01 10:00") = None
  /\ verificar_disponibilidad calendario
       (base_con [turno 1 1 1 "0999-06-01 10:00" 30 "pendiente"])
       1 "0999-06-01 10:00" 30
     = ([], true)
  /\ option_map (fun t => sin_estorbo calendario t 1 525115320 (525115320 + 30))
       (turnos (base_con [turno 1 1 1 "0999-06-01 10:00" 30 "pendiente"]))
     = Some false.
Proof. repeat split; vm_compute; reflexivity. Qed.

Lemma verificar_disponibilidad_intervalos_ejemplo :
  snd (verificar_disponibilidad calendario
         (base_con [turno 1 1 1 "2025-11-20 10:00" 30 "pendiente"])
         1 "2025-11-20 10:30" 30)
  = true
  /\ snd (verificar_disponibilidad calendario
            (base_con [turno 1 1 1 "2025-11-20 10:00" 30 "pendiente"])
            1 "2025-11-20 10:29" 30)
     = false.
Proof.
  split.
  - destruct (verificar_disponibilidad_intervalos calendario
                (base_con [turno 1 1 1 "2025-11-20 10:00" 30 "pendiente"])
                {| tb_clave := Some "id";
                   tb_columnas := tb_columnas (tabla_turnos (VText "pendiente"));
                   tb_secuencia := 1;
                   tb_filas := [turno 1 1 1 "2025-11-20 10:00" 30 "pendiente"] |}
                1 "2025-11-20 10:30" 30 1064987190) as [_ H].
    + reflexivity.
    + reflexivity.
    + reflexivity.
    + vm_compute. reflexivity.
    + vm_compute. split; discriminate.
    + vm_compute. reflexivity.
    + vm_compute. reflexivity.
    + intros f [Hf|[]] _. subst f.
      exists "2025-11-20 10:00", 1064987160, 30.
      repeat split; vm_compute; first [reflexivity | discriminate].
    + rewrite H; [vm_compute; reflexivity|].
      intros f d [Hf|[]] _ Hd. subst f. vm_compute in Hd. inversion Hd. lia.
  - destruct (verificar_disponibilidad_intervalos calendario
                (base_con [turno 1 1 1 "2025-11-20 10:00" 30 "pendiente"])
                {| tb_clave := Some "id";
                   tb_columnas := tb_columnas (tabla_turnos (VText "pendiente"));
                   tb_secuencia := 1;
                   tb_filas := [turno 1 1 1 "2025-11-20 10:00" 30 "pendiente"] |}
                1 "2025-11-20 10:29" 30 1064987189) as [H _].
    + reflexivity.
    + reflexivity.
    + reflexivity.
    + vm_compute. reflexivity.
    + vm_compute. split; discriminate.
    + vm_compute. reflexivity.
    + vm_compute. reflexivity.
    + intros f [Hf|[]] _. subst f.
      exists "2025-11-20 10:00", 1064987160, 30.
      repeat split; vm_compute; first [reflexivity | discriminate].
    + rewrite H. vm_compute. reflexivity.
Defined.

(** ** Listings *)

Section Orden.

Variable A : Type.
Variable leb : A -> A -> bool.
Hypothesis leb_total : forall a b, leb a b = true \/ leb b a = true.

Lemma insertar_ordenado_perm (x : A) (l : list A) :
  Permutation (x :: l) (insertar_ordenado leb x l).
Proof.
  induction l as [|y l IH]; simpl; [apply Permutation_refl|].
  destruct (leb x y); [apply Permutation_refl|].
  eapply perm_trans; [apply perm_swap|]. now apply perm_skip.
Qed.

Lemma ordenar_perm (l : list A) : Permutation l (ordenar leb l).
Proof.
  induction l as [|x l IH]; simpl; [apply perm_nil|].
  eapply perm_trans; [apply perm_skip; exact IH|]. apply insertar_ordenado_perm.
Qed.

Lemma insertar_ordenado_sorted (x : A) (l : list A) :
  Sorted (fun a b => leb a b = true) l ->
  Sorted (fun a b => leb a b = true) (insertar_ordenado leb x l).
Proof.
  induction l as [|y l IH]; simpl; intro Hs.
  - repeat constructor.
  - destruct (leb x y) eqn:E.
    + constructor; [exact Hs | constructor; exact E].
    + inversion Hs as [|? ? Hl Hhd]; subst.
      constructor; [now apply IH|].
      destruct l as [|z l]; simpl.
      * constructor. destruct (leb_total x y); congruence.
      * destruct (leb x z).
        -- constructor. destruct (leb_total x y); congruence.
        -- constructor. now inversion Hhd.
Qed.

Lemma ordenar_sorted (l : list A) : Sorted (fun a b => leb a b = true) (ordenar leb l).
Proof.
  induction l as [|x l IH]; simpl; [constructor|].
  now apply insertar_ordenado_sorted.
Qed.

End Orden.

Lemma valor_leb_total (a b : valor) : valor_leb a b = true \/ valor_leb b a = true.
Proof.
  destruct a as [|n|s], b as [|m|t]; simpl; auto.
  - destruct (Z.leb_spec n m); [now left|]. right. apply Z.leb_le. lia.
  - apply String.leb_total.
Qed.

Lemma Sorted_map {A B : Type} (R : B -> B -> Prop) (g : A -> B) (l : list A) :
  Sorted (fun x y => R (g x) (g y)) l -> Sorted R (map g l).
Proof.
  induction 1 as [|x l Hs IH Hhd]; simpl; constructor; [exact IH|].
  destruct Hhd; simpl; constructor. assumption.
Qed.

Lemma en_unir_turnos (t p m : tabla) (ft fp fm : fila) :
  In (ft, fp, fm) (unir_turnos t p m)
  <-> In ft (tb_filas t) /\ In fp (tb_filas p) /\ In fm (tb_filas m)
      /\ cumple (sql_eq (leer t "paciente_id" ft) (leer p "id" fp)) = true
      /\ cumple (sql_eq (leer t "medico_id" ft) (leer m "id" fm)) = true.
Proof.
  unfold unir_turnos. rewrite in_flat_map. split.
  - intros [ft' [Hft H]]. apply in_flat_map in H. destruct H as [fp' [Hfp H]].
    apply in_map_iff in H. destruct H as [fm' [Heq Hfm]].
    inversion Heq; subst. apply filter_In in Hfp. apply filter_In in Hfm. tauto.
  - intros [Hft [Hfp [Hfm [Hp Hm]]]]. exists ft. split; [exact Hft|].
    apply in_flat_map. exists fp. split; [apply filter_In; tauto|].
    apply in_map_iff. exists fm. split; [reflexivity | apply filter_In; tauto].
Qed.

Lemma en_unir_medicos (t m : tabla) (ft fm : fila) :
  In (ft, fm) (unir_medicos t m)
  <-> In ft (tb_filas t) /\ In fm (tb_filas m)
      /\ cumple (sql_eq (leer t "medico_id" ft) (leer m "id" fm)) = true.
Proof.
  unfold unir_medicos. rewrite in_flat_map. split.
  - intros [ft' [Hft H]]. apply in_map_iff in H. destruct H as [fm' [Heq Hfm]].
    inversion Heq; subst. apply filter_In in Hfm. tauto.
  - intros [Hft [Hfm Hm]]. exists ft. split; [exact Hft|].
    apply in_map_iff. exists fm. split; [reflexivity | apply filter_In; tauto].
Qed.

Lemma Sorted_mas_debil {A : Type} (R R' : A -> A -> Prop) (l : list A) :
  (forall a b, R a b -> R' a b) -> Sorted R l -> Sorted R' l.
Proof.
  intros Himp. induction 1 as [|x l Hs IH Hhd]; constructor; [exact IH|].
  destruct Hhd; constructor. now apply Himp.
Qed.

Lemma cumple_sql_eq_iff (a b : valor) :
  cumple (sql_eq a b) = true <-> a = b /\ a <> VNull.
Proof.
  split.
  - intro H. pose proof (cumple_sql_eq a b H) as Heq. split; [exact Heq|].
    intro Hn. subst. simpl in H. discriminate.
  - intros [Heq Hn]. subst b. destruct a; [congruence | |]; simpl.
    + now rewrite Z.eqb_refl.
    + now rewrite String.eqb_refl.
Qed.

Section Listados.

Variable L : biblioteca.

Lemma en_fecha_iff (t : tabla) (fecha : string) (ft fp fm : fila) :
  en_fecha L t fecha (ft, fp, fm) = true
  <-> sql_date L (leer t "fecha_hora" ft) = Some fecha.
Proof.
  unfold en_fecha, sql_date_valor.
  destruct (sql_date L (leer t "fecha_hora" ft)) as [s|]; simpl.
  - destruct (String.eqb s fecha) eqn:E.
    + apply String.eqb_eq in E. subst. tauto.
    + apply String.eqb_neq in E. split; [discriminate | congruence].
  - split; discriminate.
Qed.

(** C6, as the code has it.  Neither listing changes the database.  When
    the tables have the columns the query names, [listar_turnos_por_fecha]
    returns, in ascending order of the stored start text, one row for
    every appointment in whose stored start text SQLite's DATE() reads
    the text given as the date, together with a patient row and a
    physician row carrying its ids: an appointment whose patient or
    physician is not in the tables is left out, and so is one in whose
    start text SQLite reads no date.  For a patient id that fits in 64
    bits, [listar_turnos_paciente] returns, in descending order of the
    stored start text, one row for every appointment of the patient
    together with a physician row carrying its id. *)
Theorem listados_de_turnos :
  forall db : base,
    (forall fecha : string,
        db_final (listar_turnos_por_fecha L db fecha) = db
        /\ forall t p m,
            turnos db = Some t -> pacientes db = Some p -> medicos db = Some m ->
            columnas_por_fecha t p m = true ->
            exists filas,
              devuelto (listar_turnos_por_fecha L db fecha) = Ok filas
              /\ Sorted (fun a b => valor_leb (inicio_por_fecha a) (inicio_por_fecha b) = true)
                        filas
              /\ Permutation filas
                   (map (tupla_por_fecha t p m)
                        (filter (en_fecha L t fecha) (unir_turnos t p m)))
              /\ forall x,
                  In x filas
                  <-> exists ft fp fm,
                      In ft (tb_filas t) /\ In fp (tb_filas p) /\ In fm (tb_filas m)
                      /\ (leer t "paciente_id" ft = leer p "id" fp
                          /\ leer t "paciente_id" ft <> VNull)
                      /\ (leer t "medico_id" ft = leer m "id" fm
                          /\ leer t "medico_id" ft <> VNull)
                      /\ sql_date L (leer t "fecha_hora" ft) = Some fecha
                      /\ x = tupla_por_fecha t p m (ft, fp, fm))
    /\ (forall paciente_id : Z,
           db_final (listar_turnos_paciente db paciente_id) = db
           /\ forall t m,
               turnos db = Some t -> medicos db = Some m ->
               columnas_paciente t m = true ->
               cabe_en_sqlite (VInt paciente_id) = true ->
               exists filas,
                 devuelto (listar_turnos_paciente db paciente_id) = Ok filas
                 /\ Sorted (fun a b => valor_leb (inicio_paciente b) (inicio_paciente a) = true)
                           filas
                 /\ Permutation filas
                      (map (tupla_paciente t m)
                           (filter (del_paciente t paciente_id) (unir_medicos t m)))
                 /\ forall x,
                     In x filas
                     <-> exists ft fm,
                         In ft (tb_filas t) /\ In fm (tb_filas m)
                         /\ (leer t "medico_id" ft = leer m "id" fm
                             /\ leer t "medico_id" ft <> VNull)
                         /\ leer t "paciente_id" ft = VInt paciente_id
                         /\ x = tupla_paciente t m (ft, fm)).
Proof.
  intro db. split.
  - intro fecha. split.
    + unfold listar_turnos_por_fecha.
      destruct (seleccionar_por_fecha L db fecha) as [filas|e]; [reflexivity|].
      now destruct (es_sqlite_error e).
    + intros t p m Ht Hp Hm Hcols.
      unfold listar_turnos_por_fecha, seleccionar_por_fecha.
      rewrite Ht, Hp, Hm, Hcols. simpl negb. cbv iota.
      eexists. split; [reflexivity|].
      set (orden := fun a b => valor_leb (clave_orden t a) (clave_orden t b)).
      set (elegidas := filter (en_fecha L t fecha) (unir_turnos t p m)).
      assert (Hperm : Permutation (map (tupla_por_fecha t p m) (ordenar orden elegidas))
                                  (map (tupla_por_fecha t p m) elegidas))
        by (apply Permutation_map, Permutation_sym, ordenar_perm).
      split; [|split; [exact Hperm|]].
      * apply Sorted_map.
        apply (Sorted_mas_debil (fun a b => orden a b = true)).
        -- intros [[ft fp] fm] [[ft' fp'] fm'] H. exact H.
        -- apply ordenar_sorted. intros a b. apply valor_leb_total.
      * intro x. split.
        -- intro Hx. apply (Permutation_in _ Hperm) in Hx.
           apply in_map_iff in Hx. destruct Hx as [[[ft fp] fm] [Heq Hin]].
           apply filter_In in Hin. destruct Hin as [Hin Hf].
           apply en_unir_turnos in Hin. destruct Hin as [Hft [Hfp [Hfm [Hjp Hjm]]]].
           apply cumple_sql_eq_iff in Hjp. apply cumple_sql_eq_iff in Hjm.
           apply en_fecha_iff in Hf.
           exists ft, fp, fm. repeat split; try tauto. now symmetry.
        -- intros [ft [fp [fm [Hft [Hfp [Hfm [Hjp [Hjm [Hf Heq]]]]]]]]].
           apply (Permutation_in _ (Permutation_sym Hperm)).
           apply in_map_iff. exists (ft, fp, fm). split; [now symmetry|].
           apply filter_In. split; [|now apply en_fecha_iff].
           apply en_unir_turnos. repeat split; try assumption;
             now apply cumple_sql_eq_iff.
  - intro paciente_id. split.
    + unfold listar_turnos_paciente.
      destruct (seleccionar_paciente db paciente_id) as [filas|e]; [reflexivity|].
      now destruct (es_sqlite_error e).
    + intros t m Ht Hm Hcols Hcabe.
      unfold listar_turnos_paciente, seleccionar_paciente.
      rewrite Ht, Hm, Hcols, Hcabe. simpl negb. cbv iota.
      eexists. split; [reflexivity|].
      set (orden := fun a b : fila * fila =>
                      valor_leb (leer t "fecha_hora" (fst b)) (leer t "fecha_hora" (fst a))).
      set (elegidas := filter (del_paciente t paciente_id) (unir_medicos t m)).
      assert (Hperm : Permutation (map (tupla_paciente t m) (ordenar orden elegidas))
                                  (map (tupla_paciente t m) elegidas))
        by (apply Permutation_map, Permutation_sym, ordenar_perm).
      split; [|split; [exact Hperm|]].
      * apply Sorted_map.
        apply (Sorted_mas_debil (fun a b => orden a b = true)).
        -- intros [ft fm] [ft' fm'] H. exact H.
        -- apply ordenar_sorted. intros a b. apply valor_leb_total.
      * intro x. split.
        -- intro Hx. apply (Permutation_in _ Hperm) in Hx.
           apply in_map_iff in Hx. destruct Hx as [[ft fm] [Heq Hin]].
           apply filter_In in Hin. destruct Hin as [Hin Hf].
           apply en_unir_medicos in Hin. destruct Hin as [Hft [Hfm Hjm]].
           apply cumple_sql_eq_iff in Hjm.
           unfold del_paciente in Hf. apply cumple_sql_eq in Hf.
           exists ft, fm. repeat split; try tauto. now symmetry.
        -- intros [ft [fm [Hft [Hfm [Hjm [Hp Heq]]]]]].
           apply (Permutation_in _ (Permutation_sym Hperm)).
           apply in_map_iff. exists (ft, fm). split; [now symmetry|].
           apply filter_In. split.
           ++ apply en_unir_medicos. repeat split; try assumption.
              now apply cumple_sql_eq_iff.
           ++ unfold del_paciente. simpl fst. rewrite Hp. simpl.
              now rewrite Z.eqb_refl.
Qed.

End Listados.

(** An appointment made for a patient nobody registered is on no
    listing by date, and one made for an unknown physician is on no
    listing at all. *)
Lemma listar_turnos_sin_paciente :
  devuelto (crear_turno calendario base_ejemplo 1 1 "2025-11-20 10:00" 30 None)
  = Ok (Some 1)
  /\ option_map (fun t => map (fun f => sql_date calendario (leer t "fecha_hora" f))
                              (tb_filas t))
       (turnos (db_final (crear_turno calendario base_ejemplo 1 1
                                      "2025-11-20 10:00" 30 None)))
     = Some [Some "2025-11-20"]
  /\ listar_turnos_por_fecha calendario
       (db_final (crear_turno calendario base_ejemplo 1 1 "2025-11-20 10:00" 30 None))
       "2025-11-20"
     = mk_salida
         (db_final (crear_turno calendario base_ejemplo 1 1 "2025-11-20 10:00" 30 None))
         [] (Ok [])
  /\ devuelto (listar_turnos_paciente
                 (db_final (crear_turno calendario base_ejemplo 1 1
                                        "2025-11-20 10:00" 30 None)) 1)
     = Ok [].
Proof. repeat split; vm_compute; reflexivity. Qed.

(** An appointment [crear_turno] accepts at 9:00, written with one
    digit, is on no listing by date: SQLite reads no date in its start
    text.  The listing of the patient has it. *)
Example listar_turnos_por_fecha_hora_corta :
  devuelto (crear_turno calendario (base_con []) 1 1 "2025-11-20 9:00" 30 None)
  = Ok (Some 1)
  /\ sql_date calendario (VText "2025-11-20 9:00") = None
  /\ devuelto (listar_turnos_por_fecha calendario
                 (db_final (crear_turno calendario (base_con []) 1 1
                                        "2025-11-20 9:00" 30 None))
                 "2025-11-20")
     = Ok []
  /\ option_map (map inicio_paciente)
       (match devuelto (listar_turnos_paciente
                          (db_final (crear_turno calendario (base_con []) 1 1
                                                 "2025-11-20 9:00" 30 None)) 1)
        with
        | Ok filas => Some filas
        | Raise _ => None
        end)
     = Some [VText "2025-11-20 9:00"].
Proof. repeat split; vm_compute; reflexivity. Qed.

Lemma listados_de_turnos_ejemplo :
  (exists filas,
      devuelto (listar_turnos_por_fecha calendario
                  (base_con [turno 1 1 1 "2025-11-20 11:00" 30 "completado";
                             turno 2 1 1 "2025-11-21 10:00" 30 "pendiente";
                             turno 3 1 1 "2025-11-20 10:00" 30 "pendiente"])
                  "2025-11-20") = Ok filas
      /\ map inicio_por_fecha filas
         = [VText "2025-11-20 10:00"; VText "2025-11-20 11:00"])
  /\ (exists filas,
         devuelto (listar_turnos_paciente
                     (base_con [turno 1 1 1 "2025-11-20 11:00" 30 "completado";
                                turno 2 1 1 "2025-11-21 10:00" 30 "pendiente";
                                turno 3 1 1 "2025-11-20 10:00" 30 "pendiente"])
                     1) = Ok filas
         /\ map inicio_paciente filas
            = [VText "2025-11-21 10:00"; VText "2025-11-20 11:00";
               VText "2025-11-20 10:00"]).
Proof.
  split.
  - destruct (proj2 (proj1 (listados_de_turnos calendario
                (base_con [turno 1 1 1 "2025-11-20 11:00" 30 "completado";
                           turno 2 1 1 "2025-11-21 10:00" 30 "pendiente";
                           turno 3 1 1 "2025-11-20 10:00" 30 "pendiente"]))
                "2025-11-20") _ _ _ eq_refl eq_refl eq_refl eq_refl)
      as [filas [Hd _]].
    exists filas. split; [exact Hd|].
    vm_compute in Hd. inversion Hd. reflexivity.
  - destruct (proj2 (proj2 (listados_de_turnos calendario
                (base_con [turno 1 1 1 "2025-11-20 11:00" 30 "completado";
                           turno 2 1 1 "2025-11-21 10:00" 30 "pendiente";
                           turno 3 1 1 "2025-11-20 10:00" 30 "pendiente"]))
                1) _ _ eq_refl eq_refl eq_refl eq_refl)
      as [filas [Hd _]].
    exists filas. split; [exact Hd|].
    vm_compute in Hd. inversion Hd. reflexivity.
Defined.

(** ** The calendar of a physician *)

Lemma pares_sin_solape_al_final (l : list (Z * Z)) (c d : Z) :
  pares_sin_solape (l ++ [(c, d)])
  = pares_sin_solape l
    && forallb (fun ab => negb (solapan (fst ab) (snd ab) c d)) l.
Proof.
  induction l as [|[a b] l IH]; simpl; [reflexivity|].
  rewrite forallb_app, IH. simpl.
  destruct (solapan a b c d); simpl;
    rewrite ?andb_true_r, ?andb_false_r; [reflexivity|].
  now rewrite andb_assoc.
Qed.

Section Calendario_de_un_medico.

Variable L : biblioteca.

Lemma verificar_disponibilidad_cierta (db : base) (medico_id : Z) (fecha_hora : string)
      (duracion : Z) :
  snd (verificar_disponibilidad L db medico_id fecha_hora duracion) = true ->
  exists t dt,
    turnos db = Some t
    /\ tiene_columnas t ["medico_id"; "estado"; "fecha_hora"; "duracion"] = true
    /\ cabe_en_sqlite (VInt medico_id) = true
    /\ strptime L fecha_hora = Some dt
    /\ 0 <= dt + duracion <= max_instante
    /\ contar_ocupados L db medico_id dt (dt + duracion) = Ok 0.
Proof.
  unfold verificar_disponibilidad, sumar_minutos.
  destruct (strptime L fecha_hora) as [dt|]; [|discriminate].
  destruct ((0 <=? dt + duracion) && (dt + duracion <=? max_instante)) eqn:Er;
    [|discriminate].
  destruct (contar_ocupados L db medico_id dt (dt + duracion)) as [n|e] eqn:En;
    [|discriminate].
  simpl. intro Hn. apply Z.eqb_eq in Hn. subst n.
  pose proof En as En'.
  unfold contar_ocupados, sql_count in En'.
  destruct (turnos db) as [t|] eqn:Ht; [|discriminate].
  destruct (tiene_columnas t _) eqn:Hc; cbn [negb] in En'; [|discriminate].
  cbn [forallb] in En'.
  destruct (cabe_en_sqlite (VInt medico_id)) eqn:Hm; [|simpl in En'; discriminate].
  exists t, dt. apply andb_true_iff in Er. destruct Er as [E1 E2].
  apply Z.leb_le in E1. apply Z.leb_le in E2.
  repeat split; assumption.
Qed.

Lemma es_activo_de_misma_clave (t t' : tabla) (medico_id : Z) (f : fila) :
  tb_clave t' = tb_clave t -> es_activo_de t' medico_id f = es_activo_de t medico_id f.
Proof.
  intro H. unfold es_activo_de.
  now rewrite !(fun c => leer_misma_clave t t' c f H).
Qed.

Lemma intervalo_misma_clave (t t' : tabla) (f : fila) :
  tb_clave t' = tb_clave t -> intervalo L t' f = intervalo L t f.
Proof.
  intro H. unfold intervalo.
  now rewrite !(fun c => leer_misma_clave t t' c f H).
Qed.

Lemma intervalos_de_misma_clave (t t' : tabla) (medico_id : Z) (filas : list fila) :
  tb_clave t' = tb_clave t ->
  intervalos_de L t' medico_id filas = intervalos_de L t medico_id filas.
Proof.
  intro H. unfold intervalos_de. apply flat_map_ext. intro f.
  now rewrite (es_activo_de_misma_clave t t' medico_id f H),
    (intervalo_misma_clave t t' f H).
Qed.

(** What the availability check has excluded. *)
Lemma sin_estorbo_intervalos (t : tabla) (medico_id c d : Z) :
  sin_estorbo L t medico_id c d = true ->
  forallb (fun ab => negb (solapan (fst ab) (snd ab) c d))
          (intervalos_activos L t medico_id) = true.
Proof.
  unfold sin_estorbo, intervalos_activos, intervalos_de.
  induction (tb_filas t) as [|f l IH]; simpl; [reflexivity|].
  intro H. apply andb_true_iff in H. destruct H as [Hf Hl].
  rewrite forallb_app, (IH Hl), andb_true_r.
  destruct (es_activo_de t medico_id f); [|reflexivity].
  destruct (intervalo L t f) as [[a b]|]; [|reflexivity].
  simpl in *. destruct (solapan a b c d); [discriminate | reflexivity].
Qed.

Lemma crear_turno_mantiene_orden (medico_id : Z) (db : base) (c : llamada) :
  texto_legible L c ->
  calendario_en_orden L medico_id db ->
  calendario_en_orden L medico_id
    (db_final (crear_turno L db (ll_paciente c) medico_id (ll_fecha_hora c)
                           (ll_duracion c) (ll_motivo c))).
Proof.
  intros Hleg Hinv.
  destruct (devuelto (crear_turno L db (ll_paciente c) medico_id (ll_fecha_hora c)
                                  (ll_duracion c) (ll_motivo c))) as [[id|]|e] eqn:Ed.
  - destruct (crear_turno_exito L _ _ _ _ _ _ _ Ed)
      as [t [f [Ht [Hv [Hdb [Hid [Hm [Hfh [Hdur _]]]]]]]]].
    rewrite Hdb. clear Hdb.
    destruct Hinv as [t0 [Ht0 [Hfilas Hpares]]].
    rewrite Ht in Ht0. inversion Ht0; subst t0. clear Ht0.
    destruct (verificar_disponibilidad_cierta _ _ _ _ Hv)
      as [t1 [dt [Ht1 [Hcols [Hcabe [Hp [Hr Hcero]]]]]]].
    rewrite Ht in Ht1. inversion Ht1; subst t1. clear Ht1 Hv.
    destruct (Hleg dt Hp) as [Hsql [Hrel1 Hrel2]].
    destruct (contar_ocupados_sin_estorbo L db t medico_id dt (dt + ll_duracion c)
                Ht Hcols Hcabe Hrel1 Hrel2 Hfilas) as [n [Hn Hv]].
    rewrite Hcero in Hn. inversion Hn; subst n. clear Hn.
    symmetry in Hv. simpl in Hv.
    apply sin_estorbo_intervalos in Hv.
    set (t' := {| tb_clave := tb_clave t;
                  tb_columnas := tb_columnas t;
                  tb_secuencia := Z.max (tb_secuencia t) id;
                  tb_filas := tb_filas t ++ [f] |}).
    assert (Hk : tb_clave t' = tb_clave t) by reflexivity.
    exists t'. split; [reflexivity|]. split.
    + intros g Hg Hact. simpl in Hg. apply in_app_or in Hg.
      rewrite (es_activo_de_misma_clave t t') in Hact by exact Hk.
      destruct Hg as [Hg|[Hg|[]]].
      * destruct (Hfilas g Hg Hact) as [txt [s [d H]]].
        exists txt, s, d. now rewrite !(fun c => leer_misma_clave t t' c g Hk).
      * subst g. exists (ll_fecha_hora c), dt, (ll_duracion c).
        rewrite !(fun c => leer_misma_clave t t' c f Hk). repeat split; try assumption. lia.
    + unfold intervalos_activos. simpl tb_filas.
      rewrite (intervalos_de_misma_clave t t') by exact Hk.
      unfold intervalos_de. rewrite flat_map_app. simpl flat_map. rewrite app_nil_r.
      fold (intervalos_de L t medico_id (tb_filas t)).
      fold (intervalos_activos L t medico_id).
      destruct (es_activo_de t medico_id f); [|now rewrite app_nil_r].
      unfold intervalo. rewrite Hfh, Hdur, Hp. simpl option_map. cbv iota.
      rewrite pares_sin_solape_al_final, Hpares. exact Hv.
  - rewrite crear_turno_sin_exito; [exact Hinv|]. intro id. rewrite Ed. discriminate.
  - rewrite crear_turno_sin_exito; [exact Hinv|]. intro id. rewrite Ed. discriminate.
Qed.

(** The invariant of the specification, where it holds.  Starting from
    an empty appointments table, after any sequence of [crear_turno]
    calls for one physician whose start texts SQLite reads as Python
    does, the intervals of the pending and confirmed appointments of that
    physician are pairwise non-overlapping. *)
Lemma crear_turnos_sin_solapes (db : base) (t : tabla) (medico_id : Z)
      (l : list llamada) :
  turnos db = Some t ->
  tb_filas t = [] ->
  Forall (texto_legible L) l ->
  exists t',
    turnos (crear_turnos L db medico_id l) = Some t'
    /\ pares_sin_solape (intervalos_activos L t' medico_id) = true.
Proof.
  intros Ht Hvacia Hl.
  assert (Hinv : calendario_en_orden L medico_id db).
  { exists t. split; [exact Ht|]. unfold intervalos_activos. rewrite Hvacia.
    split; [intros f []|reflexivity]. }
  clear Ht Hvacia. revert db Hinv.
  induction Hl as [|c l Hc Hl IH]; intros db Hinv; simpl.
  - destruct Hinv as [t' [Ht' [_ Hp]]]. now exists t'.
  - apply IH. now apply crear_turno_mantiene_orden.
Qed.

End Calendario_de_un_medico.

Example crear_turnos_sin_solapes_ejemplo :
  option_map (fun t => intervalos_activos calendario t 1)
    (turnos (crear_turnos calendario base_ejemplo 1
               [mk_llamada 1 "2025-11-20 10:00" 30 None;
                mk_llamada 2 "2025-11-20 10:29" 30 None;
                mk_llamada 3 "2025-11-20 10:30" 30 None;
                mk_llamada 4 "2025-11-20 09:30" 30 None]))
  = Some [(1064987160, 1064987190); (1064987190, 1064987220);
          (1064987130, 1064987160)].
Proof. vm_compute. reflexivity. Qed.

(** C2, the defect behind it.  The availability query compares what
    SQLite reads in the stored start text, and SQLite reads nothing in a
    text Python accepts with a one-digit hour.  Two calls of
    [crear_turno] for physician 1 at 2025-11-20 9:00 for 30 minutes,
    starting from an empty table, both succeed: the table ends with two
    pending appointments of that physician over the same interval. *)
Theorem crear_turno_doble_reserva :
  devuelto (crear_turno calendario base_ejemplo 1 1 "2025-11-20 9:00" 30 None)
  = Ok (Some 1)
  /\ devuelto (crear_turno calendario
                 (db_final (crear_turno calendario base_ejemplo 1 1
                                        "2025-11-20 9:00" 30 None))
                 2 1 "2025-11-20 9:00" 30 None)
     = Ok (Some 2)
  /\ option_map (fun t => (tb_filas t, intervalos_activos calendario t 1,
                           pares_sin_solape (intervalos_activos calendario t 1)))
       (turnos (crear_turnos calendario base_ejemplo 1
                  [mk_llamada 1 "2025-11-20 9:00" 30 None;
                   mk_llamada 2 "2025-11-20 9:00" 30 None]))
     = Some ([turno 1 1 1 "2025-11-20 9:00" 30 "pendiente";
              turno 2 2 1 "2025-11-20 9:00" 30 "pendiente"],
             [(1064987100, 1064987130); (1064987100, 1064987130)],
             false)
  /\ strptime calendario "2025-11-20 9:00" = Some 1064987100
  /\ sql_datetime calendario (VText "2025-11-20 9:00") = None.
Proof. repeat split; vm_compute; reflexivity. Qed.

(** * Further properties of the class *)

(** ** Identifiers *)

Lemma max_rowid_cota (l : list fila) (g : fila) : In g l -> rowid g <= max_rowid l.
Proof.
  induction l as [|f l IH]; simpl; [intros []|].
  intros [H|H]; [subst; lia | specialize (IH H); lia].
Qed.

Lemma es_clave_nombre (t : tabla) (c : string) :
  es_clave t c = true -> tb_clave t = Some c.
Proof.
  unfold es_clave. destruct (tb_clave t) as [k|]; [|discriminate].
  intro H. apply String.eqb_eq in H. now subst.
Qed.

(** When the statement does not name the key, the row gets a rowid above
    every rowid in the table and every rowid handed out before. *)
Lemma elegir_rowid_automatico (t : tabla) (dados : list (string * valor)) (c : string)
      (id : Z) :
  es_clave t c = true ->
  asociado c dados = None ->
  elegir_rowid t dados = Some id ->
  tb_secuencia t < id /\ forall g, In g (tb_filas t) -> rowid g < id.
Proof.
  intros Hk Hd. unfold elegir_rowid. rewrite (es_clave_nombre t c Hk), Hd.
  intro H. inversion H; subst id. clear H. split; [lia|].
  intros g Hg. pose proof (max_rowid_cota _ _ Hg). lia.
Qed.

Lemma NoDup_rowid_al_final (l : list fila) (f : fila) :
  NoDup (map rowid l) ->
  (forall g, In g l -> rowid g < rowid f) ->
  NoDup (map rowid (l ++ [f])).
Proof.
  intros Hnd Hlt. rewrite map_app. simpl.
  apply NoDup_app; [exact Hnd | repeat constructor; intros [] |].
  intros x Hx [Hf|[]]. subst x. apply in_map_iff in Hx.
  destruct Hx as [g [Heq Hg]]. specialize (Hlt g Hg). lia.
Qed.

(** ** Physicians *)

Lemma registrar_medico_insertado (db : base) (nombre apellido especialidad matricula : string)
      (telefono email : option string) (id : Z) :
  rs_valor (registrar_medico db nombre apellido especialidad matricula telefono email)
  = Ok (Some id) ->
  exists t,
    medicos db = Some t
    /\ rs_db (registrar_medico db nombre apellido especialidad matricula telefono email)
       = con_medicos db
           {| tb_clave := tb_clave t;
              tb_columnas := tb_columnas t;
              tb_secuencia := Z.max (tb_secuencia t) id;
              tb_filas :=
                tb_filas t
                ++ [fila_nueva t
                      (combine ["nombre"; "apellido"; "especialidad"; "matricula";
                                "telefono"; "email"]
                               [VText nombre; VText apellido; VText especialidad;
                                VText matricula; de_opcional telefono;
                                de_opcional email]) id] |}
    /\ tiene_columnas t ["nombre"; "apellido"; "especialidad"; "matricula";
                         "telefono"; "email"] = true
    /\ elegir_rowid t
         (combine ["nombre"; "apellido"; "especialidad"; "matricula"; "telefono"; "email"]
                  [VText nombre; VText apellido; VText especialidad; VText matricula;
                   de_opcional telefono; de_opcional email]) = Some id.
Proof.
  unfold registrar_medico.
  match goal with
  | |- context [sql_insert ?o ?c ?v] => destruct (sql_insert o c v) as [[t' id']|e] eqn:Ei
  end.
  - simpl. intro H. inversion H; subst id'. clear H.
    apply sql_insert_ok in Ei. destruct Ei as [t [Ht [Ht' [Hc He]]]].
    exists t. subst t'. repeat split; assumption.
  - destruct (es_integrity_error e); [discriminate|].
    destruct (es_sqlite_error e); discriminate.
Qed.

(** X1.  A successful [registrar_medico] on a table keyed by [id] adds
    exactly one row at the end of [medicos], holding the six values
    given; the identifier it returns is that row's and is greater than
    every identifier in the table, so identifiers that were distinct
    stay distinct; the patients and appointments are untouched. *)
Theorem registrar_medico_agrega :
  forall (db : base) (t : tabla) (nombre apellido especialidad matricula : string)
         (telefono email : option string) (id : Z),
    medicos db = Some t ->
    es_clave t "id" = true ->
    rs_valor (registrar_medico db nombre apellido especialidad matricula telefono email)
    = Ok (Some id) ->
    exists t' f,
      rs_db (registrar_medico db nombre apellido especialidad matricula telefono email)
      = con_medicos db t'
      /\ tb_clave t' = tb_clave t
      /\ tb_columnas t' = tb_columnas t
      /\ tb_filas t' = tb_filas t ++ [f]
      /\ rowid f = id
      /\ (forall g, In g (tb_filas t) -> rowid g < id)
      /\ (NoDup (map rowid (tb_filas t)) -> NoDup (map rowid (tb_filas t')))
      /\ leer t' "nombre" f = VText nombre
      /\ leer t' "apellido" f = VText apellido
      /\ leer t' "especialidad" f = VText especialidad
      /\ leer t' "matricula" f = VText matricula
      /\ leer t' "telefono" f = de_opcional telefono
      /\ leer t' "email" f = de_opcional email.
Proof.
  intros db t nombre apellido especialidad matricula telefono email id Ht Hk Hv.
  destruct (registrar_medico_insertado _ _ _ _ _ _ _ _ Hv) as [t0 [Ht0 [Hdb [Hc He]]]].
  rewrite Ht in Ht0. inversion Ht0; subst t0. clear Ht0.
  destruct ((fun Hd => elegir_rowid_automatico t _ "id" id Hk Hd He) eq_refl)
    as [Hseq Hlt].
  eexists. eexists. split; [exact Hdb|]. simpl.
  simpl in Hc. repeat (apply andb_true_iff in Hc; destruct Hc as [? Hc]).
  assert (Hno : forall c, c <> "id" -> es_clave t c = true -> False).
  { intros c Hne Hc'. rewrite (es_clave_unica t "id" c Hk Hne) in Hc'. discriminate. }
  repeat split; try assumption.
  - intro Hnd. apply NoDup_rowid_al_final; assumption.
  - rewrite (leer_misma_clave t) by reflexivity.
    apply leer_insertado; [reflexivity | assumption |].
    intro Hx. exfalso. apply (Hno "nombre"); [discriminate | exact Hx].
  - rewrite (leer_misma_clave t) by reflexivity.
    apply leer_insertado; [reflexivity | assumption |].
    intro Hx. exfalso. apply (Hno "apellido"); [discriminate | exact Hx].
  - rewrite (leer_misma_clave t) by reflexivity.
    apply leer_insertado; [reflexivity | assumption |].
    intro Hx. exfalso. apply (Hno "especialidad"); [discriminate | exact Hx].
  - rewrite (leer_misma_clave t) by reflexivity.
    apply leer_insertado; [reflexivity | assumption |].
    intro Hx. exfalso. apply (Hno "matricula"); [discriminate | exact Hx].
  - rewrite (leer_misma_clave t) by reflexivity.
    apply leer_insertado; [reflexivity | assumption |].
    intro Hx. exfalso. apply (Hno "telefono"); [discriminate | exact Hx].
  - rewrite (leer_misma_clave t) by reflexivity.
    apply leer_insertado; [reflexivity | assumption |].
    intro Hx. exfalso. apply (Hno "email"); [discriminate | exact Hx].
Qed.

Lemma registrar_medico_agrega_ejemplo :
  exists t' f,
    rs_db (registrar_medico (base_de_medicos [medico 4 "Ana" "Martinez" "Traumatologia" "MN67890"])
             "Carlos" "Rodriguez" "Cardiologia" "MN12345" (Some "1167890123") None)
    = con_medicos (base_de_medicos [medico 4 "Ana" "Martinez" "Traumatologia" "MN67890"]) t'
    /\ tb_filas t' = [medico 4 "Ana" "Martinez" "Traumatologia" "MN67890"; f]
    /\ rowid f = 5.
Proof.
  destruct (registrar_medico_agrega
              (base_de_medicos [medico 4 "Ana" "Martinez" "Traumatologia" "MN67890"])
              _ "Carlos" "Rodriguez" "Cardiologia" "MN12345" (Some "1167890123") None 5
              eq_refl eq_refl eq_refl)
    as [t' [f [Hdb [_ [_ [Hf [Hid _]]]]]]].
  exists t', f. repeat split; assumption.
Defined.




Lemma asociado_combine_en (cols : list string) (vals : list valor) (c : string) (v : valor) :
  asociado c (combine cols vals) = Some v -> In c cols.
Proof.
  revert vals. induction cols as [|k cols IH]; intros [|w vals]; simpl; try discriminate.
  destruct (String.eqb k c) eqn:E.
  - intros _. left. now apply String.eqb_eq.
  - intro H. right. now apply (IH vals).
Qed.

Section Registro_de_medicos.

Variables (db : base) (t : tabla).
Variables (nombre apellido especialidad matricula : string).
Variables (telefono email : option string).

Hypothesis medicos_db : medicos db = Some t.
Hypothesis clave_id : es_clave t "id" = true.
Hypothesis columnas_medicos :
  tiene_columnas t ["nombre"; "apellido"; "especialidad"; "matricula"; "telefono"; "email"]
  = true.

Let dados : list (string * valor) :=
  combine ["nombre"; "apellido"; "especialidad"; "matricula"; "telefono"; "email"]
          [VText nombre; VText apellido; VText especialidad; VText matricula;
           de_opcional telefono; de_opcional email].





End Registro_de_medicos.



(** ** Listings of the registers *)

Lemma lex_leb_total (a b : list valor) : lex_leb a b = true \/ lex_leb b a = true.
Proof.
  revert b. induction a as [|x a IH]; intros [|y b]; simpl; auto.
  destruct (valor_leb x y) eqn:Exy, (valor_leb y x) eqn:Eyx; simpl; auto.
  destruct (valor_leb_total x y); congruence.
Qed.

Lemma lex_leb_dos (x1 x2 y1 y2 : valor) :
  lex_leb [x1; x2] [y1; y2] = true ->
  valor_leb x1 y1 = true /\ (valor_leb y1 x1 = true -> valor_leb x2 y2 = true).
Proof.
  simpl. intro H. apply andb_true_iff in H. destruct H as [H1 H2]. split; [exact H1|].
  intro H3. rewrite H3 in H2. simpl in H2. apply andb_true_iff in H2. tauto.
Qed.

Lemma lex_leb_tres (x1 x2 x3 y1 y2 y3 : valor) :
  lex_leb [x1; x2; x3] [y1; y2; y3] = true ->
  valor_leb x1 y1 = true
  /\ (valor_leb y1 x1 = true ->
      valor_leb x2 y2 = true /\ (valor_leb y2 x2 = true -> valor_leb x3 y3 = true)).
Proof.
  intro H. change (valor_leb x1 y1 && (negb (valor_leb y1 x1)
                                       || lex_leb [x2; x3] [y2; y3]) = true) in H.
  apply andb_true_iff in H. destruct H as [H1 H2]. split; [exact H1|].
  intro H3. rewrite H3 in H2. simpl negb in H2. simpl orb in H2.
  now apply lex_leb_dos.
Qed.

Lemma sql_select_ok (t : tabla) (cols : list string) (params : list valor)
      (donde : tabla -> fila -> sql_bool) (leb : option (tabla -> fila -> fila -> bool)) :
  tiene_columnas t cols = true ->
  forallb cabe_en_sqlite params = true ->
  sql_select (Some t) cols params donde leb
  = Ok (map (tupla_estrella t)
            (match leb with
             | Some o => ordenar (o t) (filter (fun f => cumple (donde t f)) (tb_filas t))
             | None => filter (fun f => cumple (donde t f)) (tb_filas t)
             end)).
Proof. intros Hc Hp. unfold sql_select. now rewrite Hc, Hp. Qed.

Lemma filter_todo {A : Type} (l : list A) : filter (fun _ => true) l = l.
Proof. induction l as [|x l IH]; simpl; [reflexivity | now rewrite IH]. Qed.

Lemma cumple_sql_eq_texto (v : valor) (s : string) :
  cumple (sql_eq v (VText s)) = valor_eqb v (VText s).
Proof. destruct v; simpl; try reflexivity. now destruct (String.eqb s0 s). Qed.

(** X4.  [listar_pacientes] never changes the database.  When the table
    has the columns [apellido] and [nombre], it returns the tuple of
    every patient, each once, in ascending order of surname and, among
    equal surnames, of name. *)
Theorem listar_pacientes_ordenados :
  forall db : base,
    rs_db (listar_pacientes db) = db
    /\ forall t,
        pacientes db = Some t ->
        tiene_columnas t ["apellido"; "nombre"] = true ->
        exists filas,
          rs_valor (listar_pacientes db) = Ok (map (tupla_estrella t) filas)
          /\ Permutation filas (tb_filas t)
          /\ Sorted (fun f g =>
                       valor_leb (leer t "apellido" f) (leer t "apellido" g) = true
                       /\ (valor_leb (leer t "apellido" g) (leer t "apellido" f) = true ->
                           valor_leb (leer t "nombre" f) (leer t "nombre" g) = true))
                    filas.
Proof.
  intro db. split.
  - unfold listar_pacientes.
    destruct (sql_select (pacientes db) _ _ _ _) as [filas|e]; [reflexivity|].
    now destruct (es_sqlite_error e).
  - intros t Ht Hc. unfold listar_pacientes. rewrite Ht.
    rewrite sql_select_ok by (exact Hc || reflexivity).
    unfold sin_where. simpl cumple. rewrite filter_todo.
    eexists. split; [reflexivity|]. split.
    + apply Permutation_sym, ordenar_perm.
    + apply (Sorted_mas_debil (fun f g => orden_por ["apellido"; "nombre"] t f g = true)).
      * intros f g H. now apply lex_leb_dos.
      * apply ordenar_sorted. intros f g. apply lex_leb_total.
Qed.

(** X5.  [listar_medicos] never changes the database.  With no specialty,
    or with the empty text, it returns the tuple of every physician, each
    once, ordered by specialty, then surname, then name.  With a
    specialty that is not empty it returns the physicians whose specialty
    is exactly that text, ordered by surname, then name. *)
Theorem listar_medicos_ordenados :
  forall (db : base) (especialidad : option string),
    rs_db (listar_medicos db especialidad) = db
    /\ forall t,
        medicos db = Some t ->
        tiene_columnas t ["especialidad"; "apellido"; "nombre"] = true ->
        (especialidad = None \/ especialidad = Some "" ->
         exists filas,
           rs_valor (listar_medicos db especialidad) = Ok (map (tupla_estrella t) filas)
           /\ Permutation filas (tb_filas t)
           /\ Sorted (fun f g =>
                        valor_leb (leer t "especialidad" f) (leer t "especialidad" g) = true
                        /\ (valor_leb (leer t "especialidad" g) (leer t "especialidad" f)
                            = true ->
                            valor_leb (leer t "apellido" f) (leer t "apellido" g) = true
                            /\ (valor_leb (leer t "apellido" g) (leer t "apellido" f) = true ->
                                valor_leb (leer t "nombre" f) (leer t "nombre" g) = true)))
                     filas)
        /\ (forall e,
               especialidad = Some e -> e <> "" ->
               exists filas,
                 rs_valor (listar_medicos db especialidad)
                 = Ok (map (tupla_estrella t) filas)
                 /\ Permutation filas
                      (filter (fun f => valor_eqb (leer t "especialidad" f) (VText e))
                              (tb_filas t))
                 /\ Sorted (fun f g =>
                              valor_leb (leer t "apellido" f) (leer t "apellido" g) = true
                              /\ (valor_leb (leer t "apellido" g) (leer t "apellido" f)
                                  = true ->
                                  valor_leb (leer t "nombre" f) (leer t "nombre" g) = true))
                           filas).
Proof.
  intros db especialidad. split.
  - unfold listar_medicos.
    destruct (verdadero especialidad);
      match goal with
      | |- context [sql_select ?a ?b ?c ?d ?e] =>
          destruct (sql_select a b c d e) as [filas|x]; [reflexivity|]
      end; now destruct (es_sqlite_error x).
  - intros t Ht Hc. split.
    + intro Hvac.
      assert (Hv : verdadero especialidad = false) by (destruct Hvac; subst; reflexivity).
      unfold listar_medicos. rewrite Hv, Ht.
      rewrite sql_select_ok by (exact Hc || reflexivity).
      unfold sin_where. simpl cumple. rewrite filter_todo.
      eexists. split; [reflexivity|]. split.
      * apply Permutation_sym, ordenar_perm.
      * apply (Sorted_mas_debil
                 (fun f g => orden_por ["especialidad"; "apellido"; "nombre"] t f g = true)).
        -- intros f g H. now apply lex_leb_tres.
        -- apply ordenar_sorted. intros f g. apply lex_leb_total.
    + intros e He Hne. subst especialidad.
      assert (Hv : verdadero (Some e) = true).
      { simpl. apply negb_true_iff. now apply String.eqb_neq. }
      unfold listar_medicos. rewrite Hv, Ht.
      rewrite sql_select_ok by (exact Hc || reflexivity).
      eexists. split; [reflexivity|]. split.
      * eapply perm_trans; [apply Permutation_sym, ordenar_perm|].
        erewrite filter_ext; [apply Permutation_refl|].
        intro f. unfold con_especialidad. simpl de_opcional.
        apply cumple_sql_eq_texto.
      * apply (Sorted_mas_debil (fun f g => orden_por ["apellido"; "nombre"] t f g = true)).
        -- intros f g H. now apply lex_leb_dos.
        -- apply ordenar_sorted. intros f g. apply lex_leb_total.
Qed.

Lemma listar_pacientes_ordenados_ejemplo :
  exists t filas,
    pacientes (base_de_pacientes [paciente 1 "Juan" "Perez" "12345678";
                                  paciente 2 "Maria" "Gonzalez" "87654321";
                                  paciente 3 "Ana" "Perez" "2432423"]) = Some t
    /\ rs_valor (listar_pacientes
                   (base_de_pacientes [paciente 1 "Juan" "Perez" "12345678";
                                       paciente 2 "Maria" "Gonzalez" "87654321";
                                       paciente 3 "Ana" "Perez" "2432423"]))
       = Ok (map (tupla_estrella t) filas)
    /\ List.length filas = 3%nat.
Proof.
  eexists.
  destruct (proj2 (listar_pacientes_ordenados
                     (base_de_pacientes [paciente 1 "Juan" "Perez" "12345678";
                                         paciente 2 "Maria" "Gonzalez" "87654321";
                                         paciente 3 "Ana" "Perez" "2432423"]))
                  _ eq_refl eq_refl) as [filas [Hv [Hp _]]].
  exists filas. split; [reflexivity|]. split; [exact Hv|].
  apply Permutation_length in Hp. exact Hp.
Defined.

(** The listing of the three patients above: Gonzalez, then Perez Ana,
    then Perez Juan. *)
Example listar_pacientes_tres :
  option_map (map (fun x => hd VNull x))
    (match rs_valor (listar_pacientes
                       (base_de_pacientes [paciente 1 "Juan" "Perez" "12345678";
                                           paciente 2 "Maria" "Gonzalez" "87654321";
                                           paciente 3 "Ana" "Perez" "2432423"]))
     with Ok filas => Some filas | Raise _ => None end)
  = Some [VInt 2; VInt 3; VInt 1].
Proof. vm_compute. reflexivity. Qed.

Lemma listar_medicos_ordenados_ejemplo :
  exists t,
    medicos (base_de_medicos [medico 1 "Carlos" "Rodriguez" "Cardiologia" "MN12345";
                              medico 2 "Ana" "Martinez" "Traumatologia" "MN67890";
                              medico 3 "Luis" "Alvarez" "Cardiologia" "MN11111"]) = Some t
    /\ (exists filas,
           rs_valor (listar_medicos
                       (base_de_medicos [medico 1 "Carlos" "Rodriguez" "Cardiologia" "MN12345";
                                         medico 2 "Ana" "Martinez" "Traumatologia" "MN67890";
                                         medico 3 "Luis" "Alvarez" "Cardiologia" "MN11111"])
                       (Some ""))
           = Ok (map (tupla_estrella t) filas)
           /\ List.length filas = 3%nat)
    /\ (exists filas,
           rs_valor (listar_medicos
                       (base_de_medicos [medico 1 "Carlos" "Rodriguez" "Cardiologia" "MN12345";
                                         medico 2 "Ana" "Martinez" "Traumatologia" "MN67890";
                                         medico 3 "Luis" "Alvarez" "Cardiologia" "MN11111"])
                       (Some "Cardiologia"))
           = Ok (map (tupla_estrella t) filas)
           /\ List.length filas = 2%nat).
Proof.
  eexists. split; [reflexivity|]. split.
  - destruct (proj1 (proj2 (listar_medicos_ordenados
                (base_de_medicos [medico 1 "Carlos" "Rodriguez" "Cardiologia" "MN12345";
                                  medico 2 "Ana" "Martinez" "Traumatologia" "MN67890";
                                  medico 3 "Luis" "Alvarez" "Cardiologia" "MN11111"])
                (Some "")) _ eq_refl eq_refl) (or_intror eq_refl)) as [filas [Hv [Hp _]]].
    exists filas. split; [exact Hv|]. apply Permutation_length in Hp. exact Hp.
  - destruct (proj2 (proj2 (listar_medicos_ordenados
                (base_de_medicos [medico 1 "Carlos" "Rodriguez" "Cardiologia" "MN12345";
                                  medico 2 "Ana" "Martinez" "Traumatologia" "MN67890";
                                  medico 3 "Luis" "Alvarez" "Cardiologia" "MN11111"])
                (Some "Cardiologia")) _ eq_refl eq_refl) "Cardiologia" eq_refl)
      as [filas [Hv [Hp _]]]; [discriminate|].
    exists filas. split; [exact Hv|]. apply Permutation_length in Hp. exact Hp.
Defined.

(** The two listings above: Alvarez, Rodriguez, Martinez; and the
    cardiologists Alvarez, Rodriguez. *)
Example listar_medicos_tres :
  (rs_valor (listar_medicos
               (base_de_medicos [medico 1 "Carlos" "Rodriguez" "Cardiologia" "MN12345";
                                 medico 2 "Ana" "Martinez" "Traumatologia" "MN67890";
                                 medico 3 "Luis" "Alvarez" "Cardiologia" "MN11111"])
               None),
   rs_valor (listar_medicos
               (base_de_medicos [medico 1 "Carlos" "Rodriguez" "Cardiologia" "MN12345";
                                 medico 2 "Ana" "Martinez" "Traumatologia" "MN67890";
                                 medico 3 "Luis" "Alvarez" "Cardiologia" "MN11111"])
               (Some "Cardiologia")))
  = (Ok [[VInt 3; VText "Luis"; VText "Alvarez"; VText "Cardiologia"; VText "MN11111";
          VNull; VNull];
         [VInt 1; VText "Carlos"; VText "Rodriguez"; VText "Cardiologia"; VText "MN12345";
          VNull; VNull];
         [VInt 2; VText "Ana"; VText "Martinez"; VText "Traumatologia"; VText "MN67890";
          VNull; VNull]],
     Ok [[VInt 3; VText "Luis"; VText "Alvarez"; VText "Cardiologia"; VText "MN11111";
          VNull; VNull];
         [VInt 1; VText "Carlos"; VText "Rodriguez"; VText "Cardiologia"; VText "MN12345";
          VNull; VNull]]).
Proof. vm_compute. reflexivity. Qed.

Lemma primero_de_filter {A B : Type} (g : A -> B) (p : A -> bool) (l : list A) :
  (hd_error (map g (filter p l)) = None <-> forall x, In x l -> p x = false)
  /\ (forall y, hd_error (map g (filter p l)) = Some y ->
                exists x, In x l /\ p x = true /\ y = g x).
Proof.
  induction l as [|a l [IH1 IH2]]; simpl.
  - split; [split; [intros _ x [] | reflexivity] | discriminate].
  - destruct (p a) eqn:Ea; simpl.
    + split.
      * split; [discriminate|]. intro H. specialize (H a (or_introl eq_refl)). congruence.
      * intros y Hy. inversion Hy. exists a. auto.
    + split.
      * split.
        -- intros H x [Hx|Hx]; [now subst | now apply IH1].
        -- intro H. apply IH1. intros x Hx. apply H. now right.
      * intros y Hy. destruct (IH2 y Hy) as [x [Hx [Hp Heq]]]. exists x. auto.
Qed.

(** X6.  [buscar_paciente_por_dni] never changes the database.  When the
    table has a column [dni], it returns None exactly when no patient
    holds that national ID; otherwise it returns the tuple of a patient
    that holds it. *)
Theorem buscar_paciente_por_dni_encuentra :
  forall (db : base) (dni : string),
    rs_db (buscar_paciente_por_dni db dni) = db
    /\ forall t,
        pacientes db = Some t ->
        tiene_columna t "dni" = true ->
        (rs_valor (buscar_paciente_por_dni db dni) = Ok None
         <-> forall f, In f (tb_filas t) -> leer t "dni" f <> VText dni)
        /\ (forall x,
               rs_valor (buscar_paciente_por_dni db dni) = Ok (Some x) ->
               exists f, In f (tb_filas t) /\ leer t "dni" f = VText dni
                         /\ x = tupla_estrella t f).
Proof.
  intros db dni. split.
  - unfold buscar_paciente_por_dni.
    destruct (sql_select (pacientes db) _ _ _ _) as [filas|e]; [reflexivity|].
    now destruct (es_sqlite_error e).
  - intros t Ht Hc. unfold buscar_paciente_por_dni. rewrite Ht.
    rewrite sql_select_ok by (simpl; rewrite ?Hc; reflexivity).
    cbn [rs_valor].
    destruct (primero_de_filter (tupla_estrella t) (fun f => cumple (con_dni dni t f))
                                (tb_filas t)) as [Hnone Hsome].
    split.
    + split.
      * intro H. inversion H as [H']. intros f Hf Heq.
        pose proof (proj1 Hnone H' f Hf) as Hno. unfold con_dni in Hno.
        rewrite Heq in Hno. simpl in Hno. rewrite String.eqb_refl in Hno. discriminate.
      * intro H. f_equal. apply Hnone. intros f Hf.
        destruct (cumple (con_dni dni t f)) eqn:E; [|reflexivity].
        apply cumple_sql_eq in E. exfalso. now apply (H f Hf).
    + intros x H. inversion H as [H']. destruct (Hsome x H') as [f [Hf [Hp Heq]]].
      exists f. split; [exact Hf|]. split; [|exact Heq]. now apply cumple_sql_eq.
Qed.

Lemma buscar_paciente_por_dni_encuentra_ejemplo :
  rs_valor (buscar_paciente_por_dni
              (base_de_pacientes [paciente 1 "Juan" "Perez" "12345678";
                                  paciente 2 "Maria" "Gonzalez" "87654321"])
              "2432423") = Ok None.
Proof.
  apply (proj1 (proj2 (buscar_paciente_por_dni_encuentra
                         (base_de_pacientes [paciente 1 "Juan" "Perez" "12345678";
                                             paciente 2 "Maria" "Gonzalez" "87654321"])
                         "2432423") _ eq_refl eq_refl)).
  intros f [Hf|[Hf|[]]]; subst f; discriminate.
Defined.

Example buscar_paciente_por_dni_maria :
  rs_valor (buscar_paciente_por_dni
              (base_de_pacientes [paciente 1 "Juan" "Perez" "12345678";
                                  paciente 2 "Maria" "Gonzalez" "87654321"])
              "87654321")
  = Ok (Some [VInt 2; VText "Maria"; VText "Gonzalez"; VText "87654321";
              VNull; VNull; VNull; VNull]).
Proof. vm_compute. reflexivity. Qed.

Lemma tupla_estrella_clave (t : tabla) (c : string) (f : fila) :
  es_clave t c = true -> hd_error (tupla_estrella t f) = Some (VInt (rowid f)).
Proof.
  intro H. unfold tupla_estrella. now rewrite (es_clave_nombre t c H).
Qed.

Lemma tupla_estrella_celda (t : tabla) (c : string) (f : fila) :
  tiene_columna t c = true -> In (leer t c f) (tupla_estrella t f).
Proof.
  unfold tiene_columna, tupla_estrella. intro H. apply orb_true_iff in H.
  destruct H as [H|H].
  - rewrite (es_clave_nombre t c H). left. unfold leer. now rewrite H.
  - apply in_or_app. right. apply existsb_exists in H. destruct H as [k [Hk Hn]].
    apply String.eqb_eq in Hn. subst c. apply in_map_iff. now exists k.
Qed.

(** X7.  A physician that [registrar_medico] has registered is on the
    listings: after a successful registration on a table keyed by [id],
    [listar_medicos] without a specialty, and with the specialty the
    physician was registered under, returns a tuple that starts with the
    identifier returned and holds the name, surname and licence given. *)
Theorem registrar_medico_listado :
  forall (db : base) (t : tabla) (nombre apellido especialidad matricula : string)
         (telefono email : option string) (id : Z) (filtro : option string),
    medicos db = Some t ->
    es_clave t "id" = true ->
    rs_valor (registrar_medico db nombre apellido especialidad matricula telefono email)
    = Ok (Some id) ->
    filtro = None \/ filtro = Some especialidad ->
    exists filas x,
      rs_valor (listar_medicos
                  (rs_db (registrar_medico db nombre apellido especialidad matricula
                                           telefono email))
                  filtro) = Ok filas
      /\ In x filas
      /\ hd_error x = Some (VInt id)
      /\ In (VText nombre) x /\ In (VText apellido) x /\ In (VText matricula) x.
Proof.
  intros db t nombre apellido especialidad matricula telefono email id filtro
         Ht Hk Hv Hfiltro.
  destruct (registrar_medico_insertado _ _ _ _ _ _ _ _ Hv) as [t0 [Ht0 [Hdb [Hc He]]]].
  rewrite Ht in Ht0. inversion Ht0; subst t0. clear Ht0.
  rewrite Hdb. clear Hdb Hv.
  set (dados := combine ["nombre"; "apellido"; "especialidad"; "matricula";
                         "telefono"; "email"]
                        [VText nombre; VText apellido; VText especialidad;
                         VText matricula; de_opcional telefono; de_opcional email]) in *.
  set (f := fila_nueva t dados id).
  set (t' := {| tb_clave := tb_clave t; tb_columnas := tb_columnas t;
                tb_secuencia := Z.max (tb_secuencia t) id;
                tb_filas := tb_filas t ++ [f] |}).
  assert (Hcols : forall c, In c ["nombre"; "apellido"; "especialidad"; "matricula";
                                  "telefono"; "email"] -> tiene_columna t' c = true).
  { unfold tiene_columnas in Hc. rewrite forallb_forall in Hc. exact Hc. }
  assert (Hleer : forall c v, asociado c dados = Some v -> c <> "id" ->
                              leer t' c f = v).
  { intros c v Hd Hne. rewrite (leer_misma_clave t) by reflexivity.
    apply leer_insertado; [exact Hd | |].
    - apply (Hcols c). apply (asociado_combine_en _ _ _ _ Hd).
    - intro Hx. rewrite (es_clave_unica t "id" c Hk Hne) in Hx. discriminate. }
  assert (Hsel : tiene_columnas t' ["especialidad"; "apellido"; "nombre"] = true).
  { simpl. rewrite !Hcols by (simpl; tauto). reflexivity. }
  assert (Hx : hd_error (tupla_estrella t' f) = Some (VInt id)
               /\ In (VText nombre) (tupla_estrella t' f)
               /\ In (VText apellido) (tupla_estrella t' f)
               /\ In (VText matricula) (tupla_estrella t' f)).
  { split; [apply (tupla_estrella_clave t' "id"); exact Hk|].
    pose proof (tupla_estrella_celda t' "nombre" f) as H1.
    pose proof (tupla_estrella_celda t' "apellido" f) as H2.
    pose proof (tupla_estrella_celda t' "matricula" f) as H3.
    rewrite (Hleer "nombre" (VText nombre)) in H1 by (reflexivity || discriminate).
    rewrite (Hleer "apellido" (VText apellido)) in H2 by (reflexivity || discriminate).
    rewrite (Hleer "matricula" (VText matricula)) in H3 by (reflexivity || discriminate).
    repeat split; [apply H1 | apply H2 | apply H3]; apply Hcols; simpl; tauto. }
  unfold listar_medicos. cbn [medicos con_medicos].
  destruct (verdadero filtro) eqn:Ev.
  - destruct Hfiltro as [Hf|Hf]; subst filtro; [discriminate|].
    rewrite sql_select_ok by (exact Hsel || reflexivity).
    eexists. exists (tupla_estrella t' f). split; [reflexivity|]. split; [|exact Hx].
    apply in_map. apply (Permutation_in _ (ordenar_perm _ _ _)).
    apply filter_In. split; [simpl; apply in_or_app; right; now left|].
    unfold con_especialidad. simpl de_opcional.
    rewrite (Hleer "especialidad" (VText especialidad)) by (reflexivity || discriminate).
    simpl. now rewrite String.eqb_refl.
  - rewrite sql_select_ok by (exact Hsel || reflexivity).
    eexists. exists (tupla_estrella t' f). split; [reflexivity|]. split; [|exact Hx].
    apply in_map. apply (Permutation_in _ (ordenar_perm _ _ _)).
    apply filter_In. split; [simpl; apply in_or_app; right; now left | reflexivity].
Qed.

Lemma registrar_medico_listado_ejemplo :
  exists filas x,
    rs_valor (listar_medicos
                (rs_db (registrar_medico
                          (base_de_medicos [medico 4 "Ana" "Martinez" "Traumatologia" "MN67890"])
                          "Carlos" "Rodriguez" "Cardiologia" "MN12345" None None))
                (Some "Cardiologia")) = Ok filas
    /\ In x filas
    /\ hd_error x = Some (VInt 5).
Proof.
  destruct (registrar_medico_listado
              (base_de_medicos [medico 4 "Ana" "Martinez" "Traumatologia" "MN67890"])
              _ "Carlos" "Rodriguez" "Cardiologia" "MN12345" None None 5
              (Some "Cardiologia") eq_refl eq_refl eq_refl (or_intror eq_refl))
    as [filas [x [Hv [Hin [Hhd _]]]]].
  exists filas, x. repeat split; assumption.
Defined.

(** ** More on creating appointments *)

Lemma tiene_columnas_mismas (t t' : tabla) (cs : list string) :
  tb_clave t' = tb_clave t ->
  tb_columnas t' = tb_columnas t ->
  tiene_columnas t' cs = tiene_columnas t cs.
Proof.
  intros Hk Hc. unfold tiene_columnas, tiene_columna, es_clave. now rewrite Hk, Hc.
Qed.

Section Mas_sobre_crear_turno.

Variable L : biblioteca.

Lemma turno_ocupa_misma_clave (t t' : tabla) (p1 p2 p3 p4 p5 : valor) (f : fila) :
  tb_clave t' = tb_clave t ->
  turno_ocupa L p1 p2 p3 p4 p5 t' f = turno_ocupa L p1 p2 p3 p4 p5 t f.
Proof.
  intro H. unfold turno_ocupa. now rewrite !(fun c => leer_misma_clave t t' c f H).
Qed.

Lemma crear_turno_insertado (db : base) (paciente_id medico_id : Z) (fecha_hora : string)
      (duracion : Z) (motivo_consulta : option string) (id : Z) :
  devuelto (crear_turno L db paciente_id medico_id fecha_hora duracion motivo_consulta)
  = Ok (Some id) ->
  exists t,
    turnos db = Some t
    /\ snd (verificar_disponibilidad L db medico_id fecha_hora duracion) = true
    /\ db_final (crear_turno L db paciente_id medico_id fecha_hora duracion motivo_consulta)
       = con_turnos db
           {| tb_clave := tb_clave t;
              tb_columnas := tb_columnas t;
              tb_secuencia := Z.max (tb_secuencia t) id;
              tb_filas :=
                tb_filas t
                ++ [fila_nueva t
                      (combine ["paciente_id"; "medico_id"; "fecha_hora"; "duracion";
                                "motivo_consulta"]
                               [VInt paciente_id; VInt medico_id; VText fecha_hora;
                                VInt duracion; de_opcional motivo_consulta]) id] |}
    /\ tiene_columnas t ["paciente_id"; "medico_id"; "fecha_hora"; "duracion";
                         "motivo_consulta"] = true
    /\ elegir_rowid t
         (combine ["paciente_id"; "medico_id"; "fecha_hora"; "duracion"; "motivo_consulta"]
                  [VInt paciente_id; VInt medico_id; VText fecha_hora; VInt duracion;
                   de_opcional motivo_consulta]) = Some id.
Proof.
  unfold crear_turno.
  destruct (verificar_disponibilidad L db medico_id fecha_hora duracion)
    as [avisos disponible] eqn:Ev.
  destruct disponible; simpl negb; cbv iota; [|discriminate].
  match goal with
  | |- context [sql_insert ?o ?c ?v] => destruct (sql_insert o c v) as [[t' id']|e] eqn:Ei
  end.
  - simpl. intro H. inversion H; subst id'. clear H.
    apply sql_insert_ok in Ei. destruct Ei as [t [Ht [Ht' [Hc He]]]].
    exists t. subst t'. repeat split; assumption.
  - destruct (es_sqlite_error e); discriminate.
Qed.

(** X8.  A successful [crear_turno] on a table keyed by [id] leaves the
    patients, the physicians and every appointment already stored as they
    were, and adds one row at the end: it holds the patient, physician,
    start text, duration and reason given and, in [estado], the default
    the table declares; its identifier is the one returned and is greater
    than every identifier in the table, so identifiers that were distinct
    stay distinct. *)
Theorem crear_turno_agrega :
  forall (db : base) (t : tabla) (paciente_id medico_id : Z) (fecha_hora : string)
         (duracion : Z) (motivo_consulta : option string) (id : Z),
    turnos db = Some t ->
    es_clave t "id" = true ->
    devuelto (crear_turno L db paciente_id medico_id fecha_hora duracion motivo_consulta)
    = Ok (Some id) ->
    exists t' f,
      db_final (crear_turno L db paciente_id medico_id fecha_hora duracion motivo_consulta)
      = con_turnos db t'
      /\ tb_clave t' = tb_clave t
      /\ tb_columnas t' = tb_columnas t
      /\ tb_filas t' = tb_filas t ++ [f]
      /\ rowid f = id
      /\ (forall g, In g (tb_filas t) -> rowid g < id)
      /\ (NoDup (map rowid (tb_filas t)) -> NoDup (map rowid (tb_filas t')))
      /\ leer t' "paciente_id" f = VInt paciente_id
      /\ leer t' "medico_id" f = VInt medico_id
      /\ leer t' "fecha_hora" f = VText fecha_hora
      /\ leer t' "duracion" f = VInt duracion
      /\ leer t' "motivo_consulta" f = de_opcional motivo_consulta
      /\ leer t' "estado" f = estado_inicial t.
Proof.
  intros db t paciente_id medico_id fecha_hora duracion motivo_consulta id Ht Hk Hv.
  destruct (crear_turno_insertado _ _ _ _ _ _ _ Hv) as [t0 [Ht0 [_ [Hdb [Hc He]]]]].
  rewrite Ht in Ht0. inversion Ht0; subst t0. clear Ht0.
  destruct ((fun Hd => elegir_rowid_automatico t _ "id" id Hk Hd He) eq_refl)
    as [Hseq Hlt].
  eexists. eexists. split; [exact Hdb|]. simpl.
  assert (Hcols : forall c, In c ["paciente_id"; "medico_id"; "fecha_hora"; "duracion";
                                  "motivo_consulta"] -> tiene_columna t c = true).
  { unfold tiene_columnas in Hc. rewrite forallb_forall in Hc. exact Hc. }
  assert (Hleer : forall t' c v,
             tb_clave t' = tb_clave t ->
             asociado c (combine ["paciente_id"; "medico_id"; "fecha_hora"; "duracion";
                                  "motivo_consulta"]
                                 [VInt paciente_id; VInt medico_id; VText fecha_hora;
                                  VInt duracion; de_opcional motivo_consulta]) = Some v ->
             c <> "id" ->
             leer t' c (fila_nueva t
                          (combine ["paciente_id"; "medico_id"; "fecha_hora"; "duracion";
                                    "motivo_consulta"]
                                   [VInt paciente_id; VInt medico_id; VText fecha_hora;
                                    VInt duracion; de_opcional motivo_consulta]) id) = v).
  { intros t' c v Hk' Hd Hne. rewrite (leer_misma_clave t) by exact Hk'.
    apply leer_insertado; [exact Hd | |].
    - apply (Hcols c). apply (asociado_combine_en _ _ _ _ Hd).
    - intro Hx. rewrite (es_clave_unica t "id" c Hk Hne) in Hx. discriminate. }
  repeat split; try assumption.
  - intro Hnd. apply NoDup_rowid_al_final; assumption.
  - apply Hleer; (reflexivity || discriminate).
  - apply Hleer; (reflexivity || discriminate).
  - apply Hleer; (reflexivity || discriminate).
  - apply Hleer; (reflexivity || discriminate).
  - apply Hleer; (reflexivity || discriminate).
  - rewrite (leer_misma_clave t) by reflexivity.
    apply leer_no_insertado; [reflexivity|].
    apply (es_clave_unica t "id"); [exact Hk | discriminate].
Qed.

Lemma filter_crece {A : Type} (p : A -> bool) (l l' : list A) :
  (Z.of_nat (List.length (filter p l)) =? 0) = false ->
  (Z.of_nat (List.length (filter p (l ++ l'))) =? 0) = false.
Proof.
  rewrite !longitud_filter_cero, forallb_app. intro H. now rewrite H.
Qed.

(** Adding rows to the table never turns a refusal into an acceptance. *)
Lemma verificar_disponibilidad_con_mas_filas (db : base) (t t' : tabla) (l : list fila)
      (medico_id : Z) (fecha_hora : string) (duracion : Z) :
  turnos db = Some t ->
  tb_clave t' = tb_clave t ->
  tb_columnas t' = tb_columnas t ->
  tb_filas t' = tb_filas t ++ l ->
  snd (verificar_disponibilidad L db medico_id fecha_hora duracion) = false ->
  snd (verificar_disponibilidad L (con_turnos db t') medico_id fecha_hora duracion) = false.
Proof.
  intros Ht Hk Hc Hf. unfold verificar_disponibilidad.
  destruct (strptime L fecha_hora) as [dt|]; [|reflexivity].
  destruct (sumar_minutos dt duracion) as [dt_fin|e]; [|reflexivity].
  unfold contar_ocupados, sql_count. rewrite Ht. cbn [turnos con_turnos].
  rewrite (tiene_columnas_mismas t t') by assumption.
  destruct (tiene_columnas t _); cbn [negb]; [|reflexivity].
  destruct (forallb cabe_en_sqlite _); cbn [negb]; [|reflexivity].
  cbn [snd]. rewrite Hf. intro H.
  erewrite filter_ext; [apply filter_crece; exact H|].
  intro f. now rewrite (turno_ocupa_misma_clave t t').
Qed.

(** X9.  A request the availability check refuses stays refused after
    any call of [crear_turno], for any patient, physician, start and
    duration: creating appointments never frees a slot. *)
Theorem crear_turno_no_libera :
  forall (db : base) (medico_id : Z) (fecha_hora : string) (duracion : Z)
         (paciente_id' medico_id' : Z) (fecha_hora' : string) (duracion' : Z)
         (motivo_consulta' : option string),
    snd (verificar_disponibilidad L db medico_id fecha_hora duracion) = false ->
    snd (verificar_disponibilidad L
           (db_final (crear_turno L db paciente_id' medico_id' fecha_hora' duracion'
                                  motivo_consulta'))
           medico_id fecha_hora duracion) = false.
Proof.
  intros db medico_id fecha_hora duracion paciente_id' medico_id' fecha_hora' duracion'
         motivo_consulta' Hno.
  destruct (devuelto (crear_turno L db paciente_id' medico_id' fecha_hora' duracion'
                                  motivo_consulta')) as [[id|]|e] eqn:Ed.
  - destruct (crear_turno_insertado _ _ _ _ _ _ _ Ed) as [t [Ht [_ [Hdb _]]]].
    rewrite Hdb.
    eapply (verificar_disponibilidad_con_mas_filas db t);
      [exact Ht | reflexivity | reflexivity | reflexivity | exact Hno].
  - rewrite crear_turno_sin_exito; [exact Hno|]. intro id. rewrite Ed. discriminate.
  - rewrite crear_turno_sin_exito; [exact Hno|]. intro id. rewrite Ed. discriminate.
Qed.

End Mas_sobre_crear_turno.

Lemma crear_turno_agrega_ejemplo :
  exists t' f,
    db_final (crear_turno calendario
                (base_con [turno 7 1 1 "2025-11-20 10:00" 30 "pendiente"])
                1 1 "2025-11-20 10:30" 45 (Some "Dolor de rodilla"))
    = con_turnos (base_con [turno 7 1 1 "2025-11-20 10:00" 30 "pendiente"]) t'
    /\ tb_filas t' = [turno 7 1 1 "2025-11-20 10:00" 30 "pendiente"; f]
    /\ rowid f = 8
    /\ leer t' "estado" f = VText "pendiente".
Proof.
  destruct (crear_turno_agrega calendario
              (base_con [turno 7 1 1 "2025-11-20 10:00" 30 "pendiente"]) _
              1 1 "2025-11-20 10:30" 45 (Some "Dolor de rodilla") 8 eq_refl eq_refl)
    as [t' [f [Hdb [_ [_ [Hf [Hid [_ [_ [_ [_ [_ [_ [_ He]]]]]]]]]]]]]].
  - vm_compute. reflexivity.
  - exists t', f. repeat split; assumption.
Defined.

Lemma crear_turno_no_libera_ejemplo :
  snd (verificar_disponibilidad calendario
         (db_final (crear_turno calendario
                      (base_con [turno 1 1 1 "2025-11-20 10:00" 30 "pendiente"])
                      2 1 "2025-11-20 11:00" 30 None))
         1 "2025-11-20 10:15" 30) = false.
Proof.
  apply (crear_turno_no_libera calendario
           (base_con [turno 1 1 1 "2025-11-20 10:00" 30 "pendiente"])
           1 "2025-11-20 10:15" 30 2 1 "2025-11-20 11:00" 30 None).
  vm_compute. reflexivity.
Defined.

Section Horarios.

Variable L : biblioteca.

Lemma verificar_disponibilidad_sin_avisos (db : base) (medico_id : Z)
      (fecha_hora : string) (duracion : Z) :
  snd (verificar_disponibilidad L db medico_id fecha_hora duracion) = true ->
  fst (verificar_disponibilidad L db medico_id fecha_hora duracion) = [].
Proof.
  unfold verificar_disponibilidad.
  destruct (strptime L fecha_hora) as [dt|]; [|discriminate].
  destruct (sumar_minutos dt duracion) as [fin|e]; [|discriminate].
  destruct (contar_ocupados L db medico_id dt fin) as [n|e]; [reflexivity | discriminate].
Qed.

(** X10.  An appointment just created occupies its slot, where the two
    libraries agree.  On a table keyed by [id] whose new rows start as
    [pendiente], after [crear_turno] has succeeded for a physician, a
    positive duration and a start text that SQLite reads as the instant
    Python reads in it, the start and the end being instants SQLite
    reads back from the text Python writes for them, the availability
    check refuses the same physician, start and duration, and a second
    [crear_turno] for them returns None. *)
Theorem crear_turno_ocupa_su_horario :
  forall (db : base) (t : tabla) (paciente_id medico_id : Z) (fecha_hora : string)
         (duracion : Z) (motivo_consulta : option string) (id dt : Z),
    turnos db = Some t ->
    es_clave t "id" = true ->
    estado_inicial t = VText "pendiente" ->
    0 < duracion ->
    strptime L fecha_hora = Some dt ->
    sql_datetime L (VText fecha_hora) = Some dt ->
    releido L dt ->
    releido L (dt + duracion) ->
    devuelto (crear_turno L db paciente_id medico_id fecha_hora duracion motivo_consulta)
    = Ok (Some id) ->
    snd (verificar_disponibilidad L
           (db_final (crear_turno L db paciente_id medico_id fecha_hora duracion
                                  motivo_consulta))
           medico_id fecha_hora duracion) = false
    /\ forall (paciente_id' : Z) (motivo_consulta' : option string),
        devuelto (crear_turno L
                    (db_final (crear_turno L db paciente_id medico_id fecha_hora duracion
                                           motivo_consulta))
                    paciente_id' medico_id fecha_hora duracion motivo_consulta')
        = Ok None.
Proof.
  intros db t paciente_id medico_id fecha_hora duracion motivo_consulta id dt
         Ht Hk Hest Hpos Hp Hsql Hr1 Hr2 Hv.
  assert (Hno : snd (verificar_disponibilidad L
                       (db_final (crear_turno L db paciente_id medico_id fecha_hora
                                              duracion motivo_consulta))
                       medico_id fecha_hora duracion) = false).
  { destruct (crear_turno_insertado L _ _ _ _ _ _ _ Hv) as [t0 [Ht0 [Hdisp [Hdb [Hc He]]]]].
    rewrite Ht in Ht0. inversion Ht0; subst t0. clear Ht0.
    destruct (verificar_disponibilidad_cierta L _ _ _ _ Hdisp)
      as [t1 [dt1 [Ht1 [Hcols [Hcabe [Hp1 [Hrango _]]]]]]].
    rewrite Ht in Ht1. inversion Ht1; subst t1. clear Ht1.
    rewrite Hp in Hp1. inversion Hp1; subst dt1. clear Hp1.
    rewrite Hdb. clear Hdb.
    set (dados := combine ["paciente_id"; "medico_id"; "fecha_hora"; "duracion";
                           "motivo_consulta"]
                          [VInt paciente_id; VInt medico_id; VText fecha_hora;
                           VInt duracion; de_opcional motivo_consulta]) in *.
    set (f := fila_nueva t dados id).
    set (t' := {| tb_clave := tb_clave t; tb_columnas := tb_columnas t;
                  tb_secuencia := Z.max (tb_secuencia t) id;
                  tb_filas := tb_filas t ++ [f] |}).
    assert (Hleer : forall c v, asociado c dados = Some v -> c <> "id" ->
                                leer t' c f = v).
    { intros c v Hd Hne. rewrite (leer_misma_clave t) by reflexivity.
      apply leer_insertado; [exact Hd | |].
      - unfold tiene_columnas in Hc. rewrite forallb_forall in Hc. apply Hc.
        apply (asociado_combine_en _ _ _ _ Hd).
      - intro Hx. rewrite (es_clave_unica t "id" c Hk Hne) in Hx. discriminate. }
    assert (Hactivo : es_activo_de t' medico_id f = true).
    { unfold es_activo_de.
      rewrite (Hleer "medico_id" (VInt medico_id)) by (reflexivity || discriminate).
      rewrite (leer_misma_clave t t' "estado") by reflexivity.
      unfold f. rewrite leer_no_insertado;
        [| reflexivity | apply (es_clave_unica t "id"); [exact Hk | discriminate]].
      fold (estado_inicial t). rewrite Hest. simpl. now rewrite Z.eqb_refl. }
    assert (Hocupa : cumple (turno_ocupa L (VInt medico_id)
                               (VText (strftime L (dt + duracion)))
                               (VText (strftime L dt)) (VText (strftime L dt))
                               (VText (strftime L (dt + duracion))) t' f) = true).
    { rewrite (turno_ocupa_legible L t' medico_id f fecha_hora dt duracion dt
                                   (dt + duracion)); try assumption.
      - unfold solapan. assert (H : (dt <? dt + duracion) = true) by (apply Z.ltb_lt; lia).
        now rewrite H.
      - apply Hleer; (reflexivity || discriminate).
      - apply Hleer; (reflexivity || discriminate).
      - lia. }
    unfold verificar_disponibilidad, sumar_minutos. rewrite Hp.
    assert (Hr : ((0 <=? dt + duracion) && (dt + duracion <=? max_instante)) = true).
    { apply andb_true_iff. split; apply Z.leb_le; lia. }
    rewrite Hr. unfold contar_ocupados, sql_count. cbn [turnos con_turnos].
    rewrite (tiene_columnas_mismas t t') by reflexivity. rewrite Hcols.
    cbn [forallb negb]. rewrite Hcabe. cbn [cabe_en_sqlite andb negb snd].
    rewrite longitud_filter_cero. simpl tb_filas. rewrite forallb_app. simpl forallb.
    rewrite Hocupa. simpl. now rewrite andb_false_r. }
  split; [exact Hno|].
  intros paciente_id' motivo_consulta'. unfold crear_turno.
  destruct (verificar_disponibilidad L _ medico_id fecha_hora duracion)
    as [avisos disponible].
  simpl in Hno. subst disponible. reflexivity.
Qed.

Lemma filter_de_filter {A : Type} (p q : A -> bool) (l : list A) :
  (forall x, q x = false -> p x = false) ->
  filter p (filter q l) = filter p l.
Proof.
  intro H. induction l as [|x l IH]; simpl; [reflexivity|].
  destruct (q x) eqn:Eq; simpl.
  - now rewrite IH.
  - now rewrite (H x Eq).
Qed.

(** The count of the availability query looks at no row but the pending
    and confirmed appointments of the physician. *)
Lemma contar_ocupados_solo_activos (db : base) (t : tabla) (l : list fila)
      (medico_id dt dt_fin : Z) :
  contar_ocupados L (con_turnos db (con_filas t l)) medico_id dt dt_fin
  = contar_ocupados L
      (con_turnos db (con_filas t (filter (es_activo_de t medico_id) l)))
      medico_id dt dt_fin.
Proof.
  unfold contar_ocupados, sql_count. cbn [turnos con_turnos].
  rewrite !(tiene_columnas_mismas t (con_filas t _)) by reflexivity.
  destruct (tiene_columnas t _); cbn [negb]; [|reflexivity].
  destruct (forallb cabe_en_sqlite _); cbn [negb]; [|reflexivity].
  do 3 f_equal. cbn [tb_filas con_filas].
  set (p := fun f => cumple (turno_ocupa L (VInt medico_id) (VText (strftime L dt_fin))
                               (VText (strftime L dt)) (VText (strftime L dt))
                               (VText (strftime L dt_fin)) t f)).
  transitivity (filter p l).
  - apply filter_ext. intro f. unfold p.
    now rewrite (turno_ocupa_misma_clave L t (con_filas t l)).
  - transitivity (filter p (filter (es_activo_de t medico_id) l)).
    + symmetry. apply filter_de_filter. intros f Hf. unfold p.
      now apply turno_ocupa_inactivo.
    + apply filter_ext. intro f. unfold p.
      now rewrite (turno_ocupa_misma_clave L t (con_filas t (filter _ l))).
Qed.

(** X11.  The answer of [verificar_disponibilidad] depends on no
    appointment but the pending and confirmed ones of the physician
    asked about: on a table and on the same table with every other row
    taken out (cancelled and completed appointments, appointments of
    other physicians) it prints and answers the same. *)
Theorem verificar_disponibilidad_solo_activos :
  forall (db : base) (t : tabla) (l : list fila) (medico_id : Z) (fecha_hora : string)
         (duracion : Z),
    verificar_disponibilidad L (con_turnos db (con_filas t l)) medico_id fecha_hora duracion
    = verificar_disponibilidad L
        (con_turnos db (con_filas t (filter (es_activo_de t medico_id) l)))
        medico_id fecha_hora duracion.
Proof.
  intros. unfold verificar_disponibilidad.
  destruct (strptime L fecha_hora) as [dt|]; [|reflexivity].
  destruct (sumar_minutos dt duracion) as [dt_fin|e]; [|reflexivity].
  now rewrite contar_ocupados_solo_activos.
Qed.

(** X13.  A start that parses with a duration that puts the end before
    the year 1 or after the year 9999 is refused: the availability check
    reports the overflow and answers False, and [crear_turno] returns
    None and leaves the database as it was. *)
Theorem crear_turno_fuera_del_calendario :
  forall (db : base) (paciente_id medico_id : Z) (fecha_hora : string)
         (duracion : Z) (motivo_consulta : option string) (dt : Z),
    strptime L fecha_hora = Some dt ->
    dt + duracion < 0 \/ max_instante < dt + duracion ->
    crear_turno L db paciente_id medico_id fecha_hora duracion motivo_consulta
    = mk_salida db [MsgErrorVerificar OverflowError; MsgNoDisponible] (Ok None).
Proof.
  intros db paciente_id medico_id fecha_hora duracion motivo_consulta dt Hp Hfuera.
  unfold crear_turno, verificar_disponibilidad, sumar_minutos. rewrite Hp.
  assert (Hr : ((0 <=? dt + duracion) && (dt + duracion <=? max_instante)) = false).
  { apply andb_false_iff. destruct Hfuera; [left; apply Z.leb_gt | right; apply Z.leb_gt];
      assumption. }
  now rewrite Hr.
Qed.

(** X14.  [crear_turno] catches the errors of SQLite only.  When the slot
    is free and the table has the columns the INSERT names, a patient
    identifier that does not fit in 64 bits makes the call end with an
    OverflowError that reaches the caller; nothing is printed and the
    database is left as it was. *)
Theorem crear_turno_desborda :
  forall (db : base) (t : tabla) (paciente_id medico_id : Z) (fecha_hora : string)
         (duracion : Z) (motivo_consulta : option string),
    turnos db = Some t ->
    tiene_columnas t ["paciente_id"; "medico_id"; "fecha_hora"; "duracion";
                      "motivo_consulta"] = true ->
    snd (verificar_disponibilidad L db medico_id fecha_hora duracion) = true ->
    paciente_id < - 2 ^ 63 \/ 2 ^ 63 <= paciente_id ->
    crear_turno L db paciente_id medico_id fecha_hora duracion motivo_consulta
    = mk_salida db [] (Raise OverflowError).
Proof.
  intros db t paciente_id medico_id fecha_hora duracion motivo_consulta Ht Hc Hv Hgrande.
  pose proof (verificar_disponibilidad_sin_avisos _ _ _ _ Hv) as Ha.
  unfold crear_turno.
  destruct (verificar_disponibilidad L db medico_id fecha_hora duracion)
    as [avisos disponible].
  simpl in Hv, Ha. subst avisos disponible. simpl negb. cbv iota.
  unfold sql_insert. rewrite Ht, Hc. cbn [negb List.length Nat.eqb forallb].
  assert (Hno : cabe_en_sqlite (VInt paciente_id) = false).
  { unfold cabe_en_sqlite. apply andb_false_iff.
    destruct Hgrande; [left; apply Z.leb_gt | right; apply Z.ltb_ge]; assumption. }
  rewrite Hno. reflexivity.
Qed.

End Horarios.

Lemma crear_turno_ocupa_su_horario_ejemplo :
  snd (verificar_disponibilidad calendario
         (db_final (crear_turno calendario base_ejemplo 1 1 "2025-11-20 10:00" 30 None))
         1 "2025-11-20 10:00" 30) = false.
Proof.
  refine (proj1 (crear_turno_ocupa_su_horario calendario base_ejemplo _
                   1 1 "2025-11-20 10:00" 30 None 1 1064987160
                   eq_refl eq_refl eq_refl _ _ _ _ _ _)).
  - reflexivity.
  - vm_compute. reflexivity.
  - vm_compute. reflexivity.
  - vm_compute. reflexivity.
  - vm_compute. reflexivity.
  - vm_compute. reflexivity.
Defined.

(** Before the year 1000 the appointment just created does not occupy
    its slot: SQLite reads nothing in the bounds Python writes. *)
Example crear_turno_anio_999 :
  devuelto (crear_turno calendario base_ejemplo 1 1 "0999-06-01 10:00" 30 None)
  = Ok (Some 1)
  /\ snd (verificar_disponibilidad calendario
            (db_final (crear_turno calendario base_ejemplo 1 1 "0999-06-01 10:00" 30
                                   None))
            1 "0999-06-01 10:00" 30) = true
  /\ sql_datetime calendario (VText (strftime calendario 525115320)) = None.
Proof. repeat split; vm_compute; reflexivity. Qed.

Lemma crear_turno_fuera_del_calendario_ejemplo :
  crear_turno calendario base_ejemplo 1 1 "9999-12-31 23:00" 120 None
  = mk_salida base_ejemplo [MsgErrorVerificar OverflowError; MsgNoDisponible] (Ok None).
Proof.
  apply (crear_turno_fuera_del_calendario calendario base_ejemplo 1 1
           "9999-12-31 23:00" 120 None 5258964900).
  - vm_compute. reflexivity.
  - right. vm_compute. reflexivity.
Defined.

Lemma crear_turno_desborda_ejemplo :
  crear_turno calendario base_ejemplo (2 ^ 63) 1 "2025-11-20 10:00" 30 None
  = mk_salida base_ejemplo [] (Raise OverflowError).
Proof.
  apply (crear_turno_desborda calendario base_ejemplo _ (2 ^ 63) 1
           "2025-11-20 10:00" 30 None eq_refl eq_refl).
  - vm_compute. reflexivity.
  - right. vm_compute. discriminate.
Defined.

(** ** More on state changes *)



Lemma map_sin_cambio {A : Type} (g : A -> A) (l : list A) :
  (forall x, In x l -> g x = x) -> map g l = l.
Proof.
  induction l as [|x l IH]; simpl; intro H; [reflexivity|].
  rewrite (H x) by now left. f_equal. apply IH. intros y Hy. apply H. now right.
Qed.

Lemma existsb_igual {A : Type} (f g : A -> bool) (l : list A) :
  (forall x, f x = g x) -> existsb f l = existsb g l.
Proof.
  intro H. induction l as [|x l IH]; simpl; [reflexivity|]. now rewrite H, IH.
Qed.

(** What [actualizar_estado_turno] does on a table it can write to. *)
Lemma actualizar_estado_turno_hecho (db : base) (t : tabla) (turno_id : Z)
      (nuevo_estado : string) (observaciones : option string) :
  In nuevo_estado estados_validos ->
  turnos db = Some t ->
  tabla_actualizable t = true ->
  cabe_en_sqlite (VInt turno_id) = true ->
  actualizar_estado_turno db turno_id nuevo_estado observaciones
  = if existsb (fun f => rowid f =? turno_id) (tb_filas t)
    then mk_salida
           (con_turnos db
              (con_filas t
                 (map (fun f => if rowid f =? turno_id
                                then asignar (asignaciones nuevo_estado observaciones) f
                                else f)
                      (tb_filas t))))
           [MsgEstadoActualizado nuevo_estado] (Ok true)
    else mk_salida
           (con_turnos db
              (con_filas t
                 (map (fun f => if rowid f =? turno_id
                                then asignar (asignaciones nuevo_estado observaciones) f
                                else f)
                      (tb_filas t))))
           [MsgTurnoNoEncontrado] (Ok false).
Proof.
  intros Hin Ht Hact Hid. apply en_estados_validos in Hin.
  assert (Hk : es_clave t "id" = true).
  { unfold tabla_actualizable in Hact.
    apply andb_true_iff in Hact. destruct Hact as [Hact _].
    apply andb_true_iff in Hact. tauto. }
  unfold actualizar_estado_turno, asignaciones. rewrite Hin, Ht. simpl negb. cbv iota.
  destruct (verdadero observaciones) eqn:Ev.
  - destruct observaciones as [w|]; [|discriminate]. simpl de_opcional.
    rewrite tabla_actualizable_estado_obs by assumption.
    rewrite longitud_filter_positiva.
    rewrite (existsb_igual _ (fun f => rowid f =? turno_id))
      by (intro f; now apply con_id_rowid).
    unfold con_filas.
    rewrite (map_ext _ (fun f => if rowid f =? turno_id
                                 then asignar [("estado", VText nuevo_estado);
                                               ("observaciones", VText w)] f
                                 else f))
      by (intro f; now rewrite con_id_rowid).
    reflexivity.
  - rewrite tabla_actualizable_estado by assumption.
    rewrite longitud_filter_positiva.
    rewrite (existsb_igual _ (fun f => rowid f =? turno_id))
      by (intro f; now apply con_id_rowid).
    unfold con_filas.
    rewrite (map_ext _ (fun f => if rowid f =? turno_id
                                 then asignar [("estado", VText nuevo_estado)] f
                                 else f))
      by (intro f; now rewrite con_id_rowid).
    reflexivity.
Qed.


Lemma leer_asignar_dos_otro (t : tabla) (v w : valor) (f : fila) (c : string) :
  c <> "estado" -> c <> "observaciones" ->
  leer t c (asignar [("estado", v); ("observaciones", w)] f) = leer t c f.
Proof.
  intros H1 H2. unfold leer, asignar. simpl.
  destruct (es_clave t c); [reflexivity|].
  now rewrite !asociado_poner_otro.
Qed.

Lemma leer_asignar_observaciones (t : tabla) (v w : valor) (f : fila) :
  es_clave t "observaciones" = false ->
  leer t "observaciones" (asignar [("estado", v); ("observaciones", w)] f) = w.
Proof.
  intro Hk. unfold leer, asignar. simpl. rewrite Hk.
  now rewrite asociado_poner_mismo.
Qed.

(** X16.  With a recognised state and observations that are not empty,
    on a table it can write to, [actualizar_estado_turno] for the
    identifier of a stored appointment returns True and writes both the
    state and the observations of that appointment; every other cell of
    it reads as before, every other appointment is the same row as
    before, and the patients and physicians are untouched. *)
Theorem actualizar_estado_turno_con_observaciones :
  forall (db : base) (t : tabla) (turno_id : Z) (nuevo_estado texto : string),
    In nuevo_estado estados_validos ->
    texto <> "" ->
    turnos db = Some t ->
    tabla_actualizable t = true ->
    cabe_en_sqlite (VInt turno_id) = true ->
    (exists f, In f (tb_filas t) /\ rowid f = turno_id) ->
    devuelto (actualizar_estado_turno db turno_id nuevo_estado (Some texto)) = Ok true
    /\ pacientes (db_final (actualizar_estado_turno db turno_id nuevo_estado (Some texto)))
       = pacientes db
    /\ medicos (db_final (actualizar_estado_turno db turno_id nuevo_estado (Some texto)))
       = medicos db
    /\ exists t',
        turnos (db_final (actualizar_estado_turno db turno_id nuevo_estado (Some texto)))
        = Some t'
        /\ tb_clave t' = tb_clave t
        /\ tb_columnas t' = tb_columnas t
        /\ Forall2 (fun f f' =>
                      rowid f' = rowid f
                      /\ (rowid f = turno_id ->
                          leer t' "estado" f' = VText nuevo_estado
                          /\ leer t' "observaciones" f' = VText texto)
                      /\ (forall c, c <> "estado" -> c <> "observaciones" ->
                                    leer t' c f' = leer t c f)
                      /\ (rowid f <> turno_id -> f' = f))
                   (tb_filas t) (tb_filas t').
Proof.
  intros db t turno_id nuevo_estado texto Hin Htexto Ht Hact Hid [f0 [Hf0 Hr0]].
  rewrite (actualizar_estado_turno_hecho db t) by assumption.
  assert (Hex : existsb (fun f => rowid f =? turno_id) (tb_filas t) = true).
  { apply existsb_exists. exists f0. split; [exact Hf0 | now apply Z.eqb_eq]. }
  rewrite Hex. cbn [devuelto db_final pacientes medicos turnos con_turnos].
  repeat split. eexists. split; [reflexivity|]. cbn [tb_clave tb_columnas tb_filas con_filas].
  repeat split.
  assert (Hk : es_clave t "id" = true).
  { unfold tabla_actualizable in Hact.
    apply andb_true_iff in Hact. destruct Hact as [Hact _].
    apply andb_true_iff in Hact. tauto. }
  assert (Hv : asignaciones nuevo_estado (Some texto)
               = [("estado", VText nuevo_estado); ("observaciones", VText texto)]).
  { unfold asignaciones. simpl. apply String.eqb_neq in Htexto. now rewrite Htexto. }
  rewrite Hv. apply Forall2_map_derecha. intros f Hf.
  destruct (rowid f =? turno_id) eqn:E.
  - repeat split.
    + rewrite (leer_misma_clave t) by reflexivity. apply leer_asignar_estado_obs.
      apply (es_clave_unica t "id"); [exact Hk | discriminate].
    + rewrite (leer_misma_clave t) by reflexivity. apply leer_asignar_observaciones.
      apply (es_clave_unica t "id"); [exact Hk | discriminate].
    + intros c H1 H2. rewrite (leer_misma_clave t) by reflexivity.
      now apply leer_asignar_dos_otro.
    + intro Hne. apply Z.eqb_eq in E. contradiction.
  - apply Z.eqb_neq in E. repeat split; contradiction.
Qed.

Section Cancelar.

Variable L : biblioteca.

(** X12.  Cancelling or completing an appointment frees its slot.  On a
    table it can write to, after [actualizar_estado_turno] has set the
    appointment with the given identifier to [cancelado] or [completado],
    [verificar_disponibilidad] prints and answers, for every physician,
    start and duration, what it would on the table without that
    appointment. *)
Theorem cancelar_libera_el_horario :
  forall (db : base) (t : tabla) (l1 l2 : list fila) (f : fila) (nuevo_estado : string)
         (observaciones : option string) (medico_id : Z) (fecha_hora : string)
         (duracion : Z),
    turnos db = Some t ->
    tabla_actualizable t = true ->
    cabe_en_sqlite (VInt (rowid f)) = true ->
    tb_filas t = l1 ++ f :: l2 ->
    (forall g, In g (l1 ++ l2) -> rowid g <> rowid f) ->
    nuevo_estado = "cancelado" \/ nuevo_estado = "completado" ->
    verificar_disponibilidad L
      (db_final (actualizar_estado_turno db (rowid f) nuevo_estado observaciones))
      medico_id fecha_hora duracion
    = verificar_disponibilidad L (con_turnos db (con_filas t (l1 ++ l2)))
                               medico_id fecha_hora duracion.
Proof.
  intros db t l1 l2 f nuevo_estado observaciones medico_id fecha_hora duracion
         Ht Hact Hid Hf Hotros Hnuevo.
  assert (Hin : In nuevo_estado estados_validos)
    by (destruct Hnuevo; subst; simpl; tauto).
  assert (Hk : es_clave t "id" = true).
  { unfold tabla_actualizable in Hact.
    apply andb_true_iff in Hact. destruct Hact as [Hact _].
    apply andb_true_iff in Hact. tauto. }
  assert (He : es_clave t "estado" = false)
    by (apply (es_clave_unica t "id"); [exact Hk | discriminate]).
  rewrite (actualizar_estado_turno_hecho db t) by assumption.
  assert (Hdb : forall (a b : list mensaje) (x y : res bool) (c : bool) (d : base),
             db_final (if c then mk_salida d a x else mk_salida d b y) = d)
    by (intros; now destruct c).
  rewrite Hdb. clear Hdb.
  set (g := fun h : fila => if rowid h =? rowid f
                            then asignar (asignaciones nuevo_estado observaciones) h
                            else h).
  assert (Hmismo : forall l, (forall h, In h l -> rowid h <> rowid f) -> map g l = l).
  { intros l Hl. apply map_sin_cambio. intros h Hh. unfold g.
    destruct (rowid h =? rowid f) eqn:E; [|reflexivity].
    apply Z.eqb_eq in E. exfalso. now apply (Hl h Hh). }
  assert (Hinactiva : es_activo_de t medico_id (g f) = false).
  { unfold g. rewrite Z.eqb_refl. unfold es_activo_de.
    assert (Hest : leer t "estado" (asignar (asignaciones nuevo_estado observaciones) f)
                   = VText nuevo_estado).
    { unfold asignaciones. destruct (verdadero observaciones).
      - now apply leer_asignar_estado_obs.
      - now apply leer_asignar_estado. }
    rewrite Hest. destruct Hnuevo; subst nuevo_estado; simpl; now rewrite andb_false_r. }
  assert (Hfilas : filter (es_activo_de t medico_id) (map g (tb_filas t))
                   = filter (es_activo_de t medico_id) (l1 ++ l2)).
  { rewrite Hf, map_app. simpl map. rewrite !filter_app. simpl filter.
    rewrite Hinactiva.
    rewrite (Hmismo l1) by (intros h Hh; apply Hotros, in_or_app; now left).
    rewrite (Hmismo l2) by (intros h Hh; apply Hotros, in_or_app; now right).
    reflexivity. }
  unfold verificar_disponibilidad.
  destruct (strptime L fecha_hora) as [dt|]; [|reflexivity].
  destruct (sumar_minutos dt duracion) as [dt_fin|e]; [|reflexivity].
  rewrite (contar_ocupados_solo_activos L db t (map g (tb_filas t))).
  rewrite (contar_ocupados_solo_activos L db t (l1 ++ l2)).
  now rewrite Hfilas.
Qed.

End Cancelar.


Lemma actualizar_estado_turno_con_observaciones_ejemplo :
  devuelto (actualizar_estado_turno
              (base_con [turno 1 1 1 "2025-11-20 10:00" 30 "pendiente"])
              1 "confirmado" (Some "Paciente confirmo por telefono")) = Ok true.
Proof.
  refine (proj1 (actualizar_estado_turno_con_observaciones
                   (base_con [turno 1 1 1 "2025-11-20 10:00" 30 "pendiente"]) _
                   1 "confirmado" "Paciente confirmo por telefono" _ _ eq_refl _ _ _)).
  - simpl. tauto.
  - discriminate.
  - reflexivity.
  - reflexivity.
  - eexists. split; [left; reflexivity | reflexivity].
Defined.

Lemma cancelar_libera_el_horario_ejemplo :
  snd (verificar_disponibilidad calendario
         (db_final (actualizar_estado_turno
                      (base_con [turno 1 1 1 "2025-11-20 10:00" 30 "pendiente";
                                 turno 2 1 1 "2025-11-20 11:00" 30 "confirmado"])
                      1 "cancelado" None))
         1 "2025-11-20 10:00" 30) = true.
Proof.
  assert (Hotros : forall g,
             In g ([] ++ [turno 2 1 1 "2025-11-20 11:00" 30 "confirmado"]) ->
             rowid g <> rowid (turno 1 1 1 "2025-11-20 10:00" 30 "pendiente")).
  { intros g [Hg|[]]. subst g. discriminate. }
  pose proof (cancelar_libera_el_horario calendario
                (base_con [turno 1 1 1 "2025-11-20 10:00" 30 "pendiente";
                           turno 2 1 1 "2025-11-20 11:00" 30 "confirmado"])
                _ [] [turno 2 1 1 "2025-11-20 11:00" 30 "confirmado"]
                (turno 1 1 1 "2025-11-20 10:00" 30 "pendiente")
                "cancelado" None 1 "2025-11-20 10:00" 30
                eq_refl eq_refl eq_refl eq_refl Hotros (or_introl eq_refl)) as H.
  apply (f_equal snd) in H. simpl rowid in H.
  etransitivity; [exact H|]. vm_compute. reflexivity.
Defined.

(** ** A database without tables *)

(** X17.  [crear_tablas] creates no table, so on a new database file the
    three tables are still missing when the constructor ends; and on a
    database without tables every method fails in its own quiet way and
    leaves the database as it was: the registrations and the lookup
    return None, the listings return the empty list, the availability
    check answers False, [crear_turno] returns None and
    [actualizar_estado_turno] returns False. *)
Theorem sin_tablas_nada_funciona :
  forall (L : biblioteca) (db : base),
    pacientes db = None ->
    medicos db = None ->
    turnos db = None ->
    db_final (crear_tablas db) = db
    /\ (forall nombre apellido especialidad matricula telefono email,
           registrar_medico db nombre apellido especialidad matricula telefono email
           = mk_resultado db [AvisoErrorRegistrarMedico OperationalError] (Ok None))
    /\ (forall dni,
           buscar_paciente_por_dni db dni
           = mk_resultado db [AvisoErrorBuscarPaciente OperationalError] (Ok None))
    /\ listar_pacientes db
       = mk_resultado db [AvisoErrorListarPacientes OperationalError] (Ok [])
    /\ (forall especialidad,
           listar_medicos db especialidad
           = mk_resultado db [AvisoErrorListarMedicos OperationalError] (Ok []))
    /\ (forall medico_id fecha_hora duracion,
           snd (verificar_disponibilidad L db medico_id fecha_hora duracion) = false)
    /\ (forall paciente_id medico_id fecha_hora duracion motivo_consulta,
           devuelto (crear_turno L db paciente_id medico_id fecha_hora duracion
                                 motivo_consulta) = Ok None
           /\ db_final (crear_turno L db paciente_id medico_id fecha_hora duracion
                                    motivo_consulta) = db)
    /\ (forall fecha,
           listar_turnos_por_fecha L db fecha
           = mk_salida db [MsgErrorListarTurnos OperationalError] (Ok []))
    /\ (forall paciente_id,
           listar_turnos_paciente db paciente_id
           = mk_salida db [MsgErrorListarTurnosPaciente OperationalError] (Ok []))
    /\ (forall turno_id nuevo_estado observaciones,
           devuelto (actualizar_estado_turno db turno_id nuevo_estado observaciones)
           = Ok false
           /\ db_final (actualizar_estado_turno db turno_id nuevo_estado observaciones)
              = db).
Proof.
  intros L db Hp Hm Ht.
  assert (Hv : forall medico_id fecha_hora duracion,
             snd (verificar_disponibilidad L db medico_id fecha_hora duracion) = false).
  { intros. unfold verificar_disponibilidad.
    destruct (strptime L fecha_hora) as [dt|]; [|reflexivity].
    destruct (sumar_minutos dt duracion) as [fin|e]; [|reflexivity].
    unfold contar_ocupados, sql_count. now rewrite Ht. }
  split; [reflexivity|].
  split; [intros; unfold registrar_medico; now rewrite Hm|].
  split; [intros; unfold buscar_paciente_por_dni; now rewrite Hp|].
  split; [unfold listar_pacientes; now rewrite Hp|].
  split; [intros; unfold listar_medicos; rewrite Hm;
          now destruct (verdadero especialidad)|].
  split; [exact Hv|].
  split.
  { intros. unfold crear_turno. specialize (Hv medico_id fecha_hora duracion).
    destruct (verificar_disponibilidad L db medico_id fecha_hora duracion)
      as [avisos disponible].
    simpl in Hv. subst disponible. split; reflexivity. }
  split; [intros; unfold listar_turnos_por_fecha, seleccionar_por_fecha; now rewrite Ht|].
  split; [intros; unfold listar_turnos_paciente, seleccionar_paciente; now rewrite Ht|].
  intros. unfold actualizar_estado_turno.
  destruct (existsb (String.eqb nuevo_estado) estados_validos); simpl;
    [|split; reflexivity].
  rewrite Ht. destruct (verdadero observaciones); split; reflexivity.
Qed.

Lemma sin_tablas_nada_funciona_ejemplo :
  crear_turno calendario (db_final (crear_tablas base_nueva)) 1 1 "2025-11-20 10:00" 30 None
  = mk_salida base_nueva [MsgErrorVerificar OperationalError; MsgNoDisponible] (Ok None)
  /\ listar_medicos (db_final (crear_tablas base_nueva)) None
     = mk_resultado base_nueva [AvisoErrorListarMedicos OperationalError] (Ok []).
Proof.
  destruct (sin_tablas_nada_funciona calendario base_nueva eq_refl eq_refl eq_refl)
    as [_ [_ [_ [_ [Hl _]]]]].
  split; [vm_compute; reflexivity | exact (Hl None)].
Defined.

(** ** The example of use *)

Section Guion.

Variable Inv : base -> Prop.
Variable Bien : linea -> Prop.

Lemma mantiene_devolver {A : Type} (a : A) (Q : A -> Prop) :
  Q a -> mantiene Inv Bien (devolver a) Q.
Proof.
  intros Hq db Hi. simpl. repeat split; [exact Hi | constructor | exact Hq].
Qed.

Lemma mantiene_interrumpir {A : Type} (e : interrupcion) (Q : A -> Prop) :
  mantiene Inv Bien (interrumpir e) Q.
Proof.
  intros db Hi. simpl. repeat split; [exact Hi | constructor].
Qed.

Lemma mantiene_imprimir (l : linea) :
  Bien l -> mantiene Inv Bien (imprimir l) (fun _ => True).
Proof.
  intros Hl db Hi. simpl. repeat split; [exact Hi | now constructor].
Qed.

Lemma mantiene_luego {A B : Type} (c : guion A) (k : A -> guion B)
      (Q : A -> Prop) (R : B -> Prop) :
  mantiene Inv Bien c Q ->
  (forall a, Q a -> mantiene Inv Bien (k a) R) ->
  mantiene Inv Bien (luego c k) R.
Proof.
  intros Hc Hk db Hi. unfold luego.
  specialize (Hc db Hi).
  destruct (c db) as [[db1 l1] [a|e]].
  - destruct Hc as [Hi1 [Hl1 Ha]].
    specialize (Hk a Ha db1 Hi1).
    destruct (k a db1) as [[db2 l2] r].
    destruct Hk as [Hi2 [Hl2 Hr]].
    repeat split; [exact Hi2 | now apply Forall_app | exact Hr].
  - destruct Hc as [Hi1 [Hl1 _]]. repeat split; assumption.
Qed.

Lemma mantiene_debil {A : Type} (c : guion A) (Q Q' : A -> Prop) :
  mantiene Inv Bien c Q -> (forall a, Q a -> Q' a) -> mantiene Inv Bien c Q'.
Proof.
  intros Hc Hq db Hi. specialize (Hc db Hi).
  destruct (c db) as [[db1 l1] [a|e]]; destruct Hc as [H1 [H2 H3]];
    repeat split; auto.
Qed.

Lemma mantiene_elemento (k : nat) (x : list valor) :
  mantiene Inv Bien (elemento k x) (fun _ => True).
Proof.
  unfold elemento. destruct (nth_error x k).
  - now apply mantiene_devolver.
  - apply mantiene_interrumpir.
Qed.

(** A method that leaves [Inv] and prints only good lines. *)
Lemma mantiene_metodo {A : Type} (m : base -> salida A) (Q : A -> Prop) :
  (forall db, Inv db ->
     Inv (db_final (m db)) /\ Forall Bien (map DeMetodo (impreso (m db)))
     /\ forall a, devuelto (m db) = Ok a -> Q a) ->
  mantiene Inv Bien (metodo m) Q.
Proof.
  intros H db Hi. destruct (H db Hi) as [H1 [H2 H3]]. unfold metodo.
  repeat split; [exact H1 | exact H2 |].
  destruct (devuelto (m db)); [now apply H3 | exact I].
Qed.

Lemma mantiene_registro {A : Type} (m : base -> resultado A) (Q : A -> Prop) :
  (forall db, Inv db ->
     Inv (rs_db (m db)) /\ Forall Bien (map DeRegistro (rs_avisos (m db)))
     /\ forall a, rs_valor (m db) = Ok a -> Q a) ->
  mantiene Inv Bien (registro m) Q.
Proof.
  intros H db Hi. destruct (H db Hi) as [H1 [H2 H3]]. unfold registro.
  repeat split; [exact H1 | exact H2 |].
  destruct (rs_valor (m db)); [now apply H3 | exact I].
Qed.

End Guion.

Lemma sin_altas_de_registro (l : list aviso) : Forall sin_altas (map DeRegistro l).
Proof.
  induction l; simpl; constructor; [exact I | assumption].
Qed.

Lemma rowid_asignar (set : list (string * valor)) (donde : fila -> bool) (l : list fila) :
  map rowid (map (fun f => if donde f then asignar set f else f) l) = map rowid l.
Proof.
  rewrite map_map. apply map_ext. intro f. now destruct (donde f).
Qed.

Lemma sql_update_mismos_ids (db : base) (set : list (string * valor))
      (cw : list string) (pw : list valor) (donde : tabla -> fila -> sql_bool)
      (t' : tabla) (n : Z) :
  sql_update (turnos db) set cw pw donde = Ok (t', n) ->
  ids_de_turnos (con_turnos db t') = ids_de_turnos db.
Proof.
  intro H. apply sql_update_ok in H.
  destruct H as [t [Ht [_ [_ [_ [Hf _]]]]]].
  unfold ids_de_turnos. simpl. rewrite Ht. simpl. rewrite Hf.
  now rewrite rowid_asignar.
Qed.

Section Ejemplo.

Variable L : biblioteca.
Variable db0 : base.

Lemma ejemplo_registrar_paciente (nombre apellido dni : string)
      (fecha_nacimiento telefono email direccion : option string) :
  mantiene (mismas_altas db0) sin_altas
    (metodo (fun db => registrar_paciente db nombre apellido dni fecha_nacimiento
                                          telefono email direccion))
    (fun r => r = None).
Proof.
  apply mantiene_metodo. intros db Hi. unfold registrar_paciente.
  rewrite sql_insert_descuadrado by (simpl; discriminate). simpl.
  repeat split; try apply Hi.
  - repeat constructor.
  - intros a Ha. now inversion Ha.
Qed.

Lemma ejemplo_registrar_medico (nombre apellido especialidad matricula : string)
      (telefono email : option string) :
  mantiene (mismas_altas db0) sin_altas
    (registro (fun db => registrar_medico db nombre apellido especialidad matricula
                                          telefono email))
    (fun _ => True).
Proof.
  apply mantiene_registro. intros db Hi.
  split; [|split; [apply sin_altas_de_registro | trivial]].
  unfold registrar_medico.
  destruct (sql_insert _ _ _) as [[t id]|e]; [exact Hi|].
  destruct (es_integrity_error e); [exact Hi|].
  destruct (es_sqlite_error e); exact Hi.
Qed.

Lemma ejemplo_listar_turnos_por_fecha (fecha : string) :
  mantiene (mismas_altas db0) sin_altas
    (metodo (fun db => listar_turnos_por_fecha L db fecha)) (fun _ => True).
Proof.
  apply mantiene_metodo. intros db Hi. unfold listar_turnos_por_fecha.
  destruct (seleccionar_por_fecha L db fecha) as [filas|e]; simpl.
  - repeat split; [apply Hi | apply Hi | constructor].
  - destruct (es_sqlite_error e); simpl;
      repeat split; first [apply Hi | repeat constructor].
Qed.

Lemma ejemplo_por_cada (l : list (list valor)) :
  mantiene (mismas_altas db0) sin_altas (por_cada l) (fun _ => True).
Proof.
  induction l as [|x l IH]; simpl.
  - now apply mantiene_devolver.
  - eapply mantiene_luego; [|intros _ _; exact IH].
    unfold imprimir_turno.
    repeat (eapply mantiene_luego; [apply mantiene_elemento | intros ? _]).
    now apply mantiene_imprimir.
Qed.

Lemma ejemplo_actualizar_estado_turno (turno_id : Z) (nuevo_estado : string)
      (observaciones : option string) :
  mantiene (mismas_altas db0) sin_altas
    (metodo (fun db => actualizar_estado_turno db turno_id nuevo_estado observaciones))
    (fun _ => True).
Proof.
  apply mantiene_metodo. intros db Hi. unfold actualizar_estado_turno.
  destruct (negb (existsb (String.eqb nuevo_estado) estados_validos)); simpl.
  { repeat split; first [apply Hi | repeat constructor]. }
  destruct (if verdadero observaciones then _ else _) as [[t n]|e] eqn:E.
  - assert (Hids : ids_de_turnos (con_turnos db t) = ids_de_turnos db).
    { destruct (verdadero observaciones);
        exact (sql_update_mismos_ids _ _ _ _ _ _ _ E). }
    assert (Hinv : mismas_altas db0 (con_turnos db t)).
    { split; [apply Hi | rewrite Hids; apply Hi]. }
    destruct (0 <? n); simpl; repeat split;
      first [apply Hinv | repeat constructor].
  - destruct (es_sqlite_error e); simpl;
      repeat split; first [apply Hi | repeat constructor].
Qed.

Lemma ejemplo_buscar_paciente_por_dni (dni : string) :
  mantiene (mismas_altas db0) sin_altas
    (registro (fun db => buscar_paciente_por_dni db dni)) (fun _ => True).
Proof.
  apply mantiene_registro. intros db Hi.
  split; [|split; [apply sin_altas_de_registro | trivial]].
  unfold buscar_paciente_por_dni.
  destruct (sql_select _ _ _ _ _) as [filas|e]; [exact Hi|].
  destruct (es_sqlite_error e); exact Hi.
Qed.

Lemma ejemplo_construir (db_name : string) :
  mantiene (mismas_altas db0) sin_altas (construir db_name) (fun _ => True).
Proof.
  unfold construir, conectar.
  eapply mantiene_luego; [now apply mantiene_imprimir | intros _ _].
  apply mantiene_metodo. intros db Hi. simpl.
  repeat split; first [apply Hi | repeat constructor].
Qed.

End Ejemplo.

(** X18.  The example of use at the end of [app.py] registers no patient
    and books no appointment, on any database and with any calendar
    library: when it ends or stops, the patients table is the one it
    found, the appointments table holds the same ids in the same
    order, and no line of its output announces a new patient or a new
    appointment.  Every [registrar_paciente] returns None, so both
    [if paciente_id and medico_id:] are false and [crear_turno] is
    never called. *)
Theorem ejemplo_de_uso_sin_altas (L : biblioteca) (db : base) :
  pacientes (fst (fst (ejemplo_de_uso L db))) = pacientes db
  /\ ids_de_turnos (fst (fst (ejemplo_de_uso L db))) = ids_de_turnos db
  /\ Forall sin_altas (snd (fst (ejemplo_de_uso L db))).
Proof.
  assert (H : mantiene (mismas_altas db) sin_altas (ejemplo_de_uso L) (fun _ => True)).
  { unfold ejemplo_de_uso.
    eapply mantiene_luego; [apply ejemplo_construir | intros _ _].
    do 5 (eapply mantiene_luego; [now apply mantiene_imprimir | intros _ _]).
    eapply mantiene_luego; [apply ejemplo_registrar_paciente | intros p1 H1].
    eapply mantiene_luego; [apply ejemplo_registrar_paciente | intros p2 H2].
    eapply mantiene_luego; [apply ejemplo_registrar_paciente | intros p3 H3].
    simpl in H1, H2, H3. subst p1 p2 p3.
    do 2 (eapply mantiene_luego; [now apply mantiene_imprimir | intros _ _]).
    eapply mantiene_luego; [apply ejemplo_registrar_medico | intros m1 _].
    eapply mantiene_luego; [apply ejemplo_registrar_medico | intros m2 _].
    do 2 (eapply mantiene_luego; [now apply mantiene_imprimir | intros _ _]).
    eapply mantiene_luego;
      [exact (mantiene_devolver _ _ tt (fun _ => True) I) | intros _ _].
    eapply mantiene_luego;
      [exact (mantiene_devolver _ _ tt (fun _ => True) I) | intros _ _].
    do 2 (eapply mantiene_luego; [now apply mantiene_imprimir | intros _ _]).
    eapply mantiene_luego; [apply ejemplo_listar_turnos_por_fecha | intros filas _].
    eapply mantiene_luego; [apply ejemplo_por_cada | intros _ _].
    do 2 (eapply mantiene_luego; [now apply mantiene_imprimir | intros _ _]).
    eapply mantiene_luego; [apply ejemplo_actualizar_estado_turno | intros _ _].
    do 2 (eapply mantiene_luego; [now apply mantiene_imprimir | intros _ _]).
    eapply mantiene_luego; [apply ejemplo_buscar_paciente_por_dni | intros o _].
    eapply mantiene_luego.
    { instantiate (1 := fun _ => True).
      destruct o as [[|v x]|]; try (now apply mantiene_devolver).
      repeat (eapply mantiene_luego; [apply mantiene_elemento | intros ? _]).
      now apply mantiene_imprimir. }
    intros _ _.
    do 3 (eapply mantiene_luego; [now apply mantiene_imprimir | intros _ _]).
    unfold cerrar_conexion. now apply mantiene_imprimir. }
  specialize (H db (conj eq_refl eq_refl)).
  destruct (ejemplo_de_uso L db) as [[db' ls] r]. simpl.
  destruct H as [[Hp Ht] [Hl _]]. auto.
Qed.

(** What running [app.py] prints on a new file, where [crear_tablas]
    has created nothing; the closing line comes twice, from the block
    and from the destructor. *)
Example programa_en_base_nueva :
  programa calendario base_nueva
  = (base_nueva,
     [ ConexionExitosa "hospital_turnos.db";
       DeMetodo (MsgErrorCrearTablas OperationalError);
       Texto (salto ++ barra); Texto "EJEMPLO DE USO DEL SISTEMA"; Texto (barra ++ salto);
       Texto "1. REGISTRANDO PACIENTES"; Texto guiones;
       DeMetodo (MsgErrorRegistrarPaciente OperationalError);
       DeMetodo (MsgErrorRegistrarPaciente OperationalError);
       DeMetodo (MsgErrorRegistrarPaciente OperationalError);
       Texto (salto ++ "2. REGISTRANDO MÉDICOS"); Texto guiones;
       DeRegistro (AvisoErrorRegistrarMedico OperationalError);
       DeRegistro (AvisoErrorRegistrarMedico OperationalError);
       Texto (salto ++ "3. CREANDO TURNOS"); Texto guiones;
       Texto (salto ++ "4. TURNOS DEL DÍA 2025-11-20"); Texto guiones;
       DeMetodo (MsgErrorListarTurnos OperationalError);
       Texto (salto ++ "5. ACTUALIZANDO ESTADO DE TURNO"); Texto guiones;
       DeMetodo (MsgErrorActualizarEstado OperationalError);
       Texto (salto ++ "6. BUSCAR PACIENTE POR DNI"); Texto guiones;
       DeRegistro (AvisoErrorBuscarPaciente OperationalError);
       Texto (salto ++ barra); Texto "FIN DEL EJEMPLO"; Texto (barra ++ salto);
       ConexionCerrada; ConexionCerrada ],
     inl tt).
Proof. vm_compute. reflexivity. Qed.

(** What it prints on a database that has the tables the statements
    name, one patient with the DNI it looks for, a physician with the
    first licence and two appointments on the day it lists. *)
Example programa_con_datos :
  snd (fst (programa calendario base_con_datos))
  = [ ConexionExitosa "hospital_turnos.db";
      DeMetodo (MsgErrorCrearTablas OperationalError);
      Texto (salto ++ barra); Texto "EJEMPLO DE USO DEL SISTEMA"; Texto (barra ++ salto);
      Texto "1. REGISTRANDO PACIENTES"; Texto guiones;
      DeMetodo (MsgErrorRegistrarPaciente OperationalError);
      DeMetodo (MsgErrorRegistrarPaciente OperationalError);
      DeMetodo (MsgErrorRegistrarPaciente OperationalError);
      Texto (salto ++ "2. REGISTRANDO MÉDICOS"); Texto guiones;
      DeRegistro (AvisoMatriculaDuplicada "MN12345");
      DeRegistro (AvisoMedicoRegistrado 2);
      Texto (salto ++ "3. CREANDO TURNOS"); Texto guiones;
      Texto (salto ++ "4. TURNOS DEL DÍA 2025-11-20"); Texto guiones;
      LineaTurno (VInt 2) (VText "Milagros") (VText "Suarez") (VText "Carla")
                 (VText "Ruiz") (VText "Clinica") (VText "2025-11-20 09:00")
                 (VText "cancelado");
      LineaTurno (VInt 1) (VText "Milagros") (VText "Suarez") (VText "Carla")
                 (VText "Ruiz") (VText "Clinica") (VText "2025-11-20 10:00")
                 (VText "pendiente");
      Texto (salto ++ "5. ACTUALIZANDO ESTADO DE TURNO"); Texto guiones;
      DeMetodo (MsgEstadoActualizado "confirmado");
      Texto (salto ++ "6. BUSCAR PACIENTE POR DNI"); Texto guiones;
      LineaEncontrado (VText "Milagros") (VText "Suarez") (VText "2432423");
      Texto (salto ++ barra); Texto "FIN DEL EJEMPLO"; Texto (barra ++ salto);
      ConexionCerrada; ConexionCerrada ].
Proof. vm_compute. reflexivity. Qed.

(** ** Two callers *)

Lemma max_rowid_al_final (l : list fila) (f : fila) :
  max_rowid (l ++ [f]) = Z.max (max_rowid l) (Z.max (rowid f) 0).
Proof.
  induction l as [|g l IH]; simpl; [lia|]. rewrite IH. lia.
Qed.

Lemma pares_sin_solape_dos_al_final (l : list (Z * Z)) (a b c d : Z) :
  solapan a b c d = true ->
  pares_sin_solape (l ++ [(a, b); (c, d)]) = false.
Proof.
  intro H. change (l ++ [(a, b); (c, d)]) with (l ++ [(a, b)] ++ [(c, d)]).
  rewrite app_assoc, pares_sin_solape_al_final, forallb_app. simpl.
  rewrite H. simpl. now rewrite !andb_false_r.
Qed.

(** One caller alone: its two accesses, one after the other, are
    [crear_turno]. *)
Lemma avanzar_dos_veces (L : biblioteca) (medico_id : Z) (c : llamada) (db : base) :
  avanzar L medico_id c (fst (avanzar L medico_id c db PorVerificar))
          (snd (avanzar L medico_id c db PorVerificar))
  = (db_final (crear_turno L db (ll_paciente c) medico_id (ll_fecha_hora c)
                           (ll_duracion c) (ll_motivo c)),
     Terminado
       (impreso (crear_turno L db (ll_paciente c) medico_id (ll_fecha_hora c)
                             (ll_duracion c) (ll_motivo c)))
       (devuelto (crear_turno L db (ll_paciente c) medico_id (ll_fecha_hora c)
                              (ll_duracion c) (ll_motivo c)))).
Proof.
  unfold avanzar, crear_turno.
  destruct (verificar_disponibilidad L db medico_id (ll_fecha_hora c) (ll_duracion c))
    as [avisos disponible].
  destruct disponible; simpl; [|reflexivity].
  match goal with
  | |- context [sql_insert ?o ?k ?v] => destruct (sql_insert o k v) as [[t id]|e]
  end; [reflexivity|].
  destruct (es_sqlite_error e); reflexivity.
Qed.

(** When one caller is done before the other starts, they get what two
    calls of [crear_turno] in a row give. *)
Lemma correr_en_serie (L : biblioteca) (medico_id : Z) (c1 c2 : llamada) (db : base) :
  correr L medico_id c1 c2 db [Uno; Uno; Otro; Otro]
  = mk_carrera
      (db_final
         (crear_turno L
            (db_final (crear_turno L db (ll_paciente c1) medico_id (ll_fecha_hora c1)
                                   (ll_duracion c1) (ll_motivo c1)))
            (ll_paciente c2) medico_id (ll_fecha_hora c2) (ll_duracion c2) (ll_motivo c2)))
      (Terminado
         (impreso (crear_turno L db (ll_paciente c1) medico_id (ll_fecha_hora c1)
                               (ll_duracion c1) (ll_motivo c1)))
         (devuelto (crear_turno L db (ll_paciente c1) medico_id (ll_fecha_hora c1)
                                (ll_duracion c1) (ll_motivo c1))))
      (Terminado
         (impreso
            (crear_turno L
               (db_final (crear_turno L db (ll_paciente c1) medico_id (ll_fecha_hora c1)
                                      (ll_duracion c1) (ll_motivo c1)))
               (ll_paciente c2) medico_id (ll_fecha_hora c2) (ll_duracion c2)
               (ll_motivo c2)))
         (devuelto
            (crear_turno L
               (db_final (crear_turno L db (ll_paciente c1) medico_id (ll_fecha_hora c1)
                                      (ll_duracion c1) (ll_motivo c1)))
               (ll_paciente c2) medico_id (ll_fecha_hora c2) (ll_duracion c2)
               (ll_motivo c2)))).
Proof.
  unfold correr. cbn [fold_left].
  pose proof (avanzar_dos_veces L medico_id c1 db) as H1.
  unfold turno_de at 4. cbn [cr_db cr_uno cr_otro].
  destruct (avanzar L medico_id c1 db PorVerificar) as [d1 p1]. simpl in H1.
  unfold turno_de at 3. cbn [cr_db cr_uno cr_otro]. rewrite H1. clear H1.
  set (db1 := db_final (crear_turno L db (ll_paciente c1) medico_id (ll_fecha_hora c1)
                                    (ll_duracion c1) (ll_motivo c1))).
  pose proof (avanzar_dos_veces L medico_id c2 db1) as H2.
  unfold turno_de at 2. cbn [cr_db cr_uno cr_otro].
  destruct (avanzar L medico_id c2 db1 PorVerificar) as [d2 p2]. simpl in H2.
  unfold turno_de. cbn [cr_db cr_uno cr_otro]. rewrite H2. reflexivity.
Qed.

(** C9, the defect behind it.  [crear_turno] asks whether the slot is
    free and then inserts, and nothing holds the two together.  Take two
    callers with a connection each and two requests for one physician
    whose intervals overlap, on a table that takes their rows and where
    new rows start as [pendiente]; let each request find its slot free
    on the database as it is.  When both checks run before either
    INSERT, both calls report a new appointment and return an
    identifier, and the table ends with both appointments pending for
    that physician: the intervals of the physician are no longer
    pairwise non-overlapping. *)
Theorem crear_turno_carrera :
  forall (L : biblioteca) (db : base) (t : tabla) (medico_id : Z) (c1 c2 : llamada)
         (dt1 dt2 : Z),
    turnos db = Some t ->
    admite_turnos t = true ->
    estado_inicial t = VText "pendiente" ->
    cabe_en_sqlite (VInt (ll_paciente c1)) = true ->
    cabe_en_sqlite (VInt (ll_duracion c1)) = true ->
    cabe_en_sqlite (VInt (ll_paciente c2)) = true ->
    cabe_en_sqlite (VInt (ll_duracion c2)) = true ->
    strptime L (ll_fecha_hora c1) = Some dt1 ->
    strptime L (ll_fecha_hora c2) = Some dt2 ->
    solapan dt1 (dt1 + ll_duracion c1) dt2 (dt2 + ll_duracion c2) = true ->
    snd (verificar_disponibilidad L db medico_id (ll_fecha_hora c1) (ll_duracion c1))
    = true ->
    snd (verificar_disponibilidad L db medico_id (ll_fecha_hora c2) (ll_duracion c2))
    = true ->
    exists t',
      correr L medico_id c1 c2 db [Uno; Otro; Uno; Otro]
      = mk_carrera (con_turnos db t')
          (Terminado [MsgTurnoCreado (siguiente_rowid t)]
                     (Ok (Some (siguiente_rowid t))))
          (Terminado [MsgTurnoCreado (siguiente_rowid t + 1)]
                     (Ok (Some (siguiente_rowid t + 1))))
      /\ intervalos_activos L t' medico_id
         = intervalos_activos L t medico_id
           ++ [(dt1, dt1 + ll_duracion c1); (dt2, dt2 + ll_duracion c2)]
      /\ pares_sin_solape (intervalos_activos L t' medico_id) = false.
Proof.
  intros L db t medico_id c1 c2 dt1 dt2 Ht Ha Hest Hp1 Hd1 Hp2 Hd2 Hs1 Hs2 Hsol Hv1 Hv2.
  destruct (verificar_disponibilidad_cierta L _ _ _ _ Hv1) as [t0 [d0 [_ [_ [Hm _]]]]].
  clear t0 d0.
  pose proof (verificar_disponibilidad_sin_avisos L _ _ _ _ Hv1) as Ha1.
  pose proof (verificar_disponibilidad_sin_avisos L _ _ _ _ Hv2) as Ha2.
  assert (Hk : es_clave t "id" = true /\
               tiene_columnas t ["paciente_id"; "medico_id"; "fecha_hora"; "duracion";
                                 "motivo_consulta"] = true).
  { unfold admite_turnos in Ha. apply andb_true_iff in Ha. destruct Ha as [Ha _].
    now apply andb_true_iff in Ha. }
  destruct Hk as [Hk Hcols].
  set (id := siguiente_rowid t).
  set (dados1 := combine ["paciente_id"; "medico_id"; "fecha_hora"; "duracion";
                          "motivo_consulta"]
                         [VInt (ll_paciente c1); VInt medico_id; VText (ll_fecha_hora c1);
                          VInt (ll_duracion c1); de_opcional (ll_motivo c1)]).
  set (dados2 := combine ["paciente_id"; "medico_id"; "fecha_hora"; "duracion";
                          "motivo_consulta"]
                         [VInt (ll_paciente c2); VInt medico_id; VText (ll_fecha_hora c2);
                          VInt (ll_duracion c2); de_opcional (ll_motivo c2)]).
  set (f1 := fila_nueva t dados1 id).
  set (f2 := fila_nueva t dados2 (id + 1)).
  set (t1 := {| tb_clave := tb_clave t; tb_columnas := tb_columnas t;
                tb_secuencia := Z.max (tb_secuencia t) id;
                tb_filas := tb_filas t ++ [f1] |}).
  set (t2 := {| tb_clave := tb_clave t; tb_columnas := tb_columnas t;
                tb_secuencia := Z.max (Z.max (tb_secuencia t) id) (id + 1);
                tb_filas := (tb_filas t ++ [f1]) ++ [f2] |}).
  assert (Hsig : siguiente_rowid t1 = id + 1).
  { unfold siguiente_rowid, t1. cbn [tb_secuencia tb_filas].
    rewrite max_rowid_al_final. unfold f1, fila_nueva. cbn [rowid].
    unfold id, siguiente_rowid.
    assert (0 <= max_rowid (tb_filas t)).
    { clear. induction (tb_filas t) as [|g l IH]; simpl; lia. }
    lia. }
  assert (E1 : avanzar L medico_id c1 db PorVerificar = (db, PorInsertar [])).
  { unfold avanzar.
    destruct (verificar_disponibilidad L db medico_id (ll_fecha_hora c1) (ll_duracion c1))
      as [a d]. simpl in Hv1, Ha1. subst. reflexivity. }
  assert (E2 : avanzar L medico_id c2 db PorVerificar = (db, PorInsertar [])).
  { unfold avanzar.
    destruct (verificar_disponibilidad L db medico_id (ll_fecha_hora c2) (ll_duracion c2))
      as [a d]. simpl in Hv2, Ha2. subst. reflexivity. }
  assert (E3 : avanzar L medico_id c1 db (PorInsertar [])
               = (con_turnos db t1, Terminado [MsgTurnoCreado id] (Ok (Some id)))).
  { unfold avanzar. rewrite Ht, sql_insert_turno_admitido by assumption. reflexivity. }
  assert (E4 : avanzar L medico_id c2 (con_turnos db t1) (PorInsertar [])
               = (con_turnos db t2,
                  Terminado [MsgTurnoCreado (id + 1)] (Ok (Some (id + 1))))).
  { unfold avanzar. cbn [turnos con_turnos].
    rewrite (sql_insert_turno_admitido t1) by assumption.
    rewrite Hsig. reflexivity. }
  assert (Hi : intervalos_activos L t2 medico_id
               = intervalos_activos L t medico_id
                 ++ [(dt1, dt1 + ll_duracion c1); (dt2, dt2 + ll_duracion c2)]).
  { destruct (fila_de_turno_leida t (ll_paciente c1) medico_id (ll_fecha_hora c1)
                (ll_duracion c1) (ll_motivo c1) id Hk Hcols)
      as [_ [Lm1 [Lf1 [Ld1 Le1]]]].
    destruct (fila_de_turno_leida t (ll_paciente c2) medico_id (ll_fecha_hora c2)
                (ll_duracion c2) (ll_motivo c2) (id + 1) Hk Hcols)
      as [_ [Lm2 [Lf2 [Ld2 Le2]]]].
    fold dados1 in Lm1, Lf1, Ld1, Le1. fold f1 in Lm1, Lf1, Ld1, Le1.
    fold dados2 in Lm2, Lf2, Ld2, Le2. fold f2 in Lm2, Lf2, Ld2, Le2.
    unfold intervalos_activos. cbn [tb_filas t2].
    rewrite (intervalos_de_misma_clave L t t2) by reflexivity.
    unfold intervalos_de. rewrite !flat_map_app. rewrite <- app_assoc. f_equal.
    cbn [flat_map app]. unfold es_activo_de, intervalo.
    rewrite Lm1, Lf1, Ld1, Le1, Lm2, Lf2, Ld2, Le2, Hest, Hs1, Hs2.
    cbn [valor_eqb]. rewrite Z.eqb_refl. reflexivity. }
  exists t2. split; [|split; [exact Hi|]].
  - unfold correr. cbn [fold_left].
    unfold turno_de at 4. cbn [cr_db cr_uno cr_otro]. rewrite E1.
    unfold turno_de at 3. cbn [cr_db cr_uno cr_otro]. rewrite E2.
    unfold turno_de at 2. cbn [cr_db cr_uno cr_otro]. rewrite E3.
    unfold turno_de. cbn [cr_db cr_uno cr_otro]. rewrite E4. reflexivity.
  - rewrite Hi. now apply pares_sin_solape_dos_al_final.
Qed.

Lemma crear_turno_carrera_ejemplo :
  exists t',
    correr calendario 1 (mk_llamada 1 "2025-11-20 10:00" 30 None)
           (mk_llamada 2 "2025-11-20 10:15" 30 None) base_ejemplo
           [Uno; Otro; Uno; Otro]
    = mk_carrera (con_turnos base_ejemplo t')
        (Terminado [MsgTurnoCreado 1] (Ok (Some 1)))
        (Terminado [MsgTurnoCreado 2] (Ok (Some 2)))
    /\ intervalos_activos calendario t' 1
       = [(1064987160, 1064987190); (1064987175, 1064987205)]
    /\ pares_sin_solape (intervalos_activos calendario t' 1) = false.
Proof.
  assert (Hs1 : strptime calendario "2025-11-20 10:00" = Some 1064987160)
    by (vm_compute; reflexivity).
  assert (Hs2 : strptime calendario "2025-11-20 10:15" = Some 1064987175)
    by (vm_compute; reflexivity).
  assert (Hv1 : snd (verificar_disponibilidad calendario base_ejemplo 1
                       "2025-11-20 10:00" 30) = true)
    by (vm_compute; reflexivity).
  assert (Hv2 : snd (verificar_disponibilidad calendario base_ejemplo 1
                       "2025-11-20 10:15" 30) = true)
    by (vm_compute; reflexivity).
  exact (crear_turno_carrera calendario base_ejemplo (tabla_turnos (VText "pendiente")) 1
           (mk_llamada 1 "2025-11-20 10:00" 30 None)
           (mk_llamada 2 "2025-11-20 10:15" 30 None)
           1064987160 1064987175
           eq_refl eq_refl eq_refl eq_refl eq_refl eq_refl eq_refl Hs1 Hs2 eq_refl
           Hv1 Hv2).
Defined.

(** The rows the two callers leave, and what the second gets when the
    first is done before it starts. *)
Example crear_turno_carrera_filas :
  option_map tb_filas
    (turnos (cr_db (correr calendario 1 (mk_llamada 1 "2025-11-20 10:00" 30 None)
                           (mk_llamada 2 "2025-11-20 10:15" 30 None) base_ejemplo
                           [Uno; Otro; Uno; Otro])))
  = Some [turno 1 1 1 "2025-11-20 10:00" 30 "pendiente";
          turno 2 2 1 "2025-11-20 10:15" 30 "pendiente"]
  /\ correr calendario 1 (mk_llamada 1 "2025-11-20 10:00" 30 None)
            (mk_llamada 2 "2025-11-20 10:15" 30 None) base_ejemplo
            [Uno; Uno; Otro; Otro]
     = mk_carrera
         (db_final (crear_turno calendario base_ejemplo 1 1 "2025-11-20 10:00" 30 None))
         (Terminado [MsgTurnoCreado 1] (Ok (Some 1)))
         (Terminado [MsgNoDisponible] (Ok None)).
Proof. split; vm_compute; reflexivity. Qed.
